(** * Clinical_trial_agent: the registry client and the aggregator

    A shallow embedding of [src/clinical_trials_api.py] and the properties
    of its six operations: [count_trials], [show_trials], [search_trials],
    [analyze_criteria], [calculate_statistics] and [extract_sites].

    Modelling conventions.
    - A Python object reachable from the code is a [value]: [None], a
      [bool], an [int] (unbounded, [Z]), a [float], a [str], a [list] or a
      [dict].  A [float] is a binary64 number: a finite one is known by
      the rational it denotes ([Q]), and an operation on floats rounds its
      exact result to the nearest binary64 number, as the machine does.
    - A [str] is a [string] whose characters are code points below 256.
    - A [dict] is an association list in insertion order whose keys are
      compared the way Python compares hashable keys ([1 == 1.0 == True]).
    - Code that can raise runs in the [result] monad: [Ok v] is a normal
      return, [Raise e] an exception travelling up the stack.
    - The registry is the environment: a function from the requests made so
      far and the current request to what [requests.get] does. *)

From Stdlib Require Import ZArith QArith List String Ascii Bool Lia.
From Stdlib Require Import DecimalString.
Import ListNotations.

Local Open Scope string_scope.
Local Open Scope Z_scope.

(** ** Python values *)

(** A [float]: a finite binary64 number by its exact value, an infinity or
    NaN.  The two zeros are one value here: the code never divides by a
    float of its data nor prints one. *)
Inductive float : Type :=
| Finite (q : Q)
| Infinite (negative : bool)
| NaN.

#[warnings="-register-all"]
Inductive value : Type :=
| VNone
| VBool (b : bool)
| VInt (z : Z)
| VFloat (x : float)
| VStr (s : string)
| VList (l : list value)
| VDict (d : list (value * value)).

(** [type(v).__name__], as it appears in the interpreter's messages. *)
Definition type_name (v : value) : string :=
  match v with
  | VNone => "NoneType"
  | VBool _ => "bool"
  | VInt _ => "int"
  | VFloat _ => "float"
  | VStr _ => "str"
  | VList _ => "list"
  | VDict _ => "dict"
  end.

(** [bool(v)]: the truth value tested by [if v:] and [not v]. *)
Definition truthy (v : value) : bool :=
  match v with
  | VNone => false
  | VBool b => b
  | VInt z => negb (z =? 0)
  | VFloat (Finite q) => negb (Qeq_bool q 0)
  | VFloat _ => true
  | VStr s => negb (String.eqb s "")
  | VList l => match l with [] => false | _ => true end
  | VDict d => match d with [] => false | _ => true end
  end.

(** The number a [bool], an [int] or a finite [float] denotes. *)
Definition num_of (v : value) : option Q :=
  match v with
  | VBool b => Some (if b then 1%Q else 0%Q)
  | VInt z => Some (inject_Z z)
  | VFloat (Finite q) => Some q
  | _ => None
  end.

(** [list] and [dict] objects have no hash. *)
Definition hashable (v : value) : bool :=
  match v with
  | VList _ | VDict _ => false
  | _ => true
  end.

(** Equality of two hashable keys, as a [dict] decides it: numbers by
    value across [bool], [int] and [float], strings by content.  The NaN
    of a payload is one object ([json] hands out the same one each time),
    which a [dict] finds again by identity. *)
Definition key_eqb (a b : value) : bool :=
  match a, b with
  | VNone, VNone => true
  | VStr s, VStr t => String.eqb s t
  | VFloat (Infinite m), VFloat (Infinite n) => Bool.eqb m n
  | VFloat NaN, VFloat NaN => true
  | _, _ =>
      match num_of a, num_of b with
      | Some p, Some q => Qeq_bool p q
      | _, _ => false
      end
  end.

Fixpoint dict_lookup {V : Type} (k : value) (d : list (value * V)) : option V :=
  match d with
  | [] => None
  | (k', v) :: d' => if key_eqb k k' then Some v else dict_lookup k d'
  end.

(** [d[k] = v] on a dict: an existing key keeps its place (and its first
    spelling), a new key goes last. *)
Fixpoint dict_set {V : Type} (k : value) (v : V) (d : list (value * V)) : list (value * V) :=
  match d with
  | [] => [(k, v)]
  | (k', v') :: d' =>
      if key_eqb k k' then (k', v) :: d' else (k', v') :: dict_set k v d'
  end.

(** ** Exceptions and the result monad *)

Inductive exn_class : Type :=
| AttributeError
| TypeError
| ValueError
| Timeout                (* requests.exceptions.Timeout *)
| ConnectionError        (* requests.exceptions.ConnectionError *)
| RequestException       (* any other failure of requests.get *)
| KeyError
| IndexError
| HTTPError              (* raised by Response.raise_for_status *)
| JSONDecodeError        (* raised by Response.json *)
| OverflowError
| ZeroDivisionError.

(** An exception object: its class and [str(e)]. *)
Record exn : Type := mkExn { exn_kind : exn_class; exn_str : string }.

Inductive result (A : Type) : Type :=
| Ok (a : A)
| Raise (e : exn).
Arguments Ok {A} a.
Arguments Raise {A} e.

Definition bind {A B : Type} (m : result A) (k : A -> result B) : result B :=
  match m with
  | Ok a => k a
  | Raise e => Raise e
  end.

Notation "x <- m ;; k" := (bind m (fun x => k))
  (at level 61, m at next level, right associativity).
Notation "m ;;; k" := (bind m (fun _ => k))
  (at level 61, right associativity).

(** [try: body except Exception as e: handler(e)].  Every class of
    [exn_class] derives from [Exception]. *)
Definition try_except {A : Type} (body : result A) (handler : exn -> result A) : result A :=
  match body with
  | Ok a => Ok a
  | Raise e => handler e
  end.

Definition no_attribute (v : value) (attr : string) : exn :=
  mkExn AttributeError ("'" ++ type_name v ++ "' object has no attribute '" ++ attr ++ "'").

Definition not_iterable (v : value) : exn :=
  mkExn TypeError ("'" ++ type_name v ++ "' object is not iterable").

Definition unhashable (v : value) : exn :=
  mkExn TypeError ("unhashable type: '" ++ type_name v ++ "'").

(** ** Built-in operations used by the source *)

(** [d.get(k, default)] with a string key: only a dict has [get]. *)
Definition py_get (d : value) (k : string) (default : value) : result value :=
  match d with
  | VDict kv =>
      Ok (match dict_lookup (VStr k) kv with Some v => v | None => default end)
  | _ => Raise (no_attribute d "get")
  end.

(** [d.get(k)]: the default is [None]. *)
Definition py_get1 (d : value) (k : string) : result value := py_get d k VNone.

Fixpoint chars (s : string) : list value :=
  match s with
  | EmptyString => []
  | String c s' => VStr (String c EmptyString) :: chars s'
  end.

(** The items [for x in v] goes through: the elements of a list, the keys
    of a dict, the characters of a string. *)
Definition py_iter (v : value) : result (list value) :=
  match v with
  | VList l => Ok l
  | VDict d => Ok (map fst d)
  | VStr s => Ok (chars s)
  | _ => Raise (not_iterable v)
  end.

(** [len(v)]. *)
Definition py_len (v : value) : result Z :=
  match v with
  | VList l => Ok (Z.of_nat (List.length l))
  | VDict d => Ok (Z.of_nat (List.length d))
  | VStr s => Ok (Z.of_nat (String.length s))
  | _ => Raise (mkExn TypeError ("object of type '" ++ type_name v ++ "' has no len()"))
  end.

(** [isinstance(v, dict)]. *)
Definition is_dict (v : value) : bool :=
  match v with VDict _ => true | _ => false end.

Definition is_str (v : value) : bool :=
  match v with VStr _ => true | _ => false end.

Definition is_list (v : value) : bool :=
  match v with VList _ => true | _ => false end.

(** [str(z)] and the [{z}] of an f-string, for an int. *)
Definition str_of_int (z : Z) : string := NilZero.string_of_int (Z.to_int z).

(** ** Strings *)

(** [s.startswith(p)]. *)
Fixpoint starts_with (p s : string) : bool :=
  match p, s with
  | EmptyString, _ => true
  | String a p', String b s' => Ascii.eqb a b && starts_with p' s'
  | String _ _, EmptyString => false
  end.

(** [sub in s] for two strings. *)
Fixpoint str_contains (sub s : string) : bool :=
  starts_with sub s ||
  match s with
  | EmptyString => false
  | String _ s' => str_contains sub s'
  end.

(** [s.split(sep)] for a non-empty [sep]: the separators are found from
    left to right and do not overlap.  [split_from sep skip s] returns the
    fragment that is being read and the fragments after it; [skip] counts
    the characters of a separator that was found and is being stepped
    over. *)
Fixpoint split_from (sep : string) (skip : nat) (s : string) : string * list string :=
  match s with
  | EmptyString => (EmptyString, [])
  | String c s' =>
      match skip with
      | S k => split_from sep k s'
      | O =>
          if starts_with sep s
          then (EmptyString,
                let (h, t) := split_from sep (Nat.pred (String.length sep)) s' in h :: t)
          else let (h, t) := split_from sep O s' in (String c h, t)
      end
  end.

Definition py_split (sep s : string) : list string :=
  let (h, t) := split_from sep O s in h :: t.

(** [c.isspace()] for a code point below 256: TAB..CR, FS..US, space, NEL
    and the no-break space. *)
Definition is_space (c : ascii) : bool :=
  let n := nat_of_ascii c in
  ((9 <=? n) && (n <=? 13) || (28 <=? n) && (n <=? 32) || (n =? 133) || (n =? 160))%nat.

Fixpoint lstrip (s : string) : string :=
  match s with
  | String c s' => if is_space c then lstrip s' else s
  | EmptyString => EmptyString
  end.

Fixpoint rstrip (s : string) : string :=
  match s with
  | EmptyString => EmptyString
  | String c s' =>
      match rstrip s' with
      | EmptyString => if is_space c then EmptyString else String c EmptyString
      | r => String c r
      end
  end.

(** [s.strip()]. *)
Definition py_strip (s : string) : string := rstrip (lstrip s).

(** [s[:n]] for [n >= 0]. *)
Fixpoint str_take (n : nat) (s : string) : string :=
  match n, s with
  | S k, String c s' => String c (str_take k s')
  | _, _ => EmptyString
  end.

(** [sep.join(parts)]. *)
Fixpoint py_join (sep : string) (parts : list string) : string :=
  match parts with
  | [] => EmptyString
  | [p] => p
  | p :: ps => p ++ sep ++ py_join sep ps
  end.

(** [v[:n]] for [n >= 0]. *)
Definition py_slice_to (n : nat) (v : value) : result value :=
  match v with
  | VStr s => Ok (VStr (str_take n s))
  | VList l => Ok (VList (firstn n l))
  | VDict _ => Raise (mkExn TypeError "unhashable type: 'slice'")
  | _ => Raise (mkExn TypeError ("'" ++ type_name v ++ "' object is not subscriptable"))
  end.

(** A dict display whose keys are string literals. *)
Definition obj (fields : list (string * value)) : value :=
  VDict (map (fun kv => (VStr (fst kv), snd kv)) fields).

(** [d[k] = v] for a string literal [k]; anything but a dict is left as
    it is (the source only assigns into dicts it has just built). *)
Definition set_item (d : value) (k : string) (v : value) : value :=
  match d with
  | VDict kv => VDict (dict_set (VStr k) v kv)
  | _ => d
  end.

(** [l.append(x)]. *)
Definition append {A : Type} (l : list A) (x : A) : list A := (l ++ [x])%list.

(** [[f(x) for x in xs]] where [f] may raise: the first exception ends
    the comprehension. *)
Fixpoint map_result {A B : Type} (f : A -> result B) (xs : list A) : result (list B) :=
  match xs with
  | [] => Ok []
  | x :: xs' =>
      y <- f x ;;
      ys <- map_result f xs' ;;
      Ok (y :: ys)
  end.

(** ** Normalization: [_parse_study] *)

Definition empty_dict : value := VDict [].
Definition empty_list : value := VList [].
Definition empty_str : value := VStr "".

(** The body of the loop over [interventions_raw]. *)
Definition parse_intervention (full_details : bool) (interv : value) : result value :=
  type <- py_get interv "type" empty_str ;;
  name <- py_get interv "name" empty_str ;;
  description <-
    (if negb full_details
     then d <- py_get interv "description" empty_str ;; py_slice_to 200 d
     else py_get interv "description" empty_str) ;;
  Ok (obj [("type", type); ("name", name); ("description", description)]).

(** The body of the loop over [locations_raw[:10]]. *)
Definition parse_location (loc : value) : result value :=
  facility <- py_get loc "facility" empty_str ;;
  city <- py_get loc "city" empty_str ;;
  state <- py_get loc "state" empty_str ;;
  country <- py_get loc "country" empty_str ;;
  status <- py_get loc "status" empty_str ;;
  Ok (obj [("facility", facility); ("city", city); ("state", state);
           ("country", country); ("status", status)]).

Definition parse_primary_outcome (outcome : value) : result value :=
  measure <- py_get outcome "measure" empty_str ;;
  description <- py_get outcome "description" empty_str ;;
  timeFrame <- py_get outcome "timeFrame" empty_str ;;
  Ok (obj [("measure", measure); ("description", description); ("timeFrame", timeFrame)]).

Definition parse_secondary_outcome (outcome : value) : result value :=
  measure <- py_get outcome "measure" empty_str ;;
  timeFrame <- py_get outcome "timeFrame" empty_str ;;
  Ok (obj [("measure", measure); ("timeFrame", timeFrame)]).

(** [d.get(k, {}).get(k2, "")]. *)
Definition get2 (d : value) (k k2 : string) : result value :=
  inner <- py_get d k empty_dict ;;
  py_get inner k2 empty_str.

Definition _parse_study (study : value) (full_details : bool) : result value :=
  protocol <- py_get study "protocolSection" empty_dict ;;
  (* Identification *)
  id_module <- py_get protocol "identificationModule" empty_dict ;;
  nct_id <- py_get id_module "nctId" empty_str ;;
  title <- py_get id_module "briefTitle" empty_str ;;
  official_title <- py_get id_module "officialTitle" empty_str ;;
  acronym <- py_get id_module "acronym" empty_str ;;
  organization <- get2 id_module "organization" "fullName" ;;
  (* Status & Dates *)
  status_module <- py_get protocol "statusModule" empty_dict ;;
  overall_status <- py_get status_module "overallStatus" empty_str ;;
  start_date <- get2 status_module "startDateStruct" "date" ;;
  start_date_type <- get2 status_module "startDateStruct" "type" ;;
  completion_date <- get2 status_module "completionDateStruct" "date" ;;
  completion_date_type <- get2 status_module "completionDateStruct" "type" ;;
  primary_completion_date <- get2 status_module "primaryCompletionDateStruct" "date" ;;
  first_posted <- get2 status_module "studyFirstPostDateStruct" "date" ;;
  last_updated <- get2 status_module "lastUpdatePostDateStruct" "date" ;;
  first_submit_date <- py_get status_module "studyFirstSubmitDate" empty_str ;;
  (* Sponsor *)
  sponsor_module <- py_get protocol "sponsorCollaboratorsModule" empty_dict ;;
  lead_sponsor <- py_get sponsor_module "leadSponsor" empty_dict ;;
  sponsor_name <- py_get lead_sponsor "name" empty_str ;;
  sponsor_class <- py_get lead_sponsor "class" empty_str ;;
  responsible_party <- py_get sponsor_module "responsibleParty" empty_dict ;;
  investigator_name <- py_get responsible_party "investigatorFullName" empty_str ;;
  investigator_affiliation <- py_get responsible_party "investigatorAffiliation" empty_str ;;
  (* Description *)
  description_module <- py_get protocol "descriptionModule" empty_dict ;;
  brief_summary <- py_get description_module "briefSummary" empty_str ;;
  detailed_description <- py_get description_module "detailedDescription" empty_str ;;
  (* Conditions *)
  conditions_module <- py_get protocol "conditionsModule" empty_dict ;;
  conditions <- py_get conditions_module "conditions" empty_list ;;
  (* Design *)
  design_module <- py_get protocol "designModule" empty_dict ;;
  study_type <- py_get design_module "studyType" empty_str ;;
  phases <- py_get design_module "phases" empty_list ;;
  enrollment_info <- py_get design_module "enrollmentInfo" empty_dict ;;
  enrollment_count <- py_get enrollment_info "count" (VInt 0) ;;
  enrollment_type <- py_get enrollment_info "type" empty_str ;;
  design_info <- py_get design_module "designInfo" empty_dict ;;
  allocation <- py_get design_info "allocation" empty_str ;;
  intervention_model <- py_get design_info "interventionModel" empty_str ;;
  primary_purpose <- py_get design_info "primaryPurpose" empty_str ;;
  (* Interventions *)
  arms_module <- py_get protocol "armsInterventionsModule" empty_dict ;;
  interventions_raw <- py_get arms_module "interventions" empty_list ;;
  interventions_items <- py_iter interventions_raw ;;
  interventions <- map_result (parse_intervention full_details) interventions_items ;;
  (* Eligibility *)
  eligibility_module <- py_get protocol "eligibilityModule" empty_dict ;;
  eligibility_criteria <- py_get eligibility_module "eligibilityCriteria" empty_str ;;
  healthy_volunteers <- py_get eligibility_module "healthyVolunteers" (VBool false) ;;
  sex <- py_get eligibility_module "sex" empty_str ;;
  min_age <- py_get eligibility_module "minimumAge" empty_str ;;
  max_age <- py_get eligibility_module "maximumAge" empty_str ;;
  std_ages <- py_get eligibility_module "stdAges" empty_list ;;
  (* Locations *)
  contacts_module <- py_get protocol "contactsLocationsModule" empty_dict ;;
  locations_raw <- py_get contacts_module "locations" empty_list ;;
  locations_head <- py_slice_to 10 locations_raw ;;
  locations_items <- py_iter locations_head ;;
  locations <- map_result parse_location locations_items ;;
  (* Outcomes (only for full details) *)
  outcomes_module <- py_get protocol "outcomesModule" empty_dict ;;
  primary_outcomes <-
    (if full_details
     then raw <- py_get outcomes_module "primaryOutcomes" empty_list ;;
          items <- py_iter raw ;;
          map_result parse_primary_outcome items
     else Ok []) ;;
  secondary_outcomes <-
    (if full_details
     then raw <- py_get outcomes_module "secondaryOutcomes" empty_list ;;
          items <- py_iter raw ;;
          map_result parse_secondary_outcome items
     else Ok []) ;;
  (* Build result *)
  criteria <-
    (if negb full_details then py_slice_to 800 eligibility_criteria
     else Ok eligibility_criteria) ;;
  let result :=
    obj [("nctId", nct_id);
         ("title", title);
         ("acronym", acronym);
         ("status", overall_status);
         ("phases", phases);
         ("studyType", study_type);
         ("conditions", conditions);
         ("interventions", VList interventions);
         ("sponsor", sponsor_name);
         ("sponsorClass", sponsor_class);
         ("enrollment", obj [("count", enrollment_count); ("type", enrollment_type)]);
         ("dates", obj [("start", start_date);
                        ("startType", start_date_type);
                        ("completion", completion_date);
                        ("completionType", completion_date_type);
                        ("primaryCompletion", primary_completion_date);
                        ("firstPosted", first_posted);
                        ("lastUpdated", last_updated);
                        ("firstSubmit", first_submit_date)]);
         ("eligibility", obj [("criteria", criteria);
                              ("sex", sex);
                              ("minAge", min_age);
                              ("maxAge", max_age);
                              ("stdAges", std_ages);
                              ("healthyVolunteers", healthy_volunteers)]);
         ("locations", VList locations)] in
  (* Add extra details for full view *)
  if full_details then
    let result := set_item result "officialTitle" official_title in
    let result := set_item result "organization" organization in
    let result := set_item result "investigator" investigator_name in
    let result := set_item result "investigatorAffiliation" investigator_affiliation in
    let result := set_item result "briefSummary" brief_summary in
    let result := set_item result "detailedDescription" detailed_description in
    let result := set_item result "design"
                    (obj [("allocation", allocation);
                          ("interventionModel", intervention_model);
                          ("primaryPurpose", primary_purpose)]) in
    let result := set_item result "primaryOutcomes" (VList primary_outcomes) in
    let result := set_item result "secondaryOutcomes" (VList secondary_outcomes) in
    Ok result
  else Ok result.

(** ** The registry boundary *)

Definition CT_API_BASE : string := "https://clinicaltrials.gov/api/v2/studies".

(** What [requests.get(url, params=params, timeout=30)] is called with. *)
Record request : Type := mkRequest {
  req_url : string;
  req_params : list (value * value)
}.

(** What [Response.json()] will find in the body. *)
Inductive payload : Type :=
| Malformed (msg : string)      (* not JSON: [json()] raises with [msg] *)
| Json (v : value).

Record response : Type := mkResponse {
  status_code : Z;
  reason : string;
  resp_url : string;
  body : payload
}.

(** [requests.get] either raises (timeout, connection failure, ...) or
    returns a response, whatever its status. *)
Inductive reply : Type :=
| Fails (e : exn)
| Responds (r : response).

(** The registry answers a request knowing the requests made before it. *)
Definition registry : Type := list request -> request -> reply.

(** [Response.raise_for_status()]: 4xx and 5xx raise [HTTPError]. *)
Definition raise_for_status (r : response) : result unit :=
  if (400 <=? status_code r) && (status_code r <? 500) then
    Raise (mkExn HTTPError
             (str_of_int (status_code r) ++ " Client Error: " ++ reason r
              ++ " for url: " ++ resp_url r))
  else if (500 <=? status_code r) && (status_code r <? 600) then
    Raise (mkExn HTTPError
             (str_of_int (status_code r) ++ " Server Error: " ++ reason r
              ++ " for url: " ++ resp_url r))
  else Ok tt.

(** [Response.json()]. *)
Definition json (r : response) : result value :=
  match body r with
  | Malformed msg => Raise (mkExn JSONDecodeError msg)
  | Json v => Ok v
  end.

(** Code that may raise while it updates a state of type [S]: the state
    reached when an exception is raised is kept. *)
Definition prog (S A : Type) : Type := S -> result A * S.

Definition ret {S A : Type} (a : A) : prog S A := fun st => (Ok a, st).

Definition pbind {S A B : Type} (m : prog S A) (k : A -> prog S B) : prog S B :=
  fun st =>
    match m st with
    | (Ok a, st') => k a st'
    | (Raise e, st') => (Raise e, st')
    end.

(** A computation that leaves the state alone. *)
Definition lift {S A : Type} (r : result A) : prog S A := fun st => (r, st).

Notation "x <<- m ;; k" := (pbind m (fun x => k))
  (at level 61, m at next level, right associativity).

(** [try: body except Exception as e: handler(e)] around such code. *)
Definition ptry {S A : Type} (body : prog S A) (handler : exn -> prog S A) : prog S A :=
  fun st =>
    match body st with
    | (Ok a, st') => (Ok a, st')
    | (Raise e, st') => handler e st'
    end.

(** Code that talks to the registry: its state is the list of requests
    made so far. *)
Definition io (A : Type) : Type := prog (list request) A.

(** The value an operation hands to its caller and the requests it made. *)
Definition run {A : Type} (m : io A) : result A * list request := m [].

(** The single-key error object [{"error": str(e)}]. *)
Definition error_value (e : exn) : value := obj [("error", VStr (exn_str e))].

(** [isinstance(v, dict) and "error" in v]. *)
Definition is_error_value (v : value) : bool :=
  match v with
  | VDict kv => match dict_lookup (VStr "error") kv with Some _ => true | None => false end
  | _ => false
  end.

(** ** Query construction *)

(** [if field:] for an optional string: [None] and [""] are falsy. *)
Definition present (field : option string) : bool :=
  match field with
  | Some s => negb (String.eqb s "")
  | None => false
  end.

(** [f"{field}"]. *)
Definition fstr (field : option string) : string :=
  match field with
  | Some s => s
  | None => "None"
  end.

(** [if test: query_parts.append(clause)]. *)
Definition append_if (test : bool) (clause : string) (query_parts : list string) : list string :=
  if test then append query_parts clause else query_parts.

(** [if query_parts: params["query.term"] = " AND ".join(query_parts)]. *)
Definition with_query_term (query_parts : list string) (params : list (value * value))
  : list (value * value) :=
  match query_parts with
  | [] => params
  | _ => dict_set (VStr "query.term") (VStr (py_join " AND " query_parts)) params
  end.

(** The four clauses shared by [count_trials], [search_trials] and
    [extract_sites], appended in this order. *)
Definition common_query_parts (condition phase status location : option string) : list string :=
  let query_parts := [] in
  let query_parts := append_if (present condition) ("AREA[Condition]" ++ fstr condition) query_parts in
  let query_parts := append_if (present phase) ("AREA[Phase]" ++ fstr phase) query_parts in
  let query_parts := append_if (present status) ("AREA[OverallStatus]" ++ fstr status) query_parts in
  let query_parts := append_if (present location) ("AREA[LocationCountry]" ++ fstr location) query_parts in
  query_parts.

(** [query_parts] as [search_trials] builds it. *)
Definition search_query_parts
  (condition phase status location sponsor intervention study_type
   start_date_from start_date_to : option string) : list string :=
  let query_parts := [] in
  let query_parts := append_if (present condition) ("AREA[Condition]" ++ fstr condition) query_parts in
  let query_parts := append_if (present phase) ("AREA[Phase]" ++ fstr phase) query_parts in
  let query_parts := append_if (present status) ("AREA[OverallStatus]" ++ fstr status) query_parts in
  let query_parts := append_if (present location) ("AREA[LocationCountry]" ++ fstr location) query_parts in
  let query_parts := append_if (present sponsor) ("AREA[LeadSponsorName]" ++ fstr sponsor) query_parts in
  let query_parts := append_if (present intervention) ("AREA[InterventionName]" ++ fstr intervention) query_parts in
  let query_parts := append_if (present study_type) ("AREA[StudyType]" ++ fstr study_type) query_parts in
  let query_parts :=
    if present start_date_from && present start_date_to then
      append query_parts ("AREA[StartDate]RANGE[" ++ fstr start_date_from ++ "," ++ fstr start_date_to ++ "]")
    else if present start_date_from then
      append query_parts ("AREA[StartDate]RANGE[" ++ fstr start_date_from ++ ",MAX]")
    else if present start_date_to then
      append query_parts ("AREA[StartDate]RANGE[MIN," ++ fstr start_date_to ++ "]")
    else query_parts in
  query_parts.

(** [{"format": "json", "pageSize": page_size}]. *)
Definition base_params (page_size : Z) : list (value * value) :=
  [(VStr "format", VStr "json"); (VStr "pageSize", VInt page_size)].

(** ** The operations of the registry client *)

Section Client.

Variable reg : registry.

(** [requests.get(url, params=params, timeout=30)]. *)
Definition http_get (url : string) (params : list (value * value)) : io response :=
  fun tr =>
    let rq := mkRequest url params in
    (match reg tr rq with
     | Fails e => Raise e
     | Responds r => Ok r
     end, append tr rq).

(** *** [count_trials] *)

Definition max_pages : nat := 3.

(** The loop [while page_count < max_pages].  The counter only moves by
    [page_count += 1] at each turn, so the loop is written on
    [remaining = max_pages - page_count]: the test holds when a page
    remains. *)
Fixpoint count_loop (remaining : nat) (params : list (value * value))
  (total_count : Z) (next_token : value) : io value :=
  match remaining with
  | O =>
      ret (obj [("count", VInt total_count);
                   ("is_exact", VBool false);
                   ("note", VStr ("At least " ++ str_of_int total_count ++ " trials"))])
  | S remaining' =>
      let params :=
        if truthy next_token then dict_set (VStr "pageToken") next_token params
        else params in
      response <<- http_get CT_API_BASE params ;;
      _ <<- lift (raise_for_status response) ;;
      data <<- lift (json response) ;;
      studies <<- lift (py_get data "studies" empty_list) ;;
      n <<- lift (py_len studies) ;;
      let total_count := total_count + n in
      next_token <<- lift (py_get1 data "nextPageToken") ;;
      if negb (truthy next_token) then
        ret (obj [("count", VInt total_count); ("is_exact", VBool true)])
      else count_loop remaining' params total_count next_token
  end.

Definition count_trials (condition phase status location : option string) : io value :=
  let params := base_params 100 in
  let query_parts := common_query_parts condition phase status location in
  let params := with_query_term query_parts params in
  ptry (count_loop max_pages params 0 VNone)
         (fun e => ret (error_value e)).

(** *** [show_trials] *)

Definition show_trials (nctId : string) : io value :=
  let path := CT_API_BASE ++ "/" ++ nctId in
  response <<- http_get path [] ;;
  data <<- lift (json response) ;;
  lift (_parse_study data true).

(** *** [search_trials] *)

Definition search_trials
  (condition phase status location sponsor intervention study_type
   start_date_from start_date_to : option string) (max_results : Z) : io value :=
  let max_results := Z.min max_results 20 in
  let params := base_params max_results in
  let query_parts :=
    search_query_parts condition phase status location sponsor intervention
                       study_type start_date_from start_date_to in
  let params := with_query_term query_parts params in
  ptry
    (response <<- http_get CT_API_BASE params ;;
     _ <<- lift (raise_for_status response) ;;
     data <<- lift (json response) ;;
     full_studies <<- lift (py_get data "studies" empty_list) ;;
     items <<- lift (py_iter full_studies) ;;
     parsed <<- lift (map_result (fun study => _parse_study study false) items) ;;
     ret (VList parsed))
    (fun e => ret (error_value e)).

(** *** [extract_sites] *)

(** [len(sites) >= 50]. *)
Definition sites_full (sites : list value) : bool := 50 <=? Z.of_nat (List.length sites).

(** The inner loop [for loc in locations], leaving at the [break]. *)
Fixpoint sites_of_locations (nct_id : value) (locations : list value) (sites : list value)
  : result (list value) :=
  match locations with
  | [] => Ok sites
  | loc :: locations' =>
      facility <- py_get loc "facility" (VStr "Unknown") ;;
      city <- py_get loc "city" empty_str ;;
      state <- py_get loc "state" empty_str ;;
      country <- py_get loc "country" empty_str ;;
      status <- py_get loc "status" empty_str ;;
      geoPoint <- py_get loc "geoPoint" empty_dict ;;
      let sites :=
        append sites (obj [("nctId", nct_id); ("facility", facility); ("city", city);
                           ("state", state); ("country", country); ("status", status);
                           ("geoPoint", geoPoint)]) in
      if sites_full sites then Ok sites
      else sites_of_locations nct_id locations' sites
  end.

(** The outer loop [for trial in trials], leaving at the second [break]. *)
Fixpoint sites_of_trials (trials : list value) (sites : list value) : result (list value) :=
  match trials with
  | [] => Ok sites
  | trial :: trials' =>
      protocol <- py_get trial "protocolSection" empty_dict ;;
      id_module <- py_get protocol "identificationModule" empty_dict ;;
      nct_id <- py_get id_module "nctId" empty_str ;;
      contacts_module <- py_get protocol "contactsLocationsModule" empty_dict ;;
      locations <- py_get contacts_module "locations" empty_list ;;
      items <- py_iter locations ;;
      sites <- sites_of_locations nct_id items sites ;;
      if sites_full sites then Ok sites
      else sites_of_trials trials' sites
  end.

Definition extract_sites (condition phase status location : option string)
  (max_results : Z) : io value :=
  let max_results := Z.min max_results 20 in
  let params := base_params max_results in
  let query_parts := common_query_parts condition phase status location in
  let params := with_query_term query_parts params in
  ptry
    (response <<- http_get CT_API_BASE params ;;
     _ <<- lift (raise_for_status response) ;;
     data <<- lift (json response) ;;
     trials <<- lift (py_get data "studies" empty_list) ;;
     items <<- lift (py_iter trials) ;;
     sites <<- lift (sites_of_trials items []) ;;
     ret (VList sites))
    (fun e => ret (error_value e)).

End Client.

(** ** The aggregator: [analyze_criteria] *)

(** [needle in hay] for a string literal [needle]: a substring test on a
    string, a membership test on a list, a key test on a dict. *)
Definition py_contains (needle : string) (hay : value) : result bool :=
  match hay with
  | VStr s => Ok (str_contains needle s)
  | VList l => Ok (existsb (fun x => match x with VStr t => String.eqb needle t | _ => false end) l)
  | VDict d => Ok (match dict_lookup (VStr needle) d with Some _ => true | None => false end)
  | _ => Raise (mkExn TypeError ("argument of type '" ++ type_name hay ++ "' is not iterable"))
  end.

(** [v.split(sep)[i]]: only a string has [split]. *)
Definition split_item (v : value) (sep : string) (i : nat) : result string :=
  match v with
  | VStr s =>
      match nth_error (py_split sep s) i with
      | Some part => Ok part
      | None => Raise (mkExn IndexError "list index out of range")
      end
  | _ => Raise (no_attribute v "split")
  end.

(** The two lists of [all_criteria]. *)
Record criteria : Type := mkCriteria {
  inclusion : list value;
  exclusion : list value
}.

(** The statements of the [try] block after [criteria_text] is known to
    be truthy.  An append made before an exception stays made. *)
Definition collect_criteria (criteria_text : value) : prog criteria unit :=
  has_inclusion <<- lift (py_contains "Inclusion Criteria" criteria_text) ;;
  _ <<- (if (has_inclusion : bool) then
           inclusion_text <<- lift (split_item criteria_text "Inclusion Criteria" 1) ;;
           inclusion_text <<-
             lift (if str_contains "Exclusion Criteria" inclusion_text
                   then split_item (VStr inclusion_text) "Exclusion Criteria" 0
                   else Ok inclusion_text) ;;
           (fun c => (Ok tt, mkCriteria (append (inclusion c) (VStr (py_strip inclusion_text)))
                                        (exclusion c)))
         else ret tt) ;;
  has_exclusion <<- lift (py_contains "Exclusion Criteria" criteria_text) ;;
  if (has_exclusion : bool) then
    exclusion_text <<- lift (split_item criteria_text "Exclusion Criteria" 1) ;;
    (fun c => (Ok tt, mkCriteria (inclusion c)
                                 (append (exclusion c) (VStr (py_strip exclusion_text)))))
  else ret tt.

(** One turn of [for trial in trials]: the [try] block, whose handler is
    [continue]. *)
Definition criteria_step (trial : value) : prog criteria unit :=
  ptry
    (eligibility <<- lift (py_get trial "eligibility" empty_dict) ;;
     criteria_text <<- lift (py_get eligibility "criteria" empty_str) ;;
     if negb (truthy criteria_text) then ret tt
     else collect_criteria criteria_text)
    (fun _ => ret tt).

(** [for x in xs: body(x)] where [body] handles its own exceptions. *)
Fixpoint for_each {S A : Type} (body : A -> prog S unit) (xs : list A) : prog S unit :=
  match xs with
  | [] => ret tt
  | x :: xs' => _ <<- body x ;; for_each body xs'
  end.

Definition analyze_criteria (trials : value) : result value :=
  if is_error_value trials then Ok trials
  else
    items <- py_iter trials ;;
    let all_criteria := snd (for_each criteria_step items (mkCriteria [] [])) in
    Ok (obj [("inclusion", VList (inclusion all_criteria));
             ("exclusion", VList (exclusion all_criteria))]).

(** ** Dates: [datetime.strptime] on the four formats of [parse_date]

    [strptime] turns the format into a regular expression (case is
    ignored, a run of white space in the format becomes [\s+]) and matches
    it at the start of the string with [re.match]; the string must be used
    up by that match.  The month names are those of the C locale. *)

(** The pieces of the regular expression of a format. *)
Inductive token : Type :=
| TLit (c : ascii)     (* a character of the format, taken literally *)
| TSpaces              (* \s+ *)
| TYear                (* %Y: (?P<Y>\d\d\d\d) *)
| TMonth               (* %m: (?P<m>1[0-2]|0[1-9]|[1-9]) *)
| TDay                 (* %d: (?P<d>3[0-1]|[1-2]\d|0[1-9]|[1-9]| [1-9]) *)
| TMonthName.          (* %B: (?P<B>september|february|...|may) *)

(** The format as a list of pieces; [in_space] tells that the character
    before was white space, whose run has its [TSpaces] already. *)
Fixpoint compile_format (in_space : bool) (fmt : string) : option (list token) :=
  match fmt with
  | EmptyString => Some []
  | String "%" (String d fmt') =>
      match
        (if Ascii.eqb d "Y" then Some TYear
         else if Ascii.eqb d "m" then Some TMonth
         else if Ascii.eqb d "d" then Some TDay
         else if Ascii.eqb d "B" then Some TMonthName
         else None),
        compile_format false fmt'
      with
      | Some t, Some ts => Some (t :: ts)
      | _, _ => None
      end
  | String c fmt' =>
      if is_space c then
        match compile_format true fmt' with
        | Some ts => Some (if in_space then ts else TSpaces :: ts)
        | None => None
        end
      else
        match compile_format false fmt' with
        | Some ts => Some (TLit c :: ts)
        | None => None
        end
  end.

(** The groups a match has filled. *)
Record groups : Type := mkGroups {
  g_year : option Z;
  g_month : option Z;
  g_day : option Z
}.

Definition is_digit (c : ascii) : bool :=
  let n := nat_of_ascii c in ((48 <=? n) && (n <=? 57))%nat.

Definition digit_val (c : ascii) : Z := Z.of_nat (nat_of_ascii c) - 48.

Definition in_range (lo hi : string) (c : ascii) : bool :=
  match lo, hi with
  | String l _, String h _ =>
      ((nat_of_ascii l <=? nat_of_ascii c) && (nat_of_ascii c <=? nat_of_ascii h))%nat
  | _, _ => false
  end.

(** [c.lower()] for a code point below 128; the others are no letter of a
    month name in any case. *)
Definition lower (c : ascii) : ascii :=
  let n := nat_of_ascii c in
  if ((65 <=? n) && (n <=? 90))%nat then ascii_of_nat (n + 32) else c.

Fixpoint starts_with_nocase (p s : string) : bool :=
  match p, s with
  | EmptyString, _ => true
  | String a p', String b s' => Ascii.eqb a (lower b) && starts_with_nocase p' s'
  | String _ _, EmptyString => false
  end.

Fixpoint drop (n : nat) (s : string) : string :=
  match n, s with
  | S k, String _ s' => drop k s'
  | _, _ => s
  end.

(** [locale_time.f_month[1:]] with the month number of each name, in the
    order of the alternation [%B]: longest name first. *)
Definition month_names : list (string * Z) :=
  [("september", 9); ("february", 2); ("november", 11); ("december", 12);
   ("january", 1); ("october", 10); ("august", 8); ("march", 3);
   ("april", 4); ("june", 6); ("july", 7); ("may", 5)].

(** The ways a one- or two-character alternative of [%m] or [%d] matches
    the start of [s]: the number read and the rest of the string. *)
Definition two_chars (first second : ascii -> bool) (s : string) : list (Z * string) :=
  match s with
  | String a (String b rest) =>
      if first a && second b
      then [((if is_digit a then 10 * digit_val a else 0) + digit_val b, rest)]
      else []
  | _ => []
  end.

Definition one_char (first : ascii -> bool) (s : string) : list (Z * string) :=
  match s with
  | String a rest => if first a then [(digit_val a, rest)] else []
  | _ => []
  end.

(** The prefixes of a run of white space, longest first: the ways the
    greedy [\s+] can match, in the order the matcher tries them. *)
Fixpoint space_runs (s : string) : list string :=
  match s with
  | String c s' => if is_space c then (space_runs s' ++ [s'])%list else []
  | EmptyString => []
  end.

(** All the ways one piece matches the start of [s], in the order the
    backtracking matcher tries them, with the groups it fills. *)
Definition alternatives (t : token) (g : groups) (s : string) : list (groups * string) :=
  match t with
  | TLit c =>
      match s with
      | String a rest => if Ascii.eqb (lower a) (lower c) then [(g, rest)] else []
      | EmptyString => []
      end
  | TSpaces => map (fun rest => (g, rest)) (space_runs s)
  | TYear =>
      match s with
      | String a (String b (String c (String d rest))) =>
          if is_digit a && is_digit b && is_digit c && is_digit d
          then [(mkGroups (Some (1000 * digit_val a + 100 * digit_val b
                                 + 10 * digit_val c + digit_val d))
                          (g_month g) (g_day g), rest)]
          else []
      | _ => []
      end
  | TMonth =>
      map (fun m => (mkGroups (g_year g) (Some (fst m)) (g_day g), snd m))
          (two_chars (in_range "1" "1") (in_range "0" "2") s
           ++ two_chars (in_range "0" "0") (in_range "1" "9") s
           ++ one_char (in_range "1" "9") s)%list
  | TDay =>
      map (fun d => (mkGroups (g_year g) (g_month g) (Some (fst d)), snd d))
          (two_chars (in_range "3" "3") (in_range "0" "1") s
           ++ two_chars (in_range "1" "2") is_digit s
           ++ two_chars (in_range "0" "0") (in_range "1" "9") s
           ++ one_char (in_range "1" "9") s
           ++ two_chars (in_range " " " ") (in_range "1" "9") s)%list
  | TMonthName =>
      flat_map (fun nm =>
                  if starts_with_nocase (fst nm) s
                  then [(mkGroups (g_year g) (Some (snd nm)) (g_day g),
                         drop (String.length (fst nm)) s)]
                  else [])
               month_names
  end.

(** The first element of [xs] on which [f] succeeds. *)
Fixpoint first_success {A B : Type} (f : A -> option B) (xs : list A) : option B :=
  match xs with
  | [] => None
  | x :: xs' => match f x with Some b => Some b | None => first_success f xs' end
  end.

(** [re.match]: the first way, in the matcher's order, to match all the
    pieces at the start of [s]; it returns the groups and what is left of
    the string. *)
Fixpoint re_match (ts : list token) (g : groups) (s : string) : option (groups * string) :=
  match ts with
  | [] => Some (g, s)
  | t :: ts' =>
      first_success (fun alt => re_match ts' (fst alt) (snd alt)) (alternatives t g s)
  end.

(** A [datetime] at midnight. *)
Record datetime : Type := mkDate { year : Z; month : Z; day : Z }.

Definition is_leap (y : Z) : bool :=
  (y mod 4 =? 0) && (negb (y mod 100 =? 0) || (y mod 400 =? 0)).

Definition days_in_month (y m : Z) : Z :=
  if m =? 2 then (if is_leap y then 29 else 28)
  else if (m =? 4) || (m =? 6) || (m =? 9) || (m =? 11) then 30
  else 31.

(** The days of the year before the first of month [m]. *)
Definition days_before_month (y m : Z) : Z :=
  fold_right Z.add 0 (map (fun k => days_in_month y (Z.of_nat k)) (seq 1 (Z.to_nat (m - 1)))).

Definition days_before_year (y : Z) : Z :=
  let p := y - 1 in p * 365 + p / 4 - p / 100 + p / 400.

(** [date.toordinal()]. *)
Definition toordinal (d : datetime) : Z :=
  days_before_year (year d) + days_before_month (year d) (month d) + day d.

(** The checks of the [date] constructor. *)
Definition valid_date (y m d : Z) : bool :=
  (1 <=? y) && (y <=? 9999) && (1 <=? m) && (m <=? 12) && (1 <=? d) && (d <=? days_in_month y m).

Definition value_error (msg : string) : exn := mkExn ValueError msg.

(** [datetime.strptime(date_string, format)] for a string: a group that
    the format does not fill keeps its default (1900, 1, 1). *)
Definition strptime (date_string format : string) : result datetime :=
  match compile_format false format with
  | None => Raise (value_error "bad directive in format")
  | Some ts =>
      match re_match ts (mkGroups None None None) date_string with
      | None => Raise (value_error "time data does not match format")
      | Some (g, rest) =>
          if negb (String.eqb rest "") then
            Raise (value_error ("unconverted data remains: " ++ rest))
          else
            let y := match g_year g with Some y => y | None => 1900 end in
            let m := match g_month g with Some m => m | None => 1 end in
            let d := match g_day g with Some d => d | None => 1 end in
            if valid_date y m d then Ok (mkDate y m d)
            else Raise (value_error "day is out of range for month")
      end
  end.

(** The formats [parse_date] tries, in order. *)
Definition date_formats : list string := ["%Y-%m-%d"; "%Y-%m"; "%B %Y"; "%B %d, %Y"].

(** The loop of [parse_date] over the formats: [except ValueError:
    continue] lets any other exception through. *)
Fixpoint parse_date_loop (date_str : value) (formats : list string) : result (option datetime) :=
  match formats with
  | [] => Ok None
  | fmt :: formats' =>
      match date_str with
      | VStr s =>
          match strptime s fmt with
          | Ok d => Ok (Some d)
          | Raise e =>
              match exn_kind e with
              | ValueError => parse_date_loop date_str formats'
              | _ => Raise e
              end
          end
      | _ =>
          Raise (mkExn TypeError
                   ("strptime() argument 1 must be str, not " ++ type_name date_str))
      end
  end.

Definition parse_date (date_str : value) : result (option datetime) :=
  parse_date_loop date_str date_formats.

(** [a > b] on two datetimes at midnight. *)
Definition datetime_gt (a b : datetime) : bool :=
  (year b <? year a)
  || ((year a =? year b)
      && ((month b <? month a) || ((month a =? month b) && (day b <? day a)))).

(** [(a - b).days]. *)
Definition days_between (a b : datetime) : Z := toordinal a - toordinal b.

(** ** The aggregator: [calculate_statistics] *)

(** The accumulators of [stats] that the loop over the trials updates. *)
Record stats : Type := mkStats {
  st_phases : list (value * Z);
  st_statuses : list (value * Z);
  st_studyTypes : list (value * Z);
  st_sponsors : list (value * Z);
  st_enrollment_total : value;        (* an int, or a float once one was added *)
  st_enrollment_count : Z;
  st_total_days : Z;
  st_duration_count : Z;
  st_durations : list Z
}.

Definition initial_stats : stats :=
  mkStats [] [] [] [] (VInt 0) 0 0 0 [].

(** [table[key] = table.get(key, 0) + 1]: a key must be hashable. *)
Definition tally (key : value) (table : list (value * Z)) : result (list (value * Z)) :=
  if hashable key then
    Ok (dict_set key (match dict_lookup key table with Some n => n | None => 0 end + 1) table)
  else Raise (unhashable key).

Definition tally_phase (key : value) : prog stats unit := fun st =>
  match tally key (st_phases st) with
  | Ok t => (Ok tt, mkStats t (st_statuses st) (st_studyTypes st) (st_sponsors st)
                      (st_enrollment_total st) (st_enrollment_count st)
                      (st_total_days st) (st_duration_count st) (st_durations st))
  | Raise e => (Raise e, st)
  end.

Definition tally_status (key : value) : prog stats unit := fun st =>
  match tally key (st_statuses st) with
  | Ok t => (Ok tt, mkStats (st_phases st) t (st_studyTypes st) (st_sponsors st)
                      (st_enrollment_total st) (st_enrollment_count st)
                      (st_total_days st) (st_duration_count st) (st_durations st))
  | Raise e => (Raise e, st)
  end.

Definition tally_studyType (key : value) : prog stats unit := fun st =>
  match tally key (st_studyTypes st) with
  | Ok t => (Ok tt, mkStats (st_phases st) (st_statuses st) t (st_sponsors st)
                      (st_enrollment_total st) (st_enrollment_count st)
                      (st_total_days st) (st_duration_count st) (st_durations st))
  | Raise e => (Raise e, st)
  end.

Definition tally_sponsor (key : value) : prog stats unit := fun st =>
  match tally key (st_sponsors st) with
  | Ok t => (Ok tt, mkStats (st_phases st) (st_statuses st) (st_studyTypes st) t
                      (st_enrollment_total st) (st_enrollment_count st)
                      (st_total_days st) (st_duration_count st) (st_durations st))
  | Raise e => (Raise e, st)
  end.

(** ** Arithmetic on numbers

    [int] arithmetic is exact.  A [float] operation returns the binary64
    number nearest to the exact result, a tie going to the even mantissa
    ([nearest]), and an infinity when that number would be [2 ** 1024] or
    more, which is the case from [FLOAT_LIMIT] on. *)

Definition FLOAT_LIMIT : Z := 2 ^ 1024 - 2 ^ 970.

(** The integer nearest to [num / den] for [den > 0], a tie going to the
    even one. *)
Definition half_even (num den : Z) : Z :=
  let n := 2 * num + den in
  let d := 2 * den in
  let f := n / d in
  if (n mod d =? 0) && Z.odd f then f - 1 else f.

(** The binary64 number nearest to [q], for [q] below [FLOAT_LIMIT] in
    magnitude: [e] is the exponent of [q] and [2 ** x] the gap between the
    binary64 numbers around it (53 bits of mantissa, [2 ** -1074] for the
    smallest numbers). *)
Definition nearest (q : Q) : Q :=
  let a := Z.abs (Qnum q) in
  let d := Zpos (Qden q) in
  if a =? 0 then 0%Q
  else
    let e0 := Z.log2 a - Z.log2 d in
    let e := if (if 0 <=? e0 then d * 2 ^ e0 <=? a else d <=? a * 2 ^ (- e0))
             then e0 else e0 - 1 in
    let x := Z.max (e - 52) (-1074) in
    let v := if 0 <=? x then inject_Z (half_even a (d * 2 ^ x) * 2 ^ x)
             else Qmake (half_even (a * 2 ^ (- x)) d) (Z.to_pos (2 ^ (- x))) in
    Qred (if Qnum q <? 0 then - v else v)%Q.

(** The float of the exact result [q] of an operation. *)
Definition fl (q : Q) : float :=
  if FLOAT_LIMIT * Zpos (Qden q) <=? Z.abs (Qnum q) then Infinite (Qnum q <? 0)
  else Finite (nearest q).

Definition overflow_error (msg : string) : exn := mkExn OverflowError msg.

(** A [bool] is an [int]. *)
Definition int_of (v : value) : option Z :=
  match v with
  | VBool b => Some (if b then 1 else 0)
  | VInt n => Some n
  | _ => None
  end.

(** [float(n)]: the conversion of an [int] operand of a float operation. *)
Definition int_to_float (n : Z) : result float :=
  if FLOAT_LIMIT <=? Z.abs n then
    Raise (overflow_error "int too large to convert to float")
  else Ok (Finite (nearest (inject_Z n))).

(** The operand of a float operation, when it is a number. *)
Definition to_float (v : value) : option (result float) :=
  match v with
  | VFloat x => Some (Ok x)
  | _ => match int_of v with
         | Some n => Some (int_to_float n)
         | None => None
         end
  end.

(** [a op b] where one of the two is not an [int]: both are converted,
    the left one first, then the floats are combined. *)
Definition float_op (op : string) (f : float -> float -> result float) (a b : value)
  : result value :=
  match to_float a, to_float b with
  | Some x, Some y =>
      x <- x ;;
      y <- y ;;
      r <- f x y ;;
      Ok (VFloat r)
  | _, _ =>
      Raise (mkExn TypeError
               ("unsupported operand type(s) for " ++ op ++ ": '" ++ type_name a
                ++ "' and '" ++ type_name b ++ "'"))
  end.

Definition float_add (x y : float) : float :=
  match x, y with
  | NaN, _ | _, NaN => NaN
  | Infinite m, Infinite n => if Bool.eqb m n then Infinite m else NaN
  | Infinite m, Finite _ => Infinite m
  | Finite _, Infinite n => Infinite n
  | Finite p, Finite q => fl (p + q)
  end.

Definition float_div (x y : float) : result float :=
  match x, y with
  | _, Finite q =>
      if Qeq_bool q 0 then Raise (mkExn ZeroDivisionError "float division by zero")
      else match x with
           | Finite p => Ok (fl (p / q))
           | Infinite m => Ok (Infinite (xorb m (Qnum q <? 0)))
           | NaN => Ok NaN
           end
  | NaN, _ | _, NaN => Ok NaN
  | Infinite _, Infinite _ => Ok NaN
  | Finite _, Infinite _ => Ok (Finite 0)
  end.

(** [total + x] for [total += x]: two ints give an int, a float on either
    side gives a float, anything else is a [TypeError]. *)
Definition num_add (total x : value) : result value :=
  match int_of total, int_of x with
  | Some a, Some b => Ok (VInt (a + b))
  | _, _ => float_op "+=" (fun p q => Ok (float_add p q)) total x
  end.

(** [a / b]: the quotient of two ints is rounded once, from its exact
    value. *)
Definition true_div (a b : value) : result value :=
  match int_of a, int_of b with
  | Some m, Some n =>
      if n =? 0 then Raise (mkExn ZeroDivisionError "division by zero")
      else if FLOAT_LIMIT * Z.abs n <=? Z.abs m then
        Raise (overflow_error "integer division result too large for a float")
      else Ok (VFloat (Finite (nearest (inject_Z m / inject_Z n))))
  | _, _ => float_op "/" float_div a b
  end.

(** [stats["enrollment"]["total"] += x]. *)
Definition add_enrollment_total (x : value) : prog stats unit := fun st =>
  match num_add (st_enrollment_total st) x with
  | Ok t => (Ok tt, mkStats (st_phases st) (st_statuses st) (st_studyTypes st) (st_sponsors st)
                      t (st_enrollment_count st)
                      (st_total_days st) (st_duration_count st) (st_durations st))
  | Raise e => (Raise e, st)
  end.

(** [stats["enrollment"]["count"] += 1]. *)
Definition incr_enrollment_count : prog stats unit := fun st =>
  (Ok tt, mkStats (st_phases st) (st_statuses st) (st_studyTypes st) (st_sponsors st)
            (st_enrollment_total st) (st_enrollment_count st + 1)
            (st_total_days st) (st_duration_count st) (st_durations st)).

(** The three updates made for a duration: the total, the count and the
    list. *)
Definition add_duration (duration_days : Z) : prog stats unit := fun st =>
  (Ok tt, mkStats (st_phases st) (st_statuses st) (st_studyTypes st) (st_sponsors st)
            (st_enrollment_total st) (st_enrollment_count st)
            (st_total_days st + duration_days) (st_duration_count st + 1)
            (append (st_durations st) duration_days)).

(** [d[k]] for a string literal [k]. *)
Definition py_getitem (d : value) (k : string) : result value :=
  match d with
  | VDict kv =>
      match dict_lookup (VStr k) kv with
      | Some v => Ok v
      | None => Raise (mkExn KeyError ("'" ++ k ++ "'"))
      end
  | VList _ => Raise (mkExn TypeError "list indices must be integers or slices, not str")
  | VStr _ => Raise (mkExn TypeError "string indices must be integers, not 'str'")
  | _ => Raise (mkExn TypeError ("'" ++ type_name d ++ "' object is not subscriptable"))
  end.

(** The duration part of the loop body: the inner [try] whose handler is
    [pass]. *)
Definition duration_step (start_date_str completion_date_str : value) : prog stats unit :=
  if truthy start_date_str && truthy completion_date_str then
    ptry
      (start_date <<- lift (parse_date start_date_str) ;;
       completion_date <<- lift (parse_date completion_date_str) ;;
       match start_date, completion_date with
       | Some s, Some c =>
           if datetime_gt c s then add_duration (days_between c s) else ret tt
       | _, _ => ret tt
       end)
      (fun _ => ret tt)
  else ret tt.

(** One turn of [for trial in trials]: the outer [try] whose handler is
    [continue]. *)
Definition stats_step (trial : value) : prog stats unit :=
  ptry
    ((* Phases *)
     phases <<- lift (py_get trial "phases" empty_list) ;;
     items <<- lift (py_iter phases) ;;
     _ <<- for_each tally_phase items ;;
     (* Status *)
     trial_status <<- lift (py_get trial "status" (VStr "Unknown")) ;;
     _ <<- tally_status trial_status ;;
     (* Study type *)
     study_type <<- lift (py_get trial "studyType" (VStr "Unknown")) ;;
     _ <<- tally_studyType study_type ;;
     (* Sponsor *)
     trial_sponsor <<- lift (py_get trial "sponsor" (VStr "Unknown")) ;;
     _ <<- tally_sponsor trial_sponsor ;;
     (* Enrollment *)
     enrollment <<- lift (py_get trial "enrollment" empty_dict) ;;
     has_count <<- lift (py_contains "count" enrollment) ;;
     counted <<- lift (if (has_count : bool)
                       then c <- py_getitem enrollment "count" ;; Ok (truthy c)
                       else Ok false) ;;
     _ <<- (if (counted : bool) then
              c <<- lift (py_getitem enrollment "count") ;;
              _ <<- add_enrollment_total c ;;
              incr_enrollment_count
            else ret tt) ;;
     (* Duration calculation *)
     dates <<- lift (py_get trial "dates" empty_dict) ;;
     start_date_str <<- lift (py_get dates "start" empty_str) ;;
     completion_date_str <<- lift (py_get dates "completion" empty_str) ;;
     duration_step start_date_str completion_date_str)
    (fun _ => ret tt).

(** The multiple of [10 ** -ndigits] nearest to [x], a tie going to the
    even one. *)
Definition round_decimal (x : Q) (ndigits : nat) : Q :=
  let scale := Z.pow 10 (Z.of_nat ndigits) in
  Qred (Qmake (half_even (Qnum x * scale) (Zpos (Qden x))) (Z.to_pos scale)).

(** [round(x, ndigits)] for [ndigits >= 0]: a float is rounded on its
    exact value and the decimal found is read back as a float; an int is
    its own rounding. *)
Definition py_round (x : value) (ndigits : nat) : result value :=
  match x with
  | VFloat (Finite q) => Ok (VFloat (fl (round_decimal q ndigits)))
  | VFloat _ => Ok x
  | _ =>
      match int_of x with
      | Some n => Ok (VInt n)
      | None =>
          Raise (mkExn TypeError
                   ("type " ++ type_name x ++ " doesn't define __round__ method"))
      end
  end.

Definition table_value (t : list (value * Z)) : value :=
  VDict (map (fun kv => (fst kv, VInt (snd kv))) t).

Definition list_min (l : list Z) : Z :=
  match l with [] => 0 | x :: xs => fold_left Z.min xs x end.

Definition list_max (l : list Z) : Z :=
  match l with [] => 0 | x :: xs => fold_left Z.max xs x end.

(** The [enrollment] entry of the bundle: [average] only when a record
    was counted.  The division stands outside every [try]. *)
Definition enrollment_value (st : stats) : result value :=
  let enrollment := obj [("total", st_enrollment_total st);
                         ("count", VInt (st_enrollment_count st))] in
  if st_enrollment_count st >? 0 then
    average <- true_div (st_enrollment_total st) (VInt (st_enrollment_count st)) ;;
    Ok (set_item enrollment "average" average)
  else Ok enrollment.

(** The literals [30.44] and [365.25]. *)
Definition DAYS_PER_MONTH : value := VFloat (fl (3044 # 100)).
Definition DAYS_PER_YEAR : value := VFloat (fl (36525 # 100)).

(** The [duration] entry of the bundle, after [del durations]. *)
Definition duration_value (st : stats) : result value :=
  let duration := obj [("total_days", VInt (st_total_days st));
                       ("count", VInt (st_duration_count st))] in
  if st_duration_count st >? 0 then
    avg_days <- true_div (VInt (st_total_days st)) (VInt (st_duration_count st)) ;;
    average_days <- py_round avg_days 1 ;;
    let duration := set_item duration "average_days" average_days in
    months <- true_div avg_days DAYS_PER_MONTH ;;
    average_months <- py_round months 1 ;;
    let duration := set_item duration "average_months" average_months in
    years <- true_div avg_days DAYS_PER_YEAR ;;
    average_years <- py_round years 2 ;;
    let duration := set_item duration "average_years" average_years in
    let duration := set_item duration "min_days" (VInt (list_min (st_durations st))) in
    let duration := set_item duration "max_days" (VInt (list_max (st_durations st))) in
    Ok duration
  else Ok duration.

(** [[t.get("nctId") for t in trials if t.get("nctId")]]. *)
Fixpoint nct_ids (trials : list value) : result (list value) :=
  match trials with
  | [] => Ok []
  | t :: trials' =>
      test <- py_get1 t "nctId" ;;
      if truthy test then
        id <- py_get1 t "nctId" ;;
        rest <- nct_ids trials' ;;
        Ok (id :: rest)
      else nct_ids trials'
  end.

(** What [calculate_statistics] does with the trials once it has them:
    the fold over the records and the closing computations. *)
Definition statistics_of (trials : value) : result value :=
  total_trials <- py_len trials ;;
  items <- py_iter trials ;;
  ids <- nct_ids items ;;
  let st := snd (for_each stats_step items initial_stats) in
  enrollment <- enrollment_value st ;;
  duration <- duration_value st ;;
  Ok (obj [("total_trials", VInt total_trials);
           ("trial_nct_ids", VList ids);
           ("phases", table_value (st_phases st));
           ("statuses", table_value (st_statuses st));
           ("studyTypes", table_value (st_studyTypes st));
           ("sponsors", table_value (st_sponsors st));
           ("enrollment", enrollment);
           ("duration", duration)]).

Definition calculate_statistics (reg : registry)
  (condition phase status location sponsor : option string) (max_results : Z) : io value :=
  trials <<- search_trials reg condition phase status location sponsor None None None None
                           max_results ;;
  if is_error_value trials then ret trials
  else lift (statistics_of trials).

(** ** Registries and records used in the examples below *)

(** A registry whose every request times out. *)
Definition reg_timeout : registry :=
  fun _ _ => Fails (mkExn Timeout "Read timed out. (read timeout=30)").

(** A registry that answers every request with a page that is not JSON. *)
Definition reg_malformed : registry :=
  fun _ _ =>
    Responds (mkResponse 200 "OK" CT_API_BASE
                (Malformed "Expecting value: line 1 column 1 (char 0)")).

(** A registry that answers every request with status 404 and a JSON
    body. *)
Definition reg_not_found : registry :=
  fun _ rq =>
    Responds (mkResponse 404 "Not Found" (req_url rq)
                (Json (obj [("error", VStr "not found")]))).

(** A registry that answers every request with the same successful page. *)
Definition reg_page (data : value) : registry :=
  fun _ rq => Responds (mkResponse 200 "OK" (req_url rq) (Json data)).

(** A record that carries nothing but an eligibility blob. *)
Definition record_with_criteria (blob : string) : value :=
  obj [("eligibility", obj [("criteria", VStr blob)])].

(** ** Vocabulary of the statements *)

(** A first request that fails in transport, comes back with a 4xx or 5xx
    status, or carries a body that is not JSON. *)
Definition failed_fetch (rp : reply) : option exn :=
  match rp with
  | Fails e => Some e
  | Responds r =>
      match raise_for_status r with
      | Raise e => Some e
      | Ok _ => match json r with Raise e => Some e | Ok _ => None end
      end
  end.

(** The first (for all but [count_trials], the only) request of each
    operation. *)
Definition count_request (condition phase status location : option string) : request :=
  mkRequest CT_API_BASE
    (with_query_term (common_query_parts condition phase status location) (base_params 100)).

Definition search_request
  (condition phase status location sponsor intervention study_type
   start_date_from start_date_to : option string) (max_results : Z) : request :=
  mkRequest CT_API_BASE
    (with_query_term
       (search_query_parts condition phase status location sponsor intervention
                           study_type start_date_from start_date_to)
       (base_params (Z.min max_results 20))).

Definition sites_request (condition phase status location : option string)
  (max_results : Z) : request :=
  mkRequest CT_API_BASE
    (with_query_term (common_query_parts condition phase status location)
                     (base_params (Z.min max_results 20))).


(** What a turn of the loop of [count_trials] reads off the reply to its
    request: the length of [studies] and the continuation token, unless
    an exception is raised on the way. *)
Definition read_page (rp : reply) : result (Z * value) :=
  match rp with
  | Fails e => Raise e
  | Responds r =>
      _ <- raise_for_status r ;;
      data <- json r ;;
      studies <- py_get data "studies" empty_list ;;
      n <- py_len studies ;;
      next_token <- py_get1 data "nextPageToken" ;;
      Ok (n, next_token)
  end.

(** [params] after the first statement of a turn of the loop. *)
Definition page_params (next_token : value) (params : list (value * value))
  : list (value * value) :=
  if truthy next_token then dict_set (VStr "pageToken") next_token params else params.

Definition exact_count (n : Z) : value :=
  obj [("count", VInt n); ("is_exact", VBool true)].


(** The items of the page a reply carries, as [search_trials] and
    [extract_sites] read them, unless an exception is raised on the way. *)
Definition page_items (rp : reply) : result (list value) :=
  match rp with
  | Fails e => Raise e
  | Responds r =>
      _ <- raise_for_status r ;;
      data <- json r ;;
      studies <- py_get data "studies" empty_list ;;
      py_iter studies
  end.

(** What [search_trials] returns on a reply. *)
Definition search_outcome (rp : reply) : value :=
  match (items <- page_items rp ;; map_result (fun study => _parse_study study false) items) with
  | Ok records => VList records
  | Raise e => error_value e
  end.

(** A page of two studies without any field. *)
Definition two_studies_page : value := obj [("studies", VList [obj []; obj []])].

(** *** Query construction as the specification words it

    Each field that passes [test] gives one clause [AREA[<Field>]<value>];
    the two bounds of the start date give one clause together, with [MIN]
    or [MAX] for a bound that does not pass; the clauses are kept in the
    order of declaration of the fields. *)






(** The replies the registry gave to the requests of [trace], made after
    the requests of [done]. *)
Fixpoint replies_from (reg : registry) (done trace : list request) : list reply :=
  match trace with
  | [] => []
  | rq :: trace' => reg done rq :: replies_from reg (append done rq) trace'
  end.



(** A registry that gives its replies in a fixed order, whatever is
    asked, and times out once they are used up. *)
Definition reg_script (replies : list reply) : registry :=
  fun done _ =>
    nth (List.length done) replies (Fails (mkExn Timeout "Read timed out. (read timeout=30)")).

(** A successful page of [n] studies without any field, with a
    continuation token when [token] is not empty. *)
Definition page_reply (n : nat) (token : string) : reply :=
  Responds (mkResponse 200 "OK" CT_API_BASE
              (Json (obj (("studies", VList (repeat (obj []) n))
                          :: (if String.eqb token "" then []
                              else [("nextPageToken", VStr token)]))))).

(** *** Well-formed payloads

    [get_or d k default] is [d.get(k, default)] where [d] is known to be a
    dict. *)
Definition get_or (d : value) (k : string) (default : value) : value :=
  match d with
  | VDict kv => match dict_lookup (VStr k) kv with Some v => v | None => default end
  | _ => default
  end.

(** The elements of a list. *)
Definition elements (v : value) : list value :=
  match v with
  | VList l => l
  | _ => []
  end.

Definition raw_protocol (study : value) : value := get_or study "protocolSection" empty_dict.

Definition raw_nct_id (study : value) : value :=
  get_or (get_or (raw_protocol study) "identificationModule" empty_dict) "nctId" empty_str.

Definition raw_locations (study : value) : list value :=
  elements (get_or (get_or (raw_protocol study) "contactsLocationsModule" empty_dict)
                   "locations" empty_list).

(** A list of dicts. *)
Definition is_list_of_dicts (v : value) : bool :=
  match v with
  | VList l => forallb is_dict l
  | _ => false
  end.

(** A raw study is well formed for [extract_sites] when it is a dict and
    the modules it reads, where they are there, are dicts, the locations a
    list of dicts. *)
Definition wf_site_study (study : value) : bool :=
  is_dict study
  && is_dict (raw_protocol study)
  && is_dict (get_or (raw_protocol study) "identificationModule" empty_dict)
  && is_dict (get_or (raw_protocol study) "contactsLocationsModule" empty_dict)
  && is_list_of_dicts
       (get_or (get_or (raw_protocol study) "contactsLocationsModule" empty_dict)
               "locations" empty_list).

(** The Site Record of a location of the study [nct_id]. *)
Definition site_record (nct_id loc : value) : value :=
  obj [("nctId", nct_id);
       ("facility", get_or loc "facility" (VStr "Unknown"));
       ("city", get_or loc "city" empty_str);
       ("state", get_or loc "state" empty_str);
       ("country", get_or loc "country" empty_str);
       ("status", get_or loc "status" empty_str);
       ("geoPoint", get_or loc "geoPoint" empty_dict)].

(** The Site Records of all the locations of all the studies, in the
    order of the studies, then of the locations of each. *)
Definition all_sites (studies : list value) : list value :=
  flat_map (fun study => map (site_record (raw_nct_id study)) (raw_locations study)) studies.

(** A raw study with [n] locations. *)
Definition study_with_locations (nct_id : string) (n : nat) : value :=
  obj [("protocolSection",
        obj [("identificationModule", obj [("nctId", VStr nct_id)]);
             ("contactsLocationsModule",
              obj [("locations",
                    VList (repeat (obj [("facility", VStr "Clinic"); ("country", VStr "Spain")])
                                  n))])])].

(** Thirty locations, then twenty-one. *)
Definition sites_page : value :=
  obj [("studies", VList [study_with_locations "NCT00000001" 30;
                          study_with_locations "NCT00000002" 21])].

(** *** The duration accumulators *)

(** The three accumulators of [stats["duration"]]. *)
Definition duration_acc (st : stats) : Z * Z * list Z :=
  (st_total_days st, st_duration_count st, st_durations st).

(** A step that leaves the duration accumulators as they are, whether it
    raises or not. *)
Definition keeps_duration {A : Type} (m : prog stats A) : Prop :=
  forall st, duration_acc (snd (m st)) = duration_acc st.




(** *** Well-formed payloads of [_parse_study] *)

(** A module of the protocol section, and a struct of a module, with the
    empty dict where the registry left them out. *)
Definition raw_module (study : value) (module : string) : value :=
  get_or (get_or study "protocolSection" empty_dict) module empty_dict.









Definition location_record (loc : value) : value :=
  obj [("facility", get_or loc "facility" empty_str);
       ("city", get_or loc "city" empty_str);
       ("state", get_or loc "state" empty_str);
       ("country", get_or loc "country" empty_str);
       ("status", get_or loc "status" empty_str)].



(** The keys that only the full variant carries. *)
Definition full_detail_keys : list string :=
  ["officialTitle"; "organization"; "investigator"; "investigatorAffiliation";
   "briefSummary"; "detailedDescription"; "design"; "primaryOutcomes";
   "secondaryOutcomes"].

(** A raw study with a long eligibility blob and a long intervention
    description. *)
Definition long_study : value :=
  obj [("protocolSection",
        obj [("identificationModule",
              obj [("nctId", VStr "NCT00000003"); ("officialTitle", VStr "A long study")]);
             ("armsInterventionsModule",
              obj [("interventions",
                    VList [obj [("type", VStr "DRUG"); ("name", VStr "insulin");
                                ("description",
                                 VStr (String.concat "" (repeat "0123456789" 30)))]])]);
             ("eligibilityModule",
              obj [("eligibilityCriteria",
                    VStr (String.concat "" (repeat "Inclusion " 100)))])])].



(** *** The schema of the records *)

(** The keys of a dict, in insertion order. *)
Definition keys_of (v : value) : list value :=
  match v with
  | VDict d => map fst d
  | _ => []
  end.

(** The keys that every record carries. *)
Definition compact_keys : list string :=
  ["nctId"; "title"; "acronym"; "status"; "phases"; "studyType"; "conditions";
   "interventions"; "sponsor"; "sponsorClass"; "enrollment"; "dates";
   "eligibility"; "locations"].

(** The compact keys whose value does not depend on [full_details] by
    the text of [_parse_study]. *)
Definition shared_keys : list string :=
  ["nctId"; "title"; "acronym"; "status"; "phases"; "studyType"; "conditions";
   "sponsor"; "sponsorClass"; "enrollment"; "dates"; "locations"].

Definition date_keys : list string :=
  ["start"; "startType"; "completion"; "completionType"; "primaryCompletion";
   "firstPosted"; "lastUpdated"; "firstSubmit"].

Definition eligibility_keys : list string :=
  ["criteria"; "sex"; "minAge"; "maxAge"; "stdAges"; "healthyVolunteers"].

(** The keys of the bundle of [calculate_statistics]. *)
Definition bundle_keys : list string :=
  ["total_trials"; "trial_nct_ids"; "phases"; "statuses"; "studyTypes"; "sponsors";
   "enrollment"; "duration"].

(** A record as [_parse_study] shapes it: a dict with the compact keys,
    whose dates and eligibility entries are dicts with their keys. *)
Definition is_record (record : value) : Prop :=
  is_dict record = true
  /\ firstn 14 (keys_of record) = map VStr compact_keys
  /\ (exists dates, py_get1 record "dates" = Ok dates
                    /\ keys_of dates = map VStr date_keys)
  /\ (exists eligibility, py_get1 record "eligibility" = Ok eligibility
                          /\ keys_of eligibility = map VStr eligibility_keys)
  /\ (exists enrollment, py_get1 record "enrollment" = Ok enrollment
                         /\ keys_of enrollment = [VStr "count"; VStr "type"]).

(** A page with a study that is a string between two studies that are
    dicts. *)
Definition broken_page : value :=
  obj [("studies", VList [obj []; VStr "NCT00000004"; obj []])].

(** A raw study with twelve locations. *)
Definition twelve_locations : value := study_with_locations "NCT00000005" 12.

(** *** The chain of the pages of [count_trials] *)

(** [trace] is a chain of page requests made after [done]: its first
    request carries [params] with the page token [tok] when [tok] is
    truthy, and each further request follows a reply that was read without
    an exception and carried a truthy token, which it sends back. *)
Fixpoint paged (reg : registry) (done : list request) (params : list (value * value))
  (tok : value) (trace : list request) : Prop :=
  match trace with
  | [] => True
  | rq :: rest =>
      rq = mkRequest CT_API_BASE (page_params tok params)
      /\ match rest with
         | [] => True
         | _ :: _ =>
             exists n tok',
               read_page (reg done rq) = Ok (n, tok')
               /\ truthy tok' = true
               /\ paged reg (append done rq) (page_params tok params) tok' rest
         end
  end.

(** A page of fifty-one locations followed by something that is no
    study. *)
Definition sites_then_junk_page : value :=
  obj [("studies", VList [study_with_locations "NCT00000001" 30;
                          study_with_locations "NCT00000002" 21;
                          VStr "not a study"])].

(** A page of two studies with three locations in all. *)
Definition few_sites_page : value :=
  obj [("studies", VList [study_with_locations "NCT00000001" 2;
                          study_with_locations "NCT00000002" 1])].

(** *** The fragments of a record *)

(** What one record adds to the two lists of [analyze_criteria]. *)
Definition fragments_of (trial : value) : criteria :=
  snd (criteria_step trial (mkCriteria [] [])).

Definition INCLUSION : string := "Inclusion Criteria".
Definition EXCLUSION : string := "Exclusion Criteria".

(** [sep] starts at no position of [u] in the string [u ++ rest]. *)
Fixpoint starts_nowhere (sep u rest : string) : bool :=
  match u with
  | EmptyString => true
  | String c u' => negb (starts_with sep (u ++ rest)) && starts_nowhere sep u' rest
  end.

(** [c in s] for a character. *)
Fixpoint occurs (c : ascii) (s : string) : bool :=
  match s with
  | EmptyString => false
  | String a s' => Ascii.eqb a c || occurs c s'
  end.

(** A blob with a preamble, the inclusion marker, the inclusion text, the
    exclusion marker and the exclusion text. *)
Definition criteria_blob (preamble inclusion_text exclusion_text : string) : string :=
  preamble ++ INCLUSION ++ inclusion_text ++ EXCLUSION ++ exclusion_text.

(** *** Counters of the statistics *)

(** The sum of the counts of a frequency table. *)
Definition table_total (table : list (value * Z)) : Z :=
  fold_right Z.add 0 (map snd table).

(** A step that leaves the duration accumulators as they are or adds one
    duration of at least one day to the total, the count and the list. *)
Definition steps_duration {A : Type} (m : prog stats A) : Prop :=
  forall st,
    duration_acc (snd (m st)) = duration_acc st
    \/ exists d,
         1 <= d
         /\ duration_acc (snd (m st))
            = (st_total_days st + d, st_duration_count st + 1, append (st_durations st) d).

(** The accumulators when the loop over the trials is over. *)
Definition final_stats (trials : list value) : stats :=
  snd (for_each stats_step trials initial_stats).

(** A date as the registry spells it. *)
Definition valid (d : datetime) : bool := valid_date (year d) (month d) (day d).

(** The five counters that a turn of the loop can move: the totals of
    the tables of statuses, study types and sponsors, the enrollment count
    and the duration count. *)
Definition counters_of (st : stats) : Z * Z * Z * Z * Z :=
  (table_total (st_statuses st), table_total (st_studyTypes st),
   table_total (st_sponsors st), st_enrollment_count st, st_duration_count st).

(** [post P m Q Qex]: from a state where [P] holds, [m] ends in a state
    where [Q] holds of its value when it returns, and where [Qex] holds
    when it raises. *)
Definition post {A : Type} (P : stats -> Prop) (m : prog stats A)
  (Q : A -> stats -> Prop) (Qex : stats -> Prop) : Prop :=
  forall st,
    P st ->
    match m st with
    | (Ok a, st') => Q a st'
    | (Raise _, st') => Qex st'
    end.

(** The counters are nested as the statements of the turn are ordered:
    a counter only moves when those before it have moved. *)
Definition nested (n : Z) (cs : Z * Z * Z * Z * Z) : Prop :=
  let '(statuses, study_types, sponsors, enrolled, durations) := cs in
  statuses <= n /\ study_types <= statuses /\ sponsors <= study_types
  /\ enrolled <= sponsors /\ durations <= sponsors.

(** A record whose phases are a list of hashable values and whose status
    is hashable: the turn of the loop reaches its status. *)
Definition countable (trial : value) : Prop :=
  exists phases status,
    py_get trial "phases" empty_list = Ok (VList phases)
    /\ forallb hashable phases = true
    /\ py_get trial "status" (VStr "Unknown") = Ok status
    /\ hashable status = true.

(** A step that leaves the part [f] of the accumulators as it is, whether
    it raises or not. *)
Definition keeps {X A : Type} (f : stats -> X) (m : prog stats A) : Prop :=
  forall st, f (snd (m st)) = f st.

(** Where a turn of the loop stands among its statements, as seen on the
    counters: before the status is counted (0), after the status (1), the
    study type (2), the sponsor (3), the enrollment (4), the duration. *)
Definition stage (k : nat) (n : Z) (cs : Z * Z * Z * Z * Z) : Prop :=
  let '(statuses, study_types, sponsors, enrolled, durations) := cs in
  match k with
  | 0%nat => nested n cs
  | 1%nat => statuses <= n + 1 /\ study_types + 1 <= statuses /\ sponsors <= study_types
             /\ enrolled <= sponsors /\ durations <= sponsors
  | 2%nat => statuses <= n + 1 /\ study_types <= statuses /\ sponsors + 1 <= study_types
             /\ enrolled <= sponsors /\ durations <= sponsors
  | 3%nat => statuses <= n + 1 /\ study_types <= statuses /\ sponsors <= study_types
             /\ enrolled + 1 <= sponsors /\ durations + 1 <= sponsors
  | 4%nat => statuses <= n + 1 /\ study_types <= statuses /\ sponsors <= study_types
             /\ enrolled <= sponsors /\ durations + 1 <= sponsors
  | _ => nested (n + 1) cs
  end.

(** The total of the table of statuses. *)
Definition statuses_total (st : stats) : Z := table_total (st_statuses st).

(** *** The accumulators behind the two averages *)

(** The longest time between two dates: [date.max - date.min], in days. *)
Definition MAX_DAYS : Z := 3652058.

(** The accumulators that the closing divisions read. *)
Definition averaged (st : stats) : value * Z * Z * Z :=
  (st_enrollment_total st, st_enrollment_count st, st_total_days st, st_duration_count st).

(** What the loop keeps true of them: the enrollment total is an int or a
    float, the counts are not negative and the durations counted are of
    [MAX_DAYS] at most each. *)
Definition sound (acc : value * Z * Z * Z) : Prop :=
  let '(total, enrolled, total_days, durations) := acc in
  ((exists n, total = VInt n) \/ (exists x, total = VFloat x))
  /\ 0 <= enrolled
  /\ 0 <= durations
  /\ 0 <= total_days <= MAX_DAYS * durations.

(** A raw study that carries nothing but its enrollment count. *)
Definition study_with_enrollment (count : value) : value :=
  obj [("protocolSection",
        obj [("designModule", obj [("enrollmentInfo", obj [("count", count)])])])].

(** A page whose one study has an enrollment count of [10 ** 309], an int
    that no float can hold. *)
Definition huge_enrollment_page : value :=
  obj [("studies", VList [study_with_enrollment (VInt (10 ^ 309))])].

(** ** The logger: [ConversationLogger._truncate_result]

    What [log_tool_call] stores as [result_preview].  [json.dumps(.,
    default=str)] and [str] are left abstract: [dumps] may raise (a key
    that JSON cannot spell, a cycle), [str] on [None], a boolean or a number
    does not.  [max_length] is a length: the one call of the source leaves
    it at its default, 1000. *)

Definition TRUNCATED : string := "... [truncated]".

Section Logger.

Variable dumps : value -> result string.
Variable py_str : value -> string.

Definition _truncate_result (res : value) (max_length : nat) : result value :=
  match res with
  | VStr s =>
      if Z.of_nat (String.length s) >? Z.of_nat max_length
      then Ok (VStr (str_take max_length s ++ TRUNCATED))
      else Ok res
  | VDict _ =>
      result_str <- dumps res ;;
      if Z.of_nat (String.length result_str) >? Z.of_nat max_length
      then Ok (obj [("_preview", VStr (str_take max_length result_str ++ TRUNCATED))])
      else Ok res
  | VList items =>
      result_str <- dumps res ;;
      if Z.of_nat (String.length result_str) >? Z.of_nat max_length
      then Ok (obj [("_preview",
                     VStr ("List with " ++ str_of_int (Z.of_nat (List.length items))
                           ++ " items"));
                    ("_sample", if truthy res then VList (firstn 2 items) else VList [])])
      else Ok res
  | _ => Ok (VStr (str_take max_length (py_str res)))
  end.

End Logger.

(** * Properties *)

(** ** The error boundary of the registry client *)

Lemma ptry_error_value_ok {S : Type} (body : prog S value) (st : S) :
  exists v, fst (ptry body (fun e => ret (error_value e)) st) = Ok v.
Proof.
  unfold ptry. destruct (body st) as [[a | e] st']; simpl; eauto.
Qed.

Lemma ptry_error_value_raise {S : Type} (body : prog S value) (st st' : S) (e : exn) :
  body st = (Raise e, st') ->
  ptry body (fun e => ret (error_value e)) st = (Ok (error_value e), st').
Proof.
  intros H. unfold ptry. rewrite H. reflexivity.
Qed.

(** [count_trials], [search_trials] and [extract_sites] hand every
    exception raised under their [try] back as a value. *)
Lemma count_trials_never_raises reg c p s l :
  exists v, fst (run (count_trials reg c p s l)) = Ok v.
Proof. apply ptry_error_value_ok. Qed.

Lemma search_trials_never_raises reg c p s l sp i st f t N :
  exists v, fst (run (search_trials reg c p s l sp i st f t N)) = Ok v.
Proof. apply ptry_error_value_ok. Qed.

Lemma extract_sites_never_raises reg c p s l N :
  exists v, fst (run (extract_sites reg c p s l N)) = Ok v.
Proof. apply ptry_error_value_ok. Qed.

Ltac first_fetch H :=
  unfold run, ptry, pbind, http_get, lift, failed_fetch in *;
  simpl in *;
  destruct (_ [] _) as [? | ?]; simpl in *;
  [ injection H as ->; reflexivity |];
  destruct (raise_for_status _) as [[] | ?]; simpl in *;
  [| injection H as ->; reflexivity ];
  destruct (json _) as [? | ?]; simpl in *;
  [ discriminate | injection H as ->; reflexivity ].

(** One turn of the loop of [count_trials]. *)
Lemma count_loop_turn reg remaining params total_count next_token tr :
  count_loop reg (S remaining) params total_count next_token tr
  = let params' := page_params next_token params in
    let rq := mkRequest CT_API_BASE params' in
    match read_page (reg tr rq) with
    | Raise e => (Raise e, append tr rq)
    | Ok (n, next_token') =>
        if negb (truthy next_token') then (Ok (exact_count (total_count + n)), append tr rq)
        else count_loop reg remaining params' (total_count + n) next_token' (append tr rq)
    end.
Proof.
  cbn [count_loop]. unfold pbind, http_get, lift, read_page, page_params. cbn zeta.
  destruct (reg tr _) as [e | r]; [reflexivity |].
  cbn [bind].
  destruct (raise_for_status r) as [[] | e]; [| reflexivity].
  destruct (json r) as [data | e]; [| reflexivity].
  cbn [bind].
  destruct (py_get data "studies" empty_list) as [studies | e]; [| reflexivity].
  cbn [bind].
  destruct (py_len studies) as [n | e]; [| reflexivity].
  cbn [bind].
  destruct (py_get1 data "nextPageToken") as [tok | e]; [| reflexivity].
  cbn [bind].
  destruct (negb (truthy tok)); reflexivity.
Qed.

Lemma failed_fetch_read_page rp e : failed_fetch rp = Some e -> read_page rp = Raise e.
Proof.
  unfold failed_fetch, read_page. destruct rp as [e0 | r]; [congruence |].
  destruct (raise_for_status r) as [[] | e1]; cbn [bind]; [| congruence].
  destruct (json r) as [d | e2]; cbn [bind]; congruence.
Qed.

(** On a failed first fetch the three guarded operations return the
    error object of the failure. *)
Lemma count_trials_failed_fetch reg c p s l e :
  failed_fetch (reg [] (count_request c p s l)) = Some e ->
  run (count_trials reg c p s l) = (Ok (error_value e), [count_request c p s l]).
Proof.
  intros H. apply failed_fetch_read_page in H.
  unfold count_trials, run. cbv zeta. unfold max_pages.
  apply ptry_error_value_raise.
  rewrite count_loop_turn. cbv zeta. unfold page_params. cbn [truthy].
  unfold count_request in H. rewrite H. reflexivity.
Qed.

Lemma search_trials_failed_fetch reg c p s l sp i st f t N e :
  failed_fetch (reg [] (search_request c p s l sp i st f t N)) = Some e ->
  run (search_trials reg c p s l sp i st f t N)
  = (Ok (error_value e), [search_request c p s l sp i st f t N]).
Proof.
  intros H. unfold search_trials, search_request in *. first_fetch H.
Qed.

Lemma extract_sites_failed_fetch reg c p s l N e :
  failed_fetch (reg [] (sites_request c p s l N)) = Some e ->
  run (extract_sites reg c p s l N) = (Ok (error_value e), [sites_request c p s l N]).
Proof.
  intros H. unfold extract_sites, sites_request in *. first_fetch H.
Qed.

(** C1.  [show_trials] has no handler and no status check: a timeout and
    a body that is not JSON leave it as raised exceptions, where the claim
    has it return an error object; a 404 whose body is JSON comes back as
    a record of defaults. *)
Theorem show_trials_propagates_failures :
  fst (run (show_trials reg_timeout "NCT03264352"))
  = Raise (mkExn Timeout "Read timed out. (read timeout=30)")
  /\ fst (run (show_trials reg_malformed "NCT03264352"))
     = Raise (mkExn JSONDecodeError "Expecting value: line 1 column 1 (char 0)")
  /\ (exists record,
        fst (run (show_trials reg_not_found "NCT03264352")) = Ok record
        /\ is_error_value record = false).
Proof.
  split; [reflexivity | split; [reflexivity |]].
  eexists. split; [vm_compute; reflexivity | reflexivity].
Qed.

(** ** Error transparency of the aggregation layer *)

Lemma is_error_value_error m : is_error_value (obj [("error", m)]) = true.
Proof. reflexivity. Qed.

Lemma analyze_criteria_passthrough e :
  is_error_value e = true -> analyze_criteria e = Ok e.
Proof. intros H. unfold analyze_criteria. rewrite H. reflexivity. Qed.

(** C5.  [analyze_criteria] returns an error object as it is, and
    [calculate_statistics] returns the error object of its search as it
    is. *)
Theorem error_transparency :
  (forall m : value,
      analyze_criteria (obj [("error", m)]) = Ok (obj [("error", m)]))
  /\ (forall reg c p s l sp N e,
         fst (run (search_trials reg c p s l sp None None None None N)) = Ok e ->
         is_error_value e = true ->
         fst (run (calculate_statistics reg c p s l sp N)) = Ok e).
Proof.
  split.
  - intros m. apply analyze_criteria_passthrough. reflexivity.
  - intros reg c p s l sp N e Hs He.
    unfold calculate_statistics, run, pbind in *.
    destruct (search_trials reg c p s l sp None None None None N [])
      as [[v | x] tr]; simpl in *; [| discriminate].
    injection Hs as ->. rewrite He. reflexivity.
Qed.

Lemma error_transparency_witness :
  analyze_criteria (obj [("error", VStr "boom")]) = Ok (obj [("error", VStr "boom")])
  /\ fst (run (calculate_statistics reg_timeout (Some "asthma") None None None None 20))
     = Ok (error_value (mkExn Timeout "Read timed out. (read timeout=30)")).
Proof.
  split.
  - apply (proj1 error_transparency (VStr "boom")).
  - apply (proj2 error_transparency); reflexivity.
Defined.

(** ** The split of [analyze_criteria] *)

(** C4 as the claim has it fails: the colon after the marker is part of
    the fragment. *)
Lemma analyze_criteria_age_counterexample :
  analyze_criteria (VList [record_with_criteria "Inclusion Criteria: age 18+"])
  <> Ok (obj [("inclusion", VList [VStr "age 18+"]); ("exclusion", VList [])]).
Proof. vm_compute. discriminate. Qed.

(** C4, amended.  On a single record whose blob is
    ["Inclusion Criteria: age 18+"] the inclusion list holds the text after
    the marker, stripped of white space, [": age 18+"], and the exclusion
    list is empty. *)
Theorem analyze_criteria_age (record eligibility : value) :
  py_get record "eligibility" empty_dict = Ok eligibility ->
  py_get eligibility "criteria" empty_str = Ok (VStr "Inclusion Criteria: age 18+") ->
  analyze_criteria (VList [record])
  = Ok (obj [("inclusion", VList [VStr ": age 18+"]); ("exclusion", VList [])]).
Proof.
  intros H1 H2.
  unfold analyze_criteria. simpl.
  unfold criteria_step, ptry, pbind, lift. rewrite H1, H2. reflexivity.
Qed.

Lemma analyze_criteria_age_witness :
  analyze_criteria (VList [record_with_criteria "Inclusion Criteria: age 18+"])
  = Ok (obj [("inclusion", VList [VStr ": age 18+"]); ("exclusion", VList [])]).
Proof.
  apply (analyze_criteria_age _ (obj [("criteria", VStr "Inclusion Criteria: age 18+")]));
    reflexivity.
Defined.

(** ** The page size of [search_trials] *)

Lemma map_result_length {A B : Type} (f : A -> result B) (xs : list A) (ys : list B) :
  map_result f xs = Ok ys -> List.length ys = List.length xs.
Proof.
  revert ys. induction xs as [| x xs IH]; intros ys H; simpl in H.
  - injection H as <-. reflexivity.
  - destruct (f x) as [y | e]; simpl in H; [| discriminate].
    destruct (map_result f xs) as [ys' | e]; simpl in H; [| discriminate].
    injection H as <-. simpl. f_equal. apply IH. reflexivity.
Qed.

(** [search_trials] makes one request and returns what [search_outcome]
    reads off the reply. *)
Lemma search_trials_run reg c p s l sp i st f t N :
  run (search_trials reg c p s l sp i st f t N)
  = (Ok (search_outcome (reg [] (search_request c p s l sp i st f t N))),
     [search_request c p s l sp i st f t N]).
Proof.
  unfold search_trials, search_request, search_outcome, page_items, run,
    ptry, pbind, http_get, lift.
  cbn [append app].
  destruct (reg [] _) as [e | r]; [reflexivity |].
  cbn [bind].
  destruct (raise_for_status r) as [[] | e]; [| reflexivity].
  destruct (json r) as [data | e]; [| reflexivity].
  cbn [bind].
  destruct (py_get data "studies" empty_list) as [studies | e]; [| reflexivity].
  cbn [bind].
  destruct (py_iter studies) as [items | e]; [| reflexivity].
  cbn [bind].
  destruct (map_result _ items) as [records | e]; reflexivity.
Qed.

(** C2 as the claim has it fails: nothing in [search_trials] shortens the
    page it is sent.  With [max_results=1] and a page of two studies it
    returns two records. *)
Lemma search_trials_cap_counterexample :
  ~ (forall (reg : registry) (N : Z) (records : list value),
        fst (run (search_trials reg None None None None None None None None None N))
        = Ok (VList records) ->
        Z.of_nat (List.length records) <= Z.min N 20).
Proof.
  intros H.
  assert (E : exists records,
             fst (run (search_trials (reg_page two_studies_page)
                         None None None None None None None None None 1))
             = Ok (VList records) /\ List.length records = 2%nat).
  { eexists. split; [vm_compute; reflexivity | reflexivity]. }
  destruct E as (records & E1 & E2).
  apply H in E1. rewrite E2 in E1. vm_compute in E1. apply E1. reflexivity.
Qed.

(** C2, amended.  [search_trials] sends one request, whose page size is
    [min(N, 20)]; a list it returns holds one record per study of the page
    it was sent, so at most [min(N, 20)] records when the page holds no
    more than the page size; for [N > 20] the request and the result are
    those of [N = 20]. *)
Theorem search_trials_page_size reg c p s l sp i st f t N :
  let rq := search_request c p s l sp i st f t N in
  snd (run (search_trials reg c p s l sp i st f t N)) = [rq]
  /\ dict_lookup (VStr "pageSize") (req_params rq) = Some (VInt (Z.min N 20))
  /\ (forall records,
         fst (run (search_trials reg c p s l sp i st f t N)) = Ok (VList records) ->
         exists items,
           page_items (reg [] rq) = Ok items
           /\ map_result (fun study => _parse_study study false) items = Ok records
           /\ List.length records = List.length items
           /\ (Z.of_nat (List.length items) <= Z.min N 20 ->
               Z.of_nat (List.length records) <= Z.min N 20))
  /\ (20 < N ->
      run (search_trials reg c p s l sp i st f t N)
      = run (search_trials reg c p s l sp i st f t 20)).
Proof.
  intros rq. rewrite search_trials_run. fold rq. cbn [fst snd].
  split; [reflexivity |]. split.
  { unfold rq, search_request, with_query_term. cbn [req_params].
    destruct (search_query_parts _ _ _ _ _ _ _ _ _); reflexivity. }
  split.
  - intros records H. injection H as H.
    unfold search_outcome in H.
    destruct (page_items (reg [] rq)) as [items | e]; cbn [bind] in H.
    + destruct (map_result _ items) as [recs | e] eqn:E.
      * injection H as ->. exists items.
        pose proof (map_result_length _ _ _ E) as L.
        repeat split; auto. intros B. rewrite L. exact B.
      * discriminate.
    + discriminate.
  - intros HN. rewrite search_trials_run.
    unfold rq, search_request. replace (Z.min N 20) with (Z.min 20 20) by lia.
    reflexivity.
Qed.

Lemma search_trials_page_size_witness :
  run (search_trials (reg_page two_studies_page)
         (Some "asthma") None None None None None None None None 25)
  = run (search_trials (reg_page two_studies_page)
           (Some "asthma") None None None None None None None None 20)
  /\ exists records,
       fst (run (search_trials (reg_page two_studies_page)
                   (Some "asthma") None None None None None None None None 25))
       = Ok (VList records)
       /\ Z.of_nat (List.length records) <= Z.min 25 20.
Proof.
  pose proof (search_trials_page_size (reg_page two_studies_page)
                (Some "asthma") None None None None None None None None 25) as H.
  cbv zeta in H. destruct H as (_ & _ & H3 & H4).
  split; [apply H4; lia |].
  eexists. split; [vm_compute; reflexivity |].
  edestruct H3 as (items & Hi & _ & _ & Hb); [vm_compute; reflexivity |].
  apply Hb. vm_compute in Hi. injection Hi as <-. vm_compute. discriminate.
Defined.

(** ** Query construction *)






(** ** Empty strings as absent fields *)

(** C10.  In each of the four operations that take a filter, the empty
    string in a field gives the same requests and the same result as
    [None] in that field. *)
Theorem empty_string_is_absent reg c p s l sp i st f t N :
  (run (count_trials reg (Some "") p s l) = run (count_trials reg None p s l)
   /\ run (count_trials reg c (Some "") s l) = run (count_trials reg c None s l)
   /\ run (count_trials reg c p (Some "") l) = run (count_trials reg c p None l)
   /\ run (count_trials reg c p s (Some "")) = run (count_trials reg c p s None))
  /\ (run (search_trials reg (Some "") p s l sp i st f t N)
      = run (search_trials reg None p s l sp i st f t N)
      /\ run (search_trials reg c (Some "") s l sp i st f t N)
         = run (search_trials reg c None s l sp i st f t N)
      /\ run (search_trials reg c p (Some "") l sp i st f t N)
         = run (search_trials reg c p None l sp i st f t N)
      /\ run (search_trials reg c p s (Some "") sp i st f t N)
         = run (search_trials reg c p s None sp i st f t N)
      /\ run (search_trials reg c p s l (Some "") i st f t N)
         = run (search_trials reg c p s l None i st f t N)
      /\ run (search_trials reg c p s l sp (Some "") st f t N)
         = run (search_trials reg c p s l sp None st f t N)
      /\ run (search_trials reg c p s l sp i (Some "") f t N)
         = run (search_trials reg c p s l sp i None f t N)
      /\ run (search_trials reg c p s l sp i st (Some "") t N)
         = run (search_trials reg c p s l sp i st None t N)
      /\ run (search_trials reg c p s l sp i st f (Some "") N)
         = run (search_trials reg c p s l sp i st f None N))
  /\ (run (extract_sites reg (Some "") p s l N) = run (extract_sites reg None p s l N)
      /\ run (extract_sites reg c (Some "") s l N) = run (extract_sites reg c None s l N)
      /\ run (extract_sites reg c p (Some "") l N) = run (extract_sites reg c p None l N)
      /\ run (extract_sites reg c p s (Some "") N) = run (extract_sites reg c p s None N))
  /\ (run (calculate_statistics reg (Some "") p s l sp N)
      = run (calculate_statistics reg None p s l sp N)
      /\ run (calculate_statistics reg c (Some "") s l sp N)
         = run (calculate_statistics reg c None s l sp N)
      /\ run (calculate_statistics reg c p (Some "") l sp N)
         = run (calculate_statistics reg c p None l sp N)
      /\ run (calculate_statistics reg c p s (Some "") sp N)
         = run (calculate_statistics reg c p s None sp N)
      /\ run (calculate_statistics reg c p s l (Some "") N)
         = run (calculate_statistics reg c p s l None N)).
Proof.
  repeat split; try reflexivity;
    unfold run, search_trials, search_query_parts;
    cbn [present String.eqb negb];
    first [destruct (present f) | destruct (present t)]; reflexivity.
Qed.

(** ** The bounded count of [count_trials] *)

Lemma key_eqb_str_true s k : key_eqb (VStr s) k = true -> k = VStr s.
Proof.
  destruct k; simpl; try discriminate.
  intros H. apply String.eqb_eq in H. congruence.
Qed.

(** Setting one string key leaves the entry of another alone. *)
Lemma dict_lookup_set_other (k k' : string) (v : value) (d : list (value * value)) :
  String.eqb k k' = false ->
  dict_lookup (VStr k) (dict_set (VStr k') v d) = dict_lookup (VStr k) d.
Proof.
  intros Hk. induction d as [| [k0 v0] d IH]; cbn [dict_set dict_lookup].
  - cbn [key_eqb]. rewrite Hk. reflexivity.
  - destruct (key_eqb (VStr k') k0) eqn:E.
    + apply key_eqb_str_true in E. subst k0.
      cbn [dict_lookup key_eqb]. rewrite Hk. reflexivity.
    + cbn [dict_lookup]. destruct (key_eqb (VStr k) k0); [reflexivity | exact IH].
Qed.







Lemma ptry_error_value_snd {S : Type} (body : prog S value) (st : S) :
  snd (ptry body (fun e => ret (error_value e)) st) = snd (body st).
Proof. unfold ptry. destruct (body st) as [[a | e] st']; reflexivity. Qed.





(** ** The cap of [extract_sites] *)

Lemma py_get_dict d k default :
  is_dict d = true -> py_get d k default = Ok (get_or d k default).
Proof. destruct d; try discriminate. reflexivity. Qed.

Lemma sites_full_length sites :
  sites_full sites = true <-> (50 <= List.length sites)%nat.
Proof. unfold sites_full. rewrite Z.leb_le. lia. Qed.

Lemma firstn_short {A : Type} (n : nat) (l : list A) :
  (List.length (firstn n l) < n)%nat -> firstn n l = l.
Proof.
  intros H. apply firstn_all2. rewrite length_firstn in H. lia.
Qed.

Lemma firstn_app_full {A : Type} (n : nat) (l l' : list A) :
  (n <= List.length (firstn n l))%nat -> firstn n (l ++ l') = firstn n l.
Proof.
  intros H. rewrite length_firstn in H. rewrite firstn_app.
  replace (n - List.length l)%nat with 0%nat by lia.
  cbn [firstn]. apply app_nil_r.
Qed.

(** The inner loop on well-formed locations: the first 50 of the sites so
    far followed by the records of the locations. *)
Lemma sites_of_locations_firstn nct_id locations :
  forallb is_dict locations = true ->
  forall sites,
    (List.length sites < 50)%nat ->
    sites_of_locations nct_id locations sites
    = Ok (firstn 50 (sites ++ map (site_record nct_id) locations)).
Proof.
  induction locations as [| loc locations IH]; intros Hwf sites Hlen.
  - cbn [sites_of_locations map]. rewrite app_nil_r.
    rewrite firstn_all2 by lia. reflexivity.
  - cbn [forallb] in Hwf. apply andb_prop in Hwf. destruct Hwf as [Hloc Hwf].
    cbn [sites_of_locations].
    rewrite !(py_get_dict loc) by exact Hloc. cbn [bind].
    fold (site_record nct_id loc).
    destruct (sites_full (append sites (site_record nct_id loc))) eqn:F.
    + apply sites_full_length in F. unfold append in *. rewrite length_app in F.
      cbn [List.length] in F.
      f_equal. cbn [map].
      change (sites ++ site_record nct_id loc :: map (site_record nct_id) locations)%list
        with (sites ++ [site_record nct_id loc] ++ map (site_record nct_id) locations)%list.
      rewrite app_assoc. rewrite firstn_app_full.
      * rewrite firstn_all2; [reflexivity | rewrite length_app; simpl; lia].
      * rewrite firstn_all2; rewrite length_app; simpl; lia.
    + assert (L : (List.length (append sites (site_record nct_id loc)) < 50)%nat).
      { destruct (Nat.lt_ge_cases (List.length (append sites (site_record nct_id loc))) 50)
          as [H | H]; [exact H |].
        apply sites_full_length in H. congruence. }
      rewrite (IH Hwf _ L). unfold append. rewrite <- app_assoc. reflexivity.
Qed.

(** The outer loop on well-formed studies. *)
Lemma sites_of_trials_firstn trials :
  forallb wf_site_study trials = true ->
  forall sites,
    (List.length sites < 50)%nat ->
    sites_of_trials trials sites = Ok (firstn 50 (sites ++ all_sites trials)).
Proof.
  induction trials as [| trial trials IH]; intros Hwf sites Hlen.
  - cbn [sites_of_trials all_sites flat_map]. rewrite app_nil_r.
    rewrite firstn_all2 by lia. reflexivity.
  - cbn [forallb] in Hwf. apply andb_prop in Hwf. destruct Hwf as [Ht Hwf].
    unfold wf_site_study in Ht.
    repeat (apply andb_prop in Ht; let H := fresh "W" in destruct Ht as [Ht H]).
    cbn [sites_of_trials].
    rewrite (py_get_dict trial) by exact Ht. cbn [bind].
    fold (raw_protocol trial).
    rewrite (py_get_dict (raw_protocol trial) "identificationModule") by assumption.
    cbn [bind].
    rewrite (py_get_dict (get_or (raw_protocol trial) "identificationModule" empty_dict))
      by assumption.
    cbn [bind]. fold (raw_nct_id trial).
    rewrite (py_get_dict (raw_protocol trial) "contactsLocationsModule") by assumption.
    cbn [bind].
    rewrite (py_get_dict (get_or (raw_protocol trial) "contactsLocationsModule" empty_dict))
      by assumption.
    cbn [bind].
    assert (Hl : exists locs,
               get_or (get_or (raw_protocol trial) "contactsLocationsModule" empty_dict)
                      "locations" empty_list = VList locs
               /\ forallb is_dict locs = true /\ raw_locations trial = locs).
    { unfold raw_locations.
      destruct (get_or (get_or (raw_protocol trial) "contactsLocationsModule" empty_dict)
                       "locations" empty_list); try discriminate.
      eexists. repeat split. assumption. }
    destruct Hl as (locs & -> & Hlocs & Hraw).
    cbn [py_iter bind].
    rewrite (sites_of_locations_firstn _ _ Hlocs sites Hlen). cbn [bind].
    cbn [all_sites flat_map]. rewrite Hraw. fold (all_sites trials).
    rewrite app_assoc.
    destruct (sites_full (firstn 50 (sites ++ map (site_record (raw_nct_id trial)) locs)))
      eqn:F.
    + apply sites_full_length in F.
      rewrite (firstn_app_full 50 (sites ++ map (site_record (raw_nct_id trial)) locs)
                 (all_sites trials)) by exact F.
      reflexivity.
    + assert (L : (List.length
                     (firstn 50 (sites ++ map (site_record (raw_nct_id trial)) locs))
                   < 50)%nat).
      { destruct (Nat.lt_ge_cases
                    (List.length
                       (firstn 50 (sites ++ map (site_record (raw_nct_id trial)) locs))) 50)
          as [H | H]; [exact H |].
        apply sites_full_length in H. congruence. }
      rewrite (IH Hwf _ L). rewrite (firstn_short _ _ L). reflexivity.
Qed.

(** C6.  On a page of well-formed studies whose locations number more
    than 50 in all, [extract_sites] returns exactly 50 Site Records: the
    first 50 of the records of all the locations, taken study by study and
    location by location. *)
Theorem extract_sites_cap reg c p s l N (studies : list value) :
  page_items (reg [] (sites_request c p s l N)) = Ok studies ->
  forallb wf_site_study studies = true ->
  (50 < List.length (all_sites studies))%nat ->
  fst (run (extract_sites reg c p s l N)) = Ok (VList (firstn 50 (all_sites studies)))
  /\ List.length (firstn 50 (all_sites studies)) = 50%nat.
Proof.
  intros Hpage Hwf Hlen. split.
  - unfold extract_sites, sites_request, page_items, run, ptry, pbind, http_get, lift in *.
    cbn [append app].
    destruct (reg [] _) as [e | r]; [discriminate |].
    cbn [bind] in *.
    destruct (raise_for_status r) as [[] | e]; [| discriminate].
    destruct (json r) as [data | e]; [| discriminate].
    cbn [bind] in *.
    destruct (py_get data "studies" empty_list) as [v | e]; [| discriminate].
    cbn [bind] in *. rewrite Hpage.
    rewrite (sites_of_trials_firstn studies Hwf []) by (simpl; lia).
    reflexivity.
  - rewrite length_firstn. lia.
Qed.

Lemma extract_sites_cap_witness :
  exists sites,
    fst (run (extract_sites (reg_page sites_page) (Some "asthma") None None (Some "Spain") 10))
    = Ok (VList sites)
    /\ List.length sites = 50%nat.
Proof.
  eexists.
  apply (extract_sites_cap (reg_page sites_page) (Some "asthma") None None (Some "Spain") 10
           [study_with_locations "NCT00000001" 30; study_with_locations "NCT00000002" 21]).
  - reflexivity.
  - reflexivity.
  - vm_compute. lia.
Defined.

(** ** The duration statistics of [calculate_statistics] *)

Lemma keeps_ret {A : Type} (a : A) : keeps_duration (@ret stats A a).
Proof. intros st. reflexivity. Qed.

Lemma keeps_lift {A : Type} (r : result A) : keeps_duration (@lift stats A r).
Proof. intros st. reflexivity. Qed.

Lemma keeps_pbind {A B : Type} (m : prog stats A) (k : A -> prog stats B) :
  keeps_duration m -> (forall a, keeps_duration (k a)) -> keeps_duration (pbind m k).
Proof.
  intros Hm Hk st. unfold pbind. specialize (Hm st).
  destruct (m st) as [[a | e] st']; cbn [snd] in *.
  - rewrite Hk. exact Hm.
  - exact Hm.
Qed.

(** After [lift r] the continuation only runs on the value of [r]. *)
Lemma keeps_pbind_lift {A B : Type} (r : result A) (k : A -> prog stats B) :
  (forall a, r = Ok a -> keeps_duration (k a)) -> keeps_duration (pbind (lift r) k).
Proof.
  intros Hk st. unfold pbind, lift. destruct r as [a | e]; [| reflexivity].
  apply Hk. reflexivity.
Qed.


Lemma keeps_for_each {A : Type} (body : A -> prog stats unit) (xs : list A) :
  (forall x, keeps_duration (body x)) -> keeps_duration (for_each body xs).
Proof.
  intros Hb. induction xs as [| x xs IH]; cbn [for_each].
  - apply keeps_ret.
  - apply keeps_pbind; [apply Hb | intros _; exact IH].
Qed.

Lemma keeps_tally_phase k : keeps_duration (tally_phase k).
Proof. intros st. unfold tally_phase. destruct (tally k _); reflexivity. Qed.

Lemma keeps_tally_status k : keeps_duration (tally_status k).
Proof. intros st. unfold tally_status. destruct (tally k _); reflexivity. Qed.

Lemma keeps_tally_studyType k : keeps_duration (tally_studyType k).
Proof. intros st. unfold tally_studyType. destruct (tally k _); reflexivity. Qed.

Lemma keeps_tally_sponsor k : keeps_duration (tally_sponsor k).
Proof. intros st. unfold tally_sponsor. destruct (tally k _); reflexivity. Qed.

Lemma keeps_add_enrollment_total x : keeps_duration (add_enrollment_total x).
Proof. intros st. unfold add_enrollment_total. destruct (num_add _ x); reflexivity. Qed.

Lemma keeps_incr_enrollment_count : keeps_duration incr_enrollment_count.
Proof. intros st. reflexivity. Qed.

(** A step never hands an exception to the loop. *)
Lemma stats_step_ok trial st : fst (stats_step trial st) = Ok tt.
Proof.
  unfold stats_step, ptry.
  match goal with |- context [match ?b st with _ => _ end] => destruct (b st) as [[[] | e] st'] end;
    reflexivity.
Qed.



Lemma nct_ids_ok trials :
  forallb is_dict trials = true -> exists ids, nct_ids trials = Ok ids.
Proof.
  induction trials as [| t trials IH]; intros H.
  - eexists. reflexivity.
  - cbn [forallb] in H. apply andb_prop in H. destruct H as [Ht H].
    destruct (IH H) as [ids Hids]. cbn [nct_ids]. unfold py_get1.
    rewrite (py_get_dict t) by exact Ht. cbn [bind].
    destruct (truthy _); [rewrite Hids; cbn [bind]; eauto | eauto].
Qed.


(** What [statistics_of] returned, read back. *)
Lemma statistics_of_inv trials bundle :
  statistics_of (VList trials) = Ok bundle ->
  exists ids enrollment duration,
    nct_ids trials = Ok ids
    /\ enrollment_value (final_stats trials) = Ok enrollment
    /\ duration_value (final_stats trials) = Ok duration
    /\ bundle = obj [("total_trials", VInt (Z.of_nat (List.length trials)));
                     ("trial_nct_ids", VList ids);
                     ("phases", table_value (st_phases (final_stats trials)));
                     ("statuses", table_value (st_statuses (final_stats trials)));
                     ("studyTypes", table_value (st_studyTypes (final_stats trials)));
                     ("sponsors", table_value (st_sponsors (final_stats trials)));
                     ("enrollment", enrollment);
                     ("duration", duration)].
Proof.
  unfold statistics_of. cbn [py_len py_iter bind].
  destruct (nct_ids trials) as [ids | e]; cbn [bind]; [| discriminate].
  fold (final_stats trials).
  destruct (enrollment_value (final_stats trials)) as [en | e]; cbn [bind]; [| discriminate].
  destruct (duration_value (final_stats trials)) as [du | e]; cbn [bind]; [| discriminate].
  intros H. injection H as <-. exists ids, en, du. repeat split; reflexivity.
Qed.

Lemma enrollment_value_inv st v :
  enrollment_value st = Ok v ->
  py_get1 v "total" = Ok (st_enrollment_total st)
  /\ py_get1 v "count" = Ok (VInt (st_enrollment_count st))
  /\ (exists fields, v = obj fields).
Proof.
  unfold enrollment_value.
  destruct (st_enrollment_count st >? 0).
  - destruct (true_div _ _) as [average | e]; cbn [bind]; [| discriminate].
    intros H. injection H as <-.
    split; [reflexivity |]. split; [reflexivity |].
    exists [("total", st_enrollment_total st); ("count", VInt (st_enrollment_count st));
            ("average", average)]. reflexivity.
  - intros H. injection H as <-.
    split; [reflexivity |]. split; [reflexivity |]. eexists. reflexivity.
Qed.

Lemma duration_value_inv st v :
  duration_value st = Ok v ->
  ((st_duration_count st >? 0) = true
   /\ (exists average_days average_months average_years,
         v = obj [("total_days", VInt (st_total_days st));
                  ("count", VInt (st_duration_count st));
                  ("average_days", average_days);
                  ("average_months", average_months);
                  ("average_years", average_years);
                  ("min_days", VInt (list_min (st_durations st)));
                  ("max_days", VInt (list_max (st_durations st)))]))
  \/ ((st_duration_count st >? 0) = false
      /\ v = obj [("total_days", VInt (st_total_days st));
                  ("count", VInt (st_duration_count st))]).
Proof.
  unfold duration_value.
  destruct (st_duration_count st >? 0).
  - destruct (true_div _ _) as [avg_days | e]; cbn [bind]; [| discriminate].
    destruct (py_round avg_days 1) as [a | e]; cbn [bind]; [| discriminate].
    destruct (true_div avg_days DAYS_PER_MONTH) as [months | e]; cbn [bind]; [| discriminate].
    destruct (py_round months 1) as [m | e]; cbn [bind]; [| discriminate].
    destruct (true_div avg_days DAYS_PER_YEAR) as [years | e]; cbn [bind]; [| discriminate].
    destruct (py_round years 2) as [y | e]; cbn [bind]; [| discriminate].
    intros H. injection H as <-. left. split; [reflexivity |].
    exists a, m, y. reflexivity.
  - intros H. injection H as <-. right. split; reflexivity.
Qed.

(** ** The two variants of [_parse_study] *)



Lemma parse_location_wf loc :
  is_dict loc = true -> parse_location loc = Ok (location_record loc).
Proof.
  intros H. unfold parse_location. rewrite !(py_get_dict loc) by exact H. reflexivity.
Qed.




Lemma str_take_length n s : (String.length (str_take n s) <= n)%nat.
Proof.
  revert s. induction n as [| n IH]; intros s; [simpl; lia |].
  destruct s as [| c s]; simpl; [lia |]. specialize (IH s). lia.
Qed.







Lemma py_contains_dict_key k d :
  py_contains k (VDict d)
  = Ok (match dict_lookup (VStr k) d with Some _ => true | None => false end).
Proof. reflexivity. Qed.







(** * Further properties of the registry client *)

(** ** The schema of the records of [_parse_study] *)

(** Peels the statements of [_parse_study] off a hypothesis that says it
    returned: each statement either returned or the whole call raised. *)
Ltac peel_binds :=
  repeat match goal with
         | |- bind ?m _ = Ok _ -> _ =>
             destruct m as [? | ?]; cbn [bind];
             [| let H := fresh in intros H; discriminate H]
         end.

Lemma parse_study_is_record study full_details record :
  _parse_study study full_details = Ok record ->
  is_record record
  /\ keys_of record
     = map VStr (compact_keys ++ if full_details then full_detail_keys else []).
Proof.
  unfold _parse_study. revert record. intros record.
  peel_binds.
  destruct full_details; intros H; injection H as <-;
    (split; [repeat split; try reflexivity; eexists; split; reflexivity | reflexivity]).
Qed.

(** Whatever the payload, a record that [_parse_study] returns is a dict
    with the fourteen compact keys in their order, then, with
    [full_details], the nine full-detail keys; its dates, eligibility and
    enrollment entries are dicts with their own fixed keys. *)
Theorem parse_study_schema study full_details record :
  _parse_study study full_details = Ok record ->
  is_record record
  /\ keys_of record
     = map VStr (compact_keys ++ if full_details then full_detail_keys else []).
Proof. apply parse_study_is_record. Qed.

Lemma parse_study_schema_witness :
  exists record,
    _parse_study long_study true = Ok record
    /\ is_record record
    /\ keys_of record = map VStr (compact_keys ++ full_detail_keys).
Proof.
  eexists. split; [vm_compute; reflexivity |].
  apply (parse_study_schema long_study true). vm_compute. reflexivity.
Defined.

(** ** The shape of the result of [search_trials] *)

Lemma map_result_Forall2 {A B : Type} (f : A -> result B) (xs : list A) (ys : list B) :
  map_result f xs = Ok ys -> Forall2 (fun x y => f x = Ok y) xs ys.
Proof.
  revert ys. induction xs as [| x xs IH]; intros ys H; cbn [map_result] in H.
  - injection H as <-. constructor.
  - destruct (f x) as [y | e] eqn:E; cbn [bind] in H; [| discriminate].
    destruct (map_result f xs) as [ys' | e]; cbn [bind] in H; [| discriminate].
    injection H as <-. constructor; [exact E | apply IH; reflexivity].
Qed.

Lemma map_result_first_raise {A B : Type} (f : A -> result B)
  (good : list A) (bad : A) (rest : list A) (ys : list B) (e : exn) :
  map_result f good = Ok ys -> f bad = Raise e ->
  map_result f (good ++ bad :: rest)%list = Raise e.
Proof.
  revert ys. induction good as [| x good IH]; intros ys Hg Hb; cbn [map_result app] in *.
  - rewrite Hb. reflexivity.
  - destruct (f x) as [y | e']; cbn [bind] in *; [| discriminate].
    destruct (map_result f good) as [ys' | e']; cbn [bind] in Hg; [| discriminate].
    rewrite (IH ys' eq_refl Hb). reflexivity.
Qed.

Lemma records_of_page items records :
  map_result (fun study => _parse_study study false) items = Ok records ->
  Forall is_record records /\ forallb is_dict records = true.
Proof.
  intros H. apply map_result_Forall2 in H.
  induction H as [| study record items records Hr _ IH].
  - split; [constructor | reflexivity].
  - destruct IH as [IH1 IH2].
    destruct (parse_study_is_record _ _ _ Hr) as [Hrec _].
    split; [constructor; assumption |].
    cbn [forallb]. rewrite IH2. destruct Hrec as [-> _]. reflexivity.
Qed.

(** [search_trials] never mixes its two shapes: it returns either the
    single-key error object of an exception, or a list with one record per
    study of the page, each a dict with the compact keys. *)
Theorem search_trials_shape reg c p s l sp i st f t N :
  (exists e,
      fst (run (search_trials reg c p s l sp i st f t N)) = Ok (error_value e)
      /\ is_error_value (error_value e) = true)
  \/ (exists items records,
         page_items (reg [] (search_request c p s l sp i st f t N)) = Ok items
         /\ fst (run (search_trials reg c p s l sp i st f t N)) = Ok (VList records)
         /\ is_error_value (VList records) = false
         /\ List.length records = List.length items
         /\ Forall is_record records).
Proof.
  rewrite search_trials_run. cbn [fst]. unfold search_outcome.
  destruct (page_items _) as [items | e]; cbn [bind].
  - destruct (map_result _ items) as [records | e] eqn:E.
    + right. exists items, records.
      split; [reflexivity |]. split; [reflexivity |]. split; [reflexivity |].
      split; [exact (map_result_length _ _ _ E) |].
      exact (proj1 (records_of_page _ _ E)).
    + left. exists e. split; reflexivity.
  - left. exists e. split; reflexivity.
Qed.

(** One study of the page that [_parse_study] cannot normalize turns the
    whole result of [search_trials] into the error object of that
    exception: the records of the studies before it are dropped and the
    studies after it are not looked at. *)
Theorem search_trials_all_or_nothing reg c p s l sp i st f t N
  (good : list value) (bad : value) (rest : list value) (records : list value) (e : exn) :
  page_items (reg [] (search_request c p s l sp i st f t N))
  = Ok (good ++ bad :: rest)%list ->
  map_result (fun study => _parse_study study false) good = Ok records ->
  _parse_study bad false = Raise e ->
  fst (run (search_trials reg c p s l sp i st f t N)) = Ok (error_value e).
Proof.
  intros Hp Hg Hb. rewrite search_trials_run. cbn [fst].
  unfold search_outcome. rewrite Hp. cbn [bind].
  rewrite (map_result_first_raise _ good bad rest records e Hg Hb). reflexivity.
Qed.

Lemma search_trials_all_or_nothing_witness :
  fst (run (search_trials (reg_page broken_page)
              (Some "asthma") None None None None None None None None 10))
  = Ok (obj [("error", VStr "'str' object has no attribute 'get'")]).
Proof.
  eapply (search_trials_all_or_nothing (reg_page broken_page)
            (Some "asthma") None None None None None None None None 10
            [obj []] (VStr "NCT00000004") [obj []] _
            (mkExn AttributeError "'str' object has no attribute 'get'")).
  - reflexivity.
  - vm_compute. reflexivity.
  - reflexivity.
Defined.

(** ** [calculate_statistics] always returns *)


(** ** The locations of a record *)

Ltac peel_binds_eqn :=
  repeat match goal with
         | |- bind ?m _ = Ok _ -> _ =>
             let E := fresh "E" in
             destruct m as [? | ?] eqn:E; cbn [bind];
             [| let H := fresh in intros H; discriminate H]
         end.

(** The statements of [_parse_study] that build [locations]. *)
Lemma parse_study_locations study full_details record :
  _parse_study study full_details = Ok record ->
  exists protocol contacts_module locations_raw head items locations,
    py_get study "protocolSection" empty_dict = Ok protocol
    /\ py_get protocol "contactsLocationsModule" empty_dict = Ok contacts_module
    /\ py_get contacts_module "locations" empty_list = Ok locations_raw
    /\ py_slice_to 10 locations_raw = Ok head
    /\ py_iter head = Ok items
    /\ map_result parse_location items = Ok locations
    /\ py_get1 record "locations" = Ok (VList locations).
Proof.
  unfold _parse_study. peel_binds_eqn.
  destruct full_details; intros H; injection H as <-;
    do 6 eexists; repeat split; try eassumption; reflexivity.
Qed.

Lemma chars_length s : List.length (chars s) = String.length s.
Proof. induction s as [| c s IH]; simpl; congruence. Qed.

Lemma py_get_inv d k default v :
  py_get d k default = Ok v -> is_dict d = true /\ v = get_or d k default.
Proof.
  destruct d; try discriminate. intros H. injection H as <-. split; reflexivity.
Qed.

Lemma parse_location_inv loc r : parse_location loc = Ok r -> r = location_record loc.
Proof.
  intros H. destruct loc; try discriminate.
  rewrite parse_location_wf in H by reflexivity. congruence.
Qed.

Lemma map_result_inv {A B : Type} (f : A -> result B) (g : A -> B) (xs : list A)
  (ys : list B) :
  (forall x y, f x = Ok y -> y = g x) -> map_result f xs = Ok ys -> ys = map g xs.
Proof.
  intros Hf H. apply map_result_Forall2 in H.
  induction H as [| x y xs ys Hxy _ IH]; [reflexivity |].
  cbn [map]. rewrite (Hf x y Hxy), IH. reflexivity.
Qed.

(** A record never holds more than ten locations, in either variant and
    whatever the payload; when the payload lists its locations, the record
    holds the first ten, in their order. *)
Theorem parse_study_locations_bound study full_details record :
  _parse_study study full_details = Ok record ->
  exists locations,
    py_get1 record "locations" = Ok (VList locations)
    /\ (List.length locations <= 10)%nat
    /\ (forall all,
           get_or (raw_module study "contactsLocationsModule") "locations" empty_list
           = VList all ->
           locations = map location_record (firstn 10 all)).
Proof.
  intros H.
  destruct (parse_study_locations _ _ _ H)
    as (protocol & contacts & raw & head & items & locations
        & H1 & H2 & H3 & H4 & H5 & H6 & H7).
  exists locations. split; [exact H7 |].
  apply py_get_inv in H1. destruct H1 as [_ ->].
  apply py_get_inv in H2. destruct H2 as [_ ->].
  apply py_get_inv in H3. destruct H3 as [_ ->].
  fold (raw_module study "contactsLocationsModule") in H4.
  split.
  - rewrite (map_result_length _ _ _ H6).
    destruct (get_or (raw_module study "contactsLocationsModule") "locations" empty_list)
      as [| | | | s0 | l0 |]; try discriminate; unfold py_slice_to in H4.
    + assert (Hh : head = VStr (str_take 10 s0)) by congruence. subst head.
      unfold py_iter in H5.
      assert (Hi : items = chars (str_take 10 s0)) by congruence. subst items.
      rewrite chars_length. apply str_take_length.
    + assert (Hh : head = VList (firstn 10 l0)) by congruence. subst head.
      unfold py_iter in H5.
      assert (Hi : items = firstn 10 l0) by congruence. subst items.
      apply firstn_le_length.
  - intros all Hall. rewrite Hall in H4. unfold py_slice_to in H4.
    assert (Hh : head = VList (firstn 10 all)) by congruence. subst head.
    unfold py_iter in H5.
    assert (Hi : items = firstn 10 all) by congruence. subst items.
    exact (map_result_inv _ _ _ _ parse_location_inv H6).
Qed.

Lemma parse_study_locations_bound_witness :
  exists record locations,
    _parse_study twelve_locations false = Ok record
    /\ py_get1 record "locations" = Ok (VList locations)
    /\ List.length locations = 10%nat.
Proof.
  destruct (parse_study_locations_bound twelve_locations false
              (match _parse_study twelve_locations false with
               | Ok r => r
               | Raise _ => VNone
               end)) as (locations & H1 & _ & H3).
  { vm_compute. reflexivity. }
  eexists. exists locations. split; [vm_compute; reflexivity |].
  split; [exact H1 |].
  rewrite (H3 _ eq_refl). vm_compute. reflexivity.
Defined.

(** ** What the two variants share *)

(** When [_parse_study] returns for both values of [full_details], the two
    records agree on every compact key but [interventions] and
    [eligibility], and inside [eligibility] on every key but [criteria]. *)
Theorem parse_study_variants_agree study compact full :
  _parse_study study false = Ok compact ->
  _parse_study study true = Ok full ->
  Forall (fun key => py_get1 compact key = py_get1 full key) shared_keys
  /\ (exists ec ef,
         py_get1 compact "eligibility" = Ok ec
         /\ py_get1 full "eligibility" = Ok ef
         /\ Forall (fun key => py_get1 ec key = py_get1 ef key)
                   ["sex"; "minAge"; "maxAge"; "stdAges"; "healthyVolunteers"]).
Proof.
  unfold _parse_study. peel_binds.
  intros H. injection H as <-.
  peel_binds.
  intros H. injection H as <-.
  split.
  - repeat constructor.
  - eexists. eexists. split; [reflexivity |]. split; [reflexivity |].
    repeat constructor.
Qed.

Lemma parse_study_variants_agree_witness :
  exists compact full,
    _parse_study long_study false = Ok compact
    /\ _parse_study long_study true = Ok full
    /\ Forall (fun key => py_get1 compact key = py_get1 full key) shared_keys.
Proof.
  eexists. eexists. split; [vm_compute; reflexivity |].
  split; [vm_compute; reflexivity |].
  apply (parse_study_variants_agree long_study); vm_compute; reflexivity.
Defined.

(** ** More on the cap of [extract_sites] *)

Lemma sites_of_locations_bound nct_id locations :
  forall sites out,
    (List.length sites < 50)%nat ->
    sites_of_locations nct_id locations sites = Ok out ->
    (List.length out <= 50)%nat.
Proof.
  induction locations as [| loc locations IH]; intros sites out Hlen H;
    cbn [sites_of_locations] in H.
  - injection H as <-. lia.
  - revert H. peel_binds.
    match goal with
    | |- context [sites_full ?x] => destruct (sites_full x) eqn:F; set (sites' := x) in *
    end.
    + intros H. injection H as <-.
      unfold sites', append. rewrite length_app. simpl. lia.
    + intros H. apply (IH sites' out); [| exact H].
      destruct (Nat.lt_ge_cases (List.length sites') 50) as [L | L]; [exact L |].
      apply sites_full_length in L. congruence.
Qed.

Lemma sites_of_trials_bound trials :
  forall sites out,
    (List.length sites < 50)%nat ->
    sites_of_trials trials sites = Ok out ->
    (List.length out <= 50)%nat.
Proof.
  induction trials as [| trial trials IH]; intros sites out Hlen H;
    cbn [sites_of_trials] in H.
  - injection H as <-. lia.
  - revert H.
    repeat match goal with
           | |- bind ?m _ = Ok _ -> _ =>
               let E := fresh "E" in
               destruct m as [? | ?] eqn:E; cbn [bind];
               [| let H := fresh in intros H; discriminate H]
           end.
    match goal with
    | E : sites_of_locations _ _ sites = Ok ?x |- _ =>
        pose proof (sites_of_locations_bound _ _ _ _ Hlen E) as B;
        destruct (sites_full x) eqn:F
    end.
    + intros H. injection H as <-. exact B.
    + intros H. eapply IH; [| exact H].
      match goal with
      | |- (List.length ?x < 50)%nat =>
          destruct (Nat.lt_ge_cases (List.length x) 50) as [L | L]; [exact L |];
          apply sites_full_length in L; congruence
      end.
Qed.

(** The pieces of a run of [extract_sites]. *)
Lemma extract_sites_run reg c p s l N :
  run (extract_sites reg c p s l N)
  = (Ok (match (items <- page_items (reg [] (sites_request c p s l N)) ;;
                sites_of_trials items [])
         with
         | Ok sites => VList sites
         | Raise e => error_value e
         end),
     [sites_request c p s l N]).
Proof.
  unfold extract_sites, sites_request, page_items, run, ptry, pbind, http_get, lift.
  cbn [append app].
  destruct (reg [] _) as [e | r]; [reflexivity |].
  cbn [bind].
  destruct (raise_for_status r) as [[] | e]; [| reflexivity].
  destruct (json r) as [data | e]; [| reflexivity].
  cbn [bind].
  destruct (py_get data "studies" empty_list) as [studies | e]; [| reflexivity].
  cbn [bind].
  destruct (py_iter studies) as [items | e]; [| reflexivity].
  cbn [bind].
  destruct (sites_of_trials items []) as [sites | e]; reflexivity.
Qed.

(** A list that [extract_sites] returns never holds more than 50 Site
    Records, whatever the page; on a page of well-formed studies with at
    most 50 locations in all it holds the record of every location, none
    dropped. *)
Theorem extract_sites_bound reg c p s l N :
  (forall sites,
      fst (run (extract_sites reg c p s l N)) = Ok (VList sites) ->
      (List.length sites <= 50)%nat)
  /\ (forall studies,
         page_items (reg [] (sites_request c p s l N)) = Ok studies ->
         forallb wf_site_study studies = true ->
         (List.length (all_sites studies) <= 50)%nat ->
         fst (run (extract_sites reg c p s l N)) = Ok (VList (all_sites studies))).
Proof.
  rewrite extract_sites_run. cbn [fst]. split.
  - intros sites H.
    destruct (page_items _) as [items | e]; cbn [bind] in H; [| discriminate].
    destruct (sites_of_trials items []) as [out | e] eqn:E; [| discriminate].
    injection H as <-.
    apply (sites_of_trials_bound items [] out); [simpl; lia | exact E].
  - intros studies Hp Hwf Hlen. rewrite Hp. cbn [bind].
    rewrite (sites_of_trials_firstn studies Hwf []) by (simpl; lia).
    cbn [app]. rewrite firstn_all2 by exact Hlen. reflexivity.
Qed.

Lemma extract_sites_bound_witness :
  exists sites,
    fst (run (extract_sites (reg_page few_sites_page) None (Some "Phase 2") None None 10))
    = Ok (VList sites)
    /\ List.length sites = 3%nat.
Proof.
  eexists. split.
  - apply (proj2 (extract_sites_bound (reg_page few_sites_page)
                    None (Some "Phase 2") None None 10)
             [study_with_locations "NCT00000001" 2; study_with_locations "NCT00000002" 1]).
    + reflexivity.
    + reflexivity.
    + vm_compute. lia.
  - reflexivity.
Defined.

(** One turn of the outer loop on a well-formed study. *)
Lemma sites_of_trials_turn trial trials sites :
  wf_site_study trial = true ->
  (List.length sites < 50)%nat ->
  sites_of_trials (trial :: trials) sites
  = if sites_full
         (firstn 50 (sites ++ map (site_record (raw_nct_id trial)) (raw_locations trial)))
    then Ok (firstn 50 (sites ++ map (site_record (raw_nct_id trial)) (raw_locations trial)))
    else sites_of_trials trials
           (firstn 50 (sites ++ map (site_record (raw_nct_id trial)) (raw_locations trial))).
Proof.
  intros Ht Hlen. unfold wf_site_study in Ht.
  repeat (apply andb_prop in Ht; let H := fresh "W" in destruct Ht as [Ht H]).
  cbn [sites_of_trials].
  rewrite (py_get_dict trial) by exact Ht. cbn [bind].
  fold (raw_protocol trial).
  rewrite (py_get_dict (raw_protocol trial) "identificationModule") by assumption.
  cbn [bind].
  rewrite (py_get_dict (get_or (raw_protocol trial) "identificationModule" empty_dict))
    by assumption.
  cbn [bind]. fold (raw_nct_id trial).
  rewrite (py_get_dict (raw_protocol trial) "contactsLocationsModule") by assumption.
  cbn [bind].
  rewrite (py_get_dict (get_or (raw_protocol trial) "contactsLocationsModule" empty_dict))
    by assumption.
  cbn [bind]. unfold raw_locations.
  destruct (get_or (get_or (raw_protocol trial) "contactsLocationsModule" empty_dict)
                   "locations" empty_list) as [| | | | | locs |]; try discriminate.
  cbn [py_iter bind elements].
  rewrite (sites_of_locations_firstn _ _ W sites Hlen). reflexivity.
Qed.

Lemma sites_of_trials_stops visited rest :
  forallb wf_site_study visited = true ->
  forall sites,
    (List.length sites < 50)%nat ->
    (50 <= List.length (sites ++ all_sites visited))%nat ->
    sites_of_trials (visited ++ rest) sites = Ok (firstn 50 (sites ++ all_sites visited)).
Proof.
  induction visited as [| trial visited IH]; intros Hwf sites Hlen Hfull.
  - cbn [all_sites flat_map] in Hfull. rewrite app_nil_r in Hfull. lia.
  - cbn [forallb] in Hwf. apply andb_prop in Hwf. destruct Hwf as [Ht Hwf].
    cbn [app]. rewrite (sites_of_trials_turn trial _ sites Ht Hlen).
    cbn [all_sites flat_map] in *. fold (all_sites visited) in *.
    set (mine := map (site_record (raw_nct_id trial)) (raw_locations trial)) in *.
    rewrite app_assoc in *.
    destruct (sites_full (firstn 50 (sites ++ mine))) eqn:F.
    + apply sites_full_length in F.
      rewrite (firstn_app_full 50 (sites ++ mine) _ F). reflexivity.
    + assert (L : (List.length (firstn 50 (sites ++ mine)) < 50)%nat).
      { destruct (Nat.lt_ge_cases (List.length (firstn 50 (sites ++ mine))) 50)
          as [L | L]; [exact L |].
        apply sites_full_length in L. congruence. }
      pose proof (firstn_short _ _ L) as Eq. rewrite Eq in L. rewrite Eq.
      apply (IH Hwf (sites ++ mine)%list L Hfull).
Qed.

(** Once the well-formed studies at the head of the page have given 50
    locations, [extract_sites] looks at nothing that follows: the result is
    the same whatever the rest of the page holds, even something that is
    no study. *)
Theorem extract_sites_ignores_the_rest reg c p s l N (visited rest : list value) :
  page_items (reg [] (sites_request c p s l N)) = Ok (visited ++ rest)%list ->
  forallb wf_site_study visited = true ->
  (50 <= List.length (all_sites visited))%nat ->
  fst (run (extract_sites reg c p s l N)) = Ok (VList (firstn 50 (all_sites visited))).
Proof.
  intros Hp Hwf Hlen. rewrite extract_sites_run. cbn [fst]. rewrite Hp. cbn [bind].
  rewrite (sites_of_trials_stops visited rest Hwf []) by (simpl; lia).
  reflexivity.
Qed.

Lemma extract_sites_ignores_the_rest_witness :
  exists sites,
    fst (run (extract_sites (reg_page sites_then_junk_page) None None None None 10))
    = Ok (VList sites)
    /\ List.length sites = 50%nat.
Proof.
  eexists. split.
  - apply (extract_sites_ignores_the_rest (reg_page sites_then_junk_page)
             None None None None 10
             [study_with_locations "NCT00000001" 30; study_with_locations "NCT00000002" 21]
             [VStr "not a study"]).
    + reflexivity.
    + reflexivity.
    + vm_compute. lia.
  - reflexivity.
Defined.

(** ** One query for the three fetching operations *)

Lemma with_query_term_lookup parts params :
  dict_lookup (VStr "query.term") params = None ->
  dict_lookup (VStr "query.term") (with_query_term parts params)
  = match parts with
    | [] => None
    | _ => Some (VStr (py_join " AND " parts))
    end.
Proof.
  intros H. unfold with_query_term. destruct parts as [| part parts]; [exact H |].
  generalize (VStr (py_join " AND " (part :: parts))). intros v.
  induction params as [| [k0 v0] params IH]; cbn [dict_set dict_lookup] in *.
  - reflexivity.
  - destruct (key_eqb (VStr "query.term") k0) eqn:E; [discriminate |].
    cbn [dict_lookup]. rewrite E. apply IH. exact H.
Qed.

(** [count_trials], [extract_sites] and [search_trials] each build their
    query with code of their own; for the four fields they share the
    three requests carry the same [query.term] (or none), and the request
    of [calculate_statistics] is the request of [search_trials] with its
    five fields. *)
Theorem one_query_for_all reg c p s l sp N :
  dict_lookup (VStr "query.term") (req_params (count_request c p s l))
  = dict_lookup (VStr "query.term")
      (req_params (search_request c p s l None None None None None N))
  /\ dict_lookup (VStr "query.term") (req_params (sites_request c p s l N))
     = dict_lookup (VStr "query.term")
         (req_params (search_request c p s l None None None None None N))
  /\ snd (run (calculate_statistics reg c p s l sp N))
     = [search_request c p s l sp None None None None N]
  /\ snd (run (calculate_statistics reg c p s l sp N))
     = snd (run (search_trials reg c p s l sp None None None None N)).
Proof.
  assert (Q : common_query_parts c p s l
              = search_query_parts c p s l None None None None None) by reflexivity.
  unfold count_request, sites_request, search_request. cbn [req_params].
  rewrite <- Q. rewrite !with_query_term_lookup by reflexivity.
  split; [reflexivity |]. split; [reflexivity |].
  pose proof (search_trials_run reg c p s l sp None None None None N) as R.
  unfold calculate_statistics, run, pbind in *. rewrite R. cbn [snd].
  destruct (is_error_value _); split; reflexivity.
Qed.

(** ** The chain of the pages of [count_trials] *)

Lemma dict_lookup_set_same (k : string) (v : value) (d : list (value * value)) :
  dict_lookup (VStr k) (dict_set (VStr k) v d) = Some v.
Proof.
  induction d as [| [k0 v0] d IH]; cbn [dict_set dict_lookup].
  - cbn [key_eqb]. rewrite String.eqb_refl. reflexivity.
  - destruct (key_eqb (VStr k) k0) eqn:E; cbn [dict_lookup]; rewrite E;
      [reflexivity | exact IH].
Qed.

(** What the loop sends from any turn on: a chain of page requests; and
    if one of the replies cannot be read, the loop raises its exception. *)
Lemma count_loop_chain reg remaining :
  forall params total_count next_token tr,
    exists new,
      snd (count_loop reg remaining params total_count next_token tr) = (tr ++ new)%list
      /\ (remaining <> O -> new <> [])
      /\ paged reg tr params next_token new
      /\ (forall k rp e,
             nth_error (replies_from reg tr new) k = Some rp ->
             read_page rp = Raise e ->
             fst (count_loop reg remaining params total_count next_token tr) = Raise e).
Proof.
  induction remaining as [| remaining IH]; intros params total_count next_token tr.
  - exists []. cbn [count_loop ret fst snd]. rewrite app_nil_r.
    split; [reflexivity |]. split; [congruence |]. split; [exact I |].
    intros k rp e H. destruct k; discriminate H.
  - rewrite count_loop_turn. cbv zeta.
    set (params' := page_params next_token params).
    set (rq := mkRequest CT_API_BASE params').
    destruct (read_page (reg tr rq)) as [[n tok] | e] eqn:E.
    + destruct (truthy tok) eqn:T; cbn [negb].
      * destruct (IH params' (total_count + n) tok (append tr rq))
          as (new & Htr & _ & Hchain & Hraise).
        exists (rq :: new). rewrite Htr.
        split; [unfold append; rewrite <- app_assoc; reflexivity |].
        split; [discriminate |]. split.
        { cbn [paged]. split; [reflexivity |].
          destruct new as [| rq' new]; [exact I |].
          exists n, tok. split; [exact E | split; [exact T | exact Hchain]]. }
        intros k rp e Hk Hr. destruct k as [| k]; cbn [replies_from nth_error] in Hk.
        { injection Hk as <-. fold rq in Hr. congruence. }
        { exact (Hraise k rp e Hk Hr). }
      * exists [rq]. cbn [fst snd]. split; [reflexivity |].
        split; [discriminate |]. split; [cbn [paged]; split; [reflexivity | exact I] |].
        intros k rp e Hk Hr. destruct k as [| k]; cbn [replies_from nth_error] in Hk.
        { injection Hk as <-. fold rq in Hr. congruence. }
        { destruct k; discriminate Hk. }
    + exists [rq]. cbn [fst snd]. split; [reflexivity |].
      split; [discriminate |]. split; [cbn [paged]; split; [reflexivity | exact I] |].
      intros k rp e' Hk Hr. destruct k as [| k]; cbn [replies_from nth_error] in Hk.
      { injection Hk as <-. fold rq in Hr. congruence. }
      { destruct k; discriminate Hk. }
Qed.

(** Two neighbours of a chain. *)
Lemma paged_neighbours reg trace :
  forall done params tok k rq rq',
    paged reg done params tok trace ->
    nth_error trace k = Some rq ->
    nth_error trace (S k) = Some rq' ->
    exists rp n tok',
      nth_error (replies_from reg done trace) k = Some rp
      /\ read_page rp = Ok (n, tok')
      /\ truthy tok' = true
      /\ req_params rq' = dict_set (VStr "pageToken") tok' (req_params rq).
Proof.
  induction trace as [| r0 trace IH]; intros done params tok k rq rq' Hp Hk Hk'.
  - destruct k; discriminate Hk.
  - cbn [paged] in Hp. destruct Hp as [Hr0 Hrest].
    destruct trace as [| r1 trace]; [destruct k; discriminate Hk' |].
    destruct Hrest as (n & tok' & Hread & Htruthy & Hp').
    destruct k as [| k].
    + cbn [nth_error] in Hk, Hk'. injection Hk as <-. injection Hk' as <-.
      exists (reg done r0), n, tok'.
      split; [reflexivity |]. split; [exact Hread |]. split; [exact Htruthy |].
      cbn [paged] in Hp'. destruct Hp' as [-> _]. rewrite Hr0.
      cbn [req_params]. unfold page_params at 1. rewrite Htruthy. reflexivity.
    + cbn [nth_error] in Hk, Hk'.
      destruct (IH _ _ _ k rq rq' Hp' Hk Hk') as (rp & n' & tok'' & H1 & H2 & H3 & H4).
      exists rp, n', tok''. cbn [replies_from nth_error]. repeat split; assumption.
Qed.

(** The pages of [count_trials] form a chain: the first request is the
    query without a page token; every later request is made only after the
    reply before it was read and carried a truthy [nextPageToken], and is
    the request before it with [pageToken] set to that token, everything
    else unchanged. *)
Theorem count_trials_page_chain reg c p s l :
  let trace := snd (run (count_trials reg c p s l)) in
  hd_error trace = Some (count_request c p s l)
  /\ dict_lookup (VStr "pageToken") (req_params (count_request c p s l)) = None
  /\ forall k rq rq',
       nth_error trace k = Some rq ->
       nth_error trace (S k) = Some rq' ->
       exists rp n tok,
         nth_error (replies_from reg [] trace) k = Some rp
         /\ read_page rp = Ok (n, tok)
         /\ truthy tok = true
         /\ req_params rq' = dict_set (VStr "pageToken") tok (req_params rq)
         /\ dict_lookup (VStr "pageToken") (req_params rq') = Some tok
         /\ dict_lookup (VStr "query.term") (req_params rq')
            = dict_lookup (VStr "query.term") (req_params rq).
Proof.
  intros trace. unfold trace, count_trials, run. cbv zeta.
  rewrite ptry_error_value_snd.
  set (params := with_query_term (common_query_parts c p s l) (base_params 100)).
  destruct (count_loop_chain reg max_pages params 0 VNone [])
    as (new & Htr & Hne & Hchain & _).
  rewrite Htr. cbn [app].
  split.
  { destruct new as [| rq new]; [exfalso; apply Hne; [discriminate | reflexivity] |].
    cbn [paged] in Hchain. destruct Hchain as [-> _]. reflexivity. }
  split.
  { unfold count_request. cbn [req_params]. fold params. unfold params, with_query_term.
    destruct (common_query_parts c p s l); reflexivity. }
  intros k rq rq' Hk Hk'.
  destruct (paged_neighbours reg new [] params VNone k rq rq' Hchain Hk Hk')
    as (rp & n & tok & H1 & H2 & H3 & H4).
  exists rp, n, tok. repeat split; try assumption.
  - rewrite H4. apply dict_lookup_set_same.
  - rewrite H4. apply dict_lookup_set_other. reflexivity.
Qed.

(** A page that cannot be fetched or read, the first or a later one,
    makes [count_trials] return the error object of that failure: the
    studies counted on the pages before it are not reported. *)
Theorem count_trials_failed_page reg c p s l k rp e :
  nth_error (replies_from reg [] (snd (run (count_trials reg c p s l)))) k = Some rp ->
  read_page rp = Raise e ->
  fst (run (count_trials reg c p s l)) = Ok (error_value e).
Proof.
  unfold count_trials, run. cbv zeta. rewrite ptry_error_value_snd.
  set (params := with_query_term (common_query_parts c p s l) (base_params 100)).
  destruct (count_loop_chain reg max_pages params 0 VNone [])
    as (new & Htr & _ & _ & Hraise).
  rewrite Htr. cbn [app]. intros Hk Hr.
  specialize (Hraise k rp e Hk Hr).
  unfold ptry.
  destruct (count_loop reg max_pages params 0 VNone []) as [[v | e'] tr'];
    cbn [fst] in *; [discriminate |].
  injection Hraise as ->. reflexivity.
Qed.

Lemma count_trials_failed_page_witness :
  fst (run (count_trials (reg_script [page_reply 100 "a"; page_reply 100 "b"])
              (Some "asthma") None None None))
  = Ok (error_value (mkExn Timeout "Read timed out. (read timeout=30)")).
Proof.
  apply (count_trials_failed_page (reg_script [page_reply 100 "a"; page_reply 100 "b"])
           (Some "asthma") None None None 2
           (Fails (mkExn Timeout "Read timed out. (read timeout=30)"))).
  - vm_compute. reflexivity.
  - reflexivity.
Defined.

Lemma count_trials_page_chain_witness :
  exists rq rq' tok,
    nth_error (snd (run (count_trials
                           (reg_script [page_reply 2 "a"; page_reply 1 "b"; page_reply 1 ""])
                           (Some "asthma") None None None))) 1 = Some rq
    /\ nth_error (snd (run (count_trials
                              (reg_script [page_reply 2 "a"; page_reply 1 "b";
                                           page_reply 1 ""])
                              (Some "asthma") None None None))) 2 = Some rq'
    /\ dict_lookup (VStr "pageToken") (req_params rq') = Some tok
    /\ tok = VStr "b".
Proof.
  pose proof (count_trials_page_chain
                (reg_script [page_reply 2 "a"; page_reply 1 "b"; page_reply 1 ""])
                (Some "asthma") None None None) as H.
  cbv zeta in H. destruct H as (_ & _ & H).
  edestruct (H 1%nat) as (rp & n & tok & H1 & H2 & H3 & H4 & H5 & H6);
    [vm_compute; reflexivity | vm_compute; reflexivity |].
  eexists. eexists. exists tok.
  split; [vm_compute; reflexivity |]. split; [vm_compute; reflexivity |].
  split; [exact H5 |].
  vm_compute in H1. injection H1 as <-. vm_compute in H2. congruence.
Defined.

(** ** [analyze_criteria] record by record *)

(** A turn of the loop only appends, and what it appends does not depend
    on what the lists hold: at most one fragment to each list. *)
Lemma criteria_step_appends trial c :
  snd (criteria_step trial c)
  = mkCriteria (inclusion c ++ inclusion (fragments_of trial))
               (exclusion c ++ exclusion (fragments_of trial))
  /\ (List.length (inclusion (fragments_of trial)) <= 1)%nat
  /\ (List.length (exclusion (fragments_of trial)) <= 1)%nat.
Proof.
  unfold fragments_of, criteria_step, ptry, pbind, lift, ret, collect_criteria.
  destruct c as [inc exc]. cbn [inclusion exclusion].
  destruct (py_get trial "eligibility" empty_dict) as [eligibility | e];
    [| cbn; rewrite !app_nil_r; repeat split; auto].
  destruct (py_get eligibility "criteria" empty_str) as [criteria_text | e];
    [| cbn; rewrite !app_nil_r; repeat split; auto].
  destruct (negb (truthy criteria_text));
    [cbn; rewrite !app_nil_r; repeat split; auto |].
  unfold pbind, lift, ret.
  destruct (py_contains "Inclusion Criteria" criteria_text) as [[|] | e];
    [| | cbn; rewrite !app_nil_r; repeat split; auto].
  - destruct (split_item criteria_text "Inclusion Criteria" 1) as [t1 | e];
      [| cbn; rewrite !app_nil_r; repeat split; auto].
    destruct (if str_contains "Exclusion Criteria" t1
              then split_item (VStr t1) "Exclusion Criteria" 0
              else Ok t1) as [t2 | e];
      [| cbn; rewrite !app_nil_r; repeat split; auto].
    cbn [inclusion exclusion fst snd].
    destruct (py_contains "Exclusion Criteria" criteria_text) as [[|] | e];
      [| cbn; rewrite !app_nil_r; repeat split; auto
       | cbn; rewrite !app_nil_r; repeat split; auto].
    destruct (split_item criteria_text "Exclusion Criteria" 1) as [t3 | e];
      cbn; rewrite ?app_nil_r; repeat split; auto.
  - destruct (py_contains "Exclusion Criteria" criteria_text) as [[|] | e];
      [| cbn; rewrite !app_nil_r; repeat split; auto
       | cbn; rewrite !app_nil_r; repeat split; auto].
    destruct (split_item criteria_text "Exclusion Criteria" 1) as [t3 | e];
      cbn; rewrite ?app_nil_r; repeat split; auto.
Qed.

Lemma criteria_loop_appends trials :
  forall c,
    snd (for_each criteria_step trials c)
    = mkCriteria (inclusion c ++ flat_map (fun t => inclusion (fragments_of t)) trials)
                 (exclusion c ++ flat_map (fun t => exclusion (fragments_of t)) trials).
Proof.
  induction trials as [| trial trials IH]; intros c.
  - cbn. rewrite !app_nil_r. destruct c; reflexivity.
  - cbn [for_each]. unfold pbind.
    pose proof (proj1 (criteria_step_appends trial c)) as Hs.
    destruct (criteria_step trial c) as [[[] | e] c'] eqn:E; cbn [snd] in Hs.
    + rewrite IH, Hs. cbn [inclusion exclusion flat_map].
      rewrite <- !app_assoc. reflexivity.
    + exfalso. unfold criteria_step, ptry in E.
      match type of E with
      | context [match ?b c with _ => _ end] => destruct (b c) as [[[] | e0] c0]
      end; discriminate E.
Qed.

Lemma flat_map_short {A B : Type} (f : A -> list B) (l : list A) :
  (forall x, (List.length (f x) <= 1)%nat) ->
  (List.length (flat_map f l) <= List.length l)%nat.
Proof.
  intros H. induction l as [| x l IH]; [simpl; lia |].
  cbn [flat_map]. rewrite length_app. specialize (H x). simpl. lia.
Qed.

(** On a list, [analyze_criteria] always returns the two lists; it works
    record by record: the fragments of a list made of two parts are the
    fragments of the first part followed by those of the second, and a list
    of n records gives at most n inclusion and n exclusion fragments. *)
Theorem analyze_criteria_by_record (first second : list value) :
  exists i1 e1 i2 e2,
    analyze_criteria (VList first)
    = Ok (obj [("inclusion", VList i1); ("exclusion", VList e1)])
    /\ analyze_criteria (VList second)
       = Ok (obj [("inclusion", VList i2); ("exclusion", VList e2)])
    /\ analyze_criteria (VList (first ++ second))
       = Ok (obj [("inclusion", VList (i1 ++ i2)); ("exclusion", VList (e1 ++ e2))])
    /\ (List.length i1 <= List.length first)%nat
    /\ (List.length e1 <= List.length first)%nat.
Proof.
  exists (flat_map (fun t => inclusion (fragments_of t)) first),
         (flat_map (fun t => exclusion (fragments_of t)) first),
         (flat_map (fun t => inclusion (fragments_of t)) second),
         (flat_map (fun t => exclusion (fragments_of t)) second).
  unfold analyze_criteria. cbn [is_error_value py_iter bind].
  rewrite !criteria_loop_appends. cbn [inclusion exclusion app].
  rewrite !flat_map_app.
  split; [reflexivity |]. split; [reflexivity |]. split; [reflexivity |].
  split; apply flat_map_short; intros x; apply criteria_step_appends; exact (mkCriteria [] []).
Qed.

(** ** [analyze_criteria] on a blob with the two markers *)

Lemma str_app_assoc (a b c : string) : ((a ++ b) ++ c = a ++ (b ++ c))%string.
Proof. induction a as [| x a IH]; simpl; [reflexivity | rewrite IH; reflexivity]. Qed.

Lemma starts_with_app sep rest : starts_with sep (sep ++ rest) = true.
Proof.
  induction sep as [| a sep IH]; [reflexivity |].
  simpl. rewrite Ascii.eqb_refl. exact IH.
Qed.

(** Stepping over the characters of a separator that was found. *)
Lemma split_from_skip sep u rest :
  split_from sep (String.length u) (u ++ rest) = split_from sep O rest.
Proof.
  induction u as [| c u IH]; [reflexivity |]. simpl. exact IH.
Qed.

Lemma split_from_sep sep rest :
  sep <> EmptyString ->
  split_from sep O (sep ++ rest)
  = (EmptyString, let (h, t) := split_from sep O rest in h :: t).
Proof.
  intros Hne. destruct sep as [| a sep]; [congruence |].
  change (String a sep ++ rest)%string with (String a (sep ++ rest)).
  cbn [split_from].
  change (String a (sep ++ rest)) with (String a sep ++ rest)%string.
  rewrite starts_with_app. cbn [String.length Nat.pred].
  rewrite split_from_skip. reflexivity.
Qed.

Lemma split_from_before sep u rest :
  starts_nowhere sep u rest = true ->
  split_from sep O (u ++ rest)
  = let (h, t) := split_from sep O rest in ((u ++ h)%string, t).
Proof.
  induction u as [| c u IH]; intros H.
  - simpl. destruct (split_from sep O rest); reflexivity.
  - cbn [starts_nowhere] in H. apply andb_prop in H. destruct H as [H1 H2].
    apply negb_true_iff in H1.
    change (String c u ++ rest)%string with (String c (u ++ rest)) in *.
    cbn [split_from]. rewrite H1. rewrite (IH H2).
    destruct (split_from sep O rest); reflexivity.
Qed.

Lemma split_from_absent sep s :
  str_contains sep s = false -> split_from sep O s = (s, []).
Proof.
  induction s as [| c s IH]; intros H; [reflexivity |].
  cbn [str_contains] in H. apply orb_false_iff in H. destruct H as [H1 H2].
  cbn [split_from]. rewrite H1, (IH H2). reflexivity.
Qed.

(** [s.split(sep)] when the first [sep] of [s] comes right after [u]. *)
Lemma py_split_at sep u rest :
  sep <> EmptyString ->
  starts_nowhere sep u (sep ++ rest) = true ->
  py_split sep (u ++ sep ++ rest) = u :: py_split sep rest.
Proof.
  intros Hne H. unfold py_split.
  rewrite (split_from_before _ _ _ H), (split_from_sep _ _ Hne).
  destruct (split_from sep O rest) as [h t].
  replace (u ++ "")%string with u; [reflexivity |].
  clear. induction u as [| c u IH]; simpl; congruence.
Qed.

Lemma py_split_absent sep s : str_contains sep s = false -> py_split sep s = [s].
Proof. intros H. unfold py_split. rewrite (split_from_absent _ _ H). reflexivity. Qed.

Lemma str_contains_app sep u rest :
  str_contains sep (u ++ rest)
  = negb (starts_nowhere sep u rest) || str_contains sep rest.
Proof.
  induction u as [| c u IH]; [reflexivity |].
  change (String c u ++ rest)%string with (String c (u ++ rest)).
  cbn [str_contains starts_nowhere].
  change (String c (u ++ rest)) with (String c u ++ rest)%string.
  rewrite IH. destruct (starts_with sep (String c u ++ rest)); [reflexivity |].
  cbn [negb andb orb]. reflexivity.
Qed.

Lemma starts_nowhere_app sep u1 u2 rest :
  starts_nowhere sep (u1 ++ u2) rest
  = starts_nowhere sep u1 (u2 ++ rest) && starts_nowhere sep u2 rest.
Proof.
  induction u1 as [| c u1 IH]; [reflexivity |].
  change (String c u1 ++ u2)%string with (String c (u1 ++ u2)).
  cbn [starts_nowhere]. rewrite IH.
  change (String c (u1 ++ u2)) with (String c u1 ++ u2)%string.
  rewrite str_app_assoc. rewrite andb_assoc. reflexivity.
Qed.

(** A match that runs over the end of [w] needs the next character at a
    later place of the separator. *)
Lemma starts_with_overlap s w x r :
  starts_with s (w ++ String x r) = true ->
  starts_with s w = false ->
  occurs x s = true.
Proof.
  revert s. induction w as [| c w IH]; intros s H1 H2.
  - destruct s as [| a s]; [discriminate |].
    simpl in H1. apply andb_prop in H1. destruct H1 as [H1 _].
    cbn [occurs]. rewrite H1. reflexivity.
  - destruct s as [| a s]; [discriminate |].
    simpl in H1, H2. apply andb_prop in H1. destruct H1 as [Ha H1].
    rewrite Ha in H2. cbn [andb] in H2.
    cbn [occurs]. rewrite (IH s H1 H2). apply orb_true_r.
Qed.

(** [sep] starts nowhere in a text that does not contain it, when the
    character that follows the text is found in [sep] at its first place
    only. *)
Lemma starts_nowhere_free a sep u x r :
  str_contains (String a sep) u = false ->
  occurs x sep = false ->
  starts_nowhere (String a sep) u (String x r) = true.
Proof.
  intros Hu Hx. induction u as [| c u IH]; [reflexivity |].
  cbn [str_contains] in Hu. apply orb_false_iff in Hu. destruct Hu as [H1 H2].
  cbn [starts_nowhere]. rewrite (IH H2). rewrite andb_true_r.
  apply negb_true_iff.
  destruct (starts_with (String a sep) (String c u ++ String x r)) eqn:E; [| reflexivity].
  exfalso.
  change (String c u ++ String x r)%string with (String c (u ++ String x r)) in E.
  simpl in E, H1. apply andb_prop in E. destruct E as [Ea E].
  rewrite Ea in H1. cbn [andb] in H1.
  pose proof (starts_with_overlap sep u x r E H1) as O. congruence.
Qed.

(** [sep] starts nowhere in a text that lacks its first character. *)
Lemma starts_nowhere_first a sep w rest :
  occurs a w = false -> starts_nowhere (String a sep) w rest = true.
Proof.
  induction w as [| c w IH]; intros H; [reflexivity |].
  cbn [occurs] in H. apply orb_false_iff in H. destruct H as [H1 H2].
  cbn [starts_nowhere]. rewrite (IH H2), andb_true_r.
  change (String c w ++ rest)%string with (String c (w ++ rest)).
  cbn [starts_with]. rewrite Ascii.eqb_sym, H1. reflexivity.
Qed.

Section Blob.

Variables preamble inclusion_text exclusion_text : string.

Hypothesis preamble_free :
  str_contains INCLUSION preamble = false /\ str_contains EXCLUSION preamble = false.
Hypothesis inclusion_free :
  str_contains INCLUSION inclusion_text = false
  /\ str_contains EXCLUSION inclusion_text = false.
Hypothesis exclusion_free :
  str_contains INCLUSION exclusion_text = false
  /\ str_contains EXCLUSION exclusion_text = false.

(** The only place of the blob where the inclusion marker starts is after
    the preamble. *)
Lemma blob_split_inclusion :
  py_split INCLUSION (criteria_blob preamble inclusion_text exclusion_text)
  = [preamble; (inclusion_text ++ EXCLUSION ++ exclusion_text)%string].
Proof.
  unfold criteria_blob.
  rewrite py_split_at; [| discriminate |].
  - rewrite py_split_absent; [reflexivity |].
    assert (F1 : starts_nowhere INCLUSION inclusion_text (EXCLUSION ++ exclusion_text)
                 = true).
    { apply (starts_nowhere_free "I" "nclusion Criteria" inclusion_text "E");
        [exact (proj1 inclusion_free) | reflexivity]. }
    assert (F2 : starts_nowhere INCLUSION EXCLUSION exclusion_text = true).
    { apply (starts_nowhere_first "I" "nclusion Criteria"). reflexivity. }
    rewrite str_contains_app, F1. cbn [negb orb].
    rewrite str_contains_app, F2. exact (proj1 exclusion_free).
  - apply (starts_nowhere_free "I" "nclusion Criteria" preamble "I");
      [exact (proj1 preamble_free) | reflexivity].
Qed.

(** In the inclusion text and what follows it, the only place where the
    exclusion marker starts is after the inclusion text. *)
Lemma blob_split_exclusion_tail :
  py_split EXCLUSION (inclusion_text ++ EXCLUSION ++ exclusion_text)
  = [inclusion_text; exclusion_text].
Proof.
  rewrite py_split_at; [| discriminate |].
  - rewrite py_split_absent; [reflexivity | exact (proj2 exclusion_free)].
  - apply (starts_nowhere_free "E" "xclusion Criteria" inclusion_text "E");
      [exact (proj2 inclusion_free) | reflexivity].
Qed.

Lemma blob_split_exclusion :
  py_split EXCLUSION (criteria_blob preamble inclusion_text exclusion_text)
  = [(preamble ++ INCLUSION ++ inclusion_text)%string; exclusion_text].
Proof.
  unfold criteria_blob.
  replace (preamble ++ INCLUSION ++ inclusion_text ++ EXCLUSION ++ exclusion_text)%string
    with ((preamble ++ INCLUSION ++ inclusion_text) ++ EXCLUSION ++ exclusion_text)%string
    by (rewrite !str_app_assoc; reflexivity).
  rewrite py_split_at; [| discriminate |].
  - rewrite py_split_absent; [reflexivity | exact (proj2 exclusion_free)].
  - rewrite !starts_nowhere_app. apply andb_true_intro. split; [| apply andb_true_intro; split].
    + apply (starts_nowhere_free "E" "xclusion Criteria" preamble "I");
        [exact (proj2 preamble_free) | reflexivity].
    + apply (starts_nowhere_first "E" "xclusion Criteria"). reflexivity.
    + apply (starts_nowhere_free "E" "xclusion Criteria" inclusion_text "E");
        [exact (proj2 inclusion_free) | reflexivity].
Qed.

Lemma blob_contains_markers :
  str_contains INCLUSION (criteria_blob preamble inclusion_text exclusion_text) = true
  /\ str_contains EXCLUSION (criteria_blob preamble inclusion_text exclusion_text) = true
  /\ str_contains EXCLUSION (inclusion_text ++ EXCLUSION ++ exclusion_text) = true.
Proof.
  assert (M : forall sep u rest, str_contains sep (u ++ sep ++ rest) = true).
  { intros sep u rest. induction u as [| c u IH].
    - change ("" ++ sep ++ rest)%string with (sep ++ rest)%string.
      pose proof (starts_with_app sep rest) as P.
      destruct (sep ++ rest)%string; cbn [str_contains]; rewrite P; reflexivity.
    - change (String c u ++ sep ++ rest)%string with (String c (u ++ sep ++ rest)).
      cbn [str_contains]. rewrite IH. apply orb_true_r. }
  unfold criteria_blob. split; [apply M |]. split; [| apply M].
  replace (preamble ++ INCLUSION ++ inclusion_text ++ EXCLUSION ++ exclusion_text)%string
    with ((preamble ++ INCLUSION ++ inclusion_text) ++ EXCLUSION ++ exclusion_text)%string
    by (rewrite !str_app_assoc; reflexivity).
  apply M.
Qed.

End Blob.

Lemma blob_truthy preamble inclusion_text exclusion_text :
  truthy (VStr (criteria_blob preamble inclusion_text exclusion_text)) = true.
Proof.
  unfold criteria_blob. cbn [truthy]. destruct preamble; reflexivity.
Qed.

(** On a record whose blob is a preamble, the inclusion marker, a text,
    the exclusion marker and a text, none of the three texts holding a
    marker, [analyze_criteria] returns the stripped text between the
    markers as the inclusion fragment and the stripped text after the
    exclusion marker as the exclusion fragment. *)
Theorem analyze_criteria_two_markers
  (record eligibility : value) (preamble inclusion_text exclusion_text : string) :
  py_get record "eligibility" empty_dict = Ok eligibility ->
  py_get eligibility "criteria" empty_str
  = Ok (VStr (criteria_blob preamble inclusion_text exclusion_text)) ->
  str_contains INCLUSION preamble = false /\ str_contains EXCLUSION preamble = false ->
  str_contains INCLUSION inclusion_text = false
  /\ str_contains EXCLUSION inclusion_text = false ->
  str_contains INCLUSION exclusion_text = false
  /\ str_contains EXCLUSION exclusion_text = false ->
  analyze_criteria (VList [record])
  = Ok (obj [("inclusion", VList [VStr (py_strip inclusion_text)]);
             ("exclusion", VList [VStr (py_strip exclusion_text)])]).
Proof.
  intros Hr He Hp Hi Hx.
  pose proof (blob_split_inclusion _ _ _ Hp Hi Hx) as S1.
  pose proof (blob_split_exclusion_tail _ _ Hi Hx) as S2.
  pose proof (blob_split_exclusion _ _ _ Hp Hi Hx) as S3.
  destruct (blob_contains_markers preamble inclusion_text exclusion_text) as (C1 & C2 & C3).
  pose proof (blob_truthy preamble inclusion_text exclusion_text) as T.
  unfold INCLUSION, EXCLUSION in *.
  unfold analyze_criteria. cbn [is_error_value py_iter bind for_each].
  unfold criteria_step, ptry, pbind, lift, ret. rewrite Hr, He, T. cbn [negb].
  unfold collect_criteria, pbind, lift, ret, py_contains, split_item.
  rewrite C1, S1. cbn [nth_error]. rewrite C3, S2. cbn [nth_error].
  rewrite C2, S3. cbn [nth_error].
  reflexivity.
Qed.

Lemma analyze_criteria_two_markers_witness :
  analyze_criteria
    (VList [record_with_criteria
              (criteria_blob "Eligibility. " ": adults  " ": pregnancy")])
  = Ok (obj [("inclusion", VList [VStr ": adults"]);
             ("exclusion", VList [VStr ": pregnancy"])]).
Proof.
  apply (analyze_criteria_two_markers
           (record_with_criteria (criteria_blob "Eligibility. " ": adults  " ": pregnancy"))
           (obj [("criteria",
                  VStr (criteria_blob "Eligibility. " ": adults  " ": pregnancy"))])
           "Eligibility. " ": adults  " ": pregnancy");
    try reflexivity; split; reflexivity.
Defined.

(** ** Calendar arithmetic *)

Lemma days_before_year_succ y :
  days_before_year (y + 1) = days_before_year y + 365 + (if is_leap y then 1 else 0).
Proof.
  unfold days_before_year, is_leap.
  replace (y + 1 - 1) with y by lia.
  destruct (y mod 4 =? 0) eqn:E4; destruct (y mod 100 =? 0) eqn:E100;
    destruct (y mod 400 =? 0) eqn:E400; cbn [andb orb negb];
    rewrite ?Z.eqb_eq, ?Z.eqb_neq in *;
    Z.div_mod_to_equations; lia.
Qed.

Lemma days_before_year_mono y1 y2 : y1 <= y2 -> days_before_year y1 <= days_before_year y2.
Proof.
  unfold days_before_year. intros H. Z.div_mod_to_equations. lia.
Qed.

Lemma month_cases m :
  1 <= m <= 12 ->
  m = 1 \/ m = 2 \/ m = 3 \/ m = 4 \/ m = 5 \/ m = 6 \/ m = 7 \/ m = 8 \/ m = 9
  \/ m = 10 \/ m = 11 \/ m = 12.
Proof. lia. Qed.

Ltac each_month H :=
  apply month_cases in H;
  repeat (destruct H as [H | H]); subst.

(** The months before a later month hold the whole of an earlier one. *)
Lemma days_before_month_mono y m1 m2 :
  1 <= m1 <= 12 -> 1 <= m2 <= 12 -> m1 < m2 ->
  days_before_month y m1 + days_in_month y m1 <= days_before_month y m2.
Proof.
  intros H1 H2 Hlt. each_month H1; each_month H2; try lia;
    unfold days_before_month, days_in_month; destruct (is_leap y); vm_compute; congruence.
Qed.

(** A year holds 365 days, 366 when it is a leap year. *)
Lemma days_before_month_year y m :
  1 <= m <= 12 ->
  days_before_month y m + days_in_month y m <= 365 + (if is_leap y then 1 else 0).
Proof.
  intros H. each_month H;
    unfold days_before_month, days_in_month; destruct (is_leap y); vm_compute; congruence.
Qed.

Lemma days_before_month_nonneg y m : 1 <= m <= 12 -> 0 <= days_before_month y m.
Proof.
  intros H. each_month H;
    unfold days_before_month, days_in_month; destruct (is_leap y); vm_compute; congruence.
Qed.

Lemma valid_bounds d :
  valid d = true ->
  1 <= year d /\ 1 <= month d <= 12 /\ 1 <= day d <= days_in_month (year d) (month d).
Proof.
  unfold valid, valid_date. intros H.
  repeat (apply andb_prop in H; let H' := fresh in destruct H as [H H']).
  rewrite ?Z.leb_le in *. lia.
Qed.

(** [toordinal] grows with the date: a later valid date is at least one
    day after an earlier one. *)
Lemma toordinal_gt a b :
  valid a = true -> valid b = true -> datetime_gt a b = true ->
  1 <= days_between a b.
Proof.
  intros Va Vb H.
  apply valid_bounds in Va. apply valid_bounds in Vb.
  destruct Va as (Ya & Ma & Da). destruct Vb as (Yb & Mb & Db).
  unfold days_between, toordinal. unfold datetime_gt in H.
  apply orb_prop in H. destruct H as [H | H].
  - apply Z.ltb_lt in H.
    pose proof (days_before_year_mono (year b + 1) (year a) ltac:(lia)) as M.
    rewrite days_before_year_succ in M.
    pose proof (days_before_month_year (year b) (month b) Mb) as Bb.
    pose proof (days_before_month_nonneg (year a) (month a) Ma) as Ba.
    lia.
  - apply andb_prop in H. destruct H as [Hy H]. apply Z.eqb_eq in Hy.
    apply orb_prop in H. destruct H as [H | H].
    + apply Z.ltb_lt in H. rewrite Hy in *.
      pose proof (days_before_month_mono (year b) (month b) (month a) Mb Ma H) as M.
      lia.
    + apply andb_prop in H. destruct H as [Hm H].
      apply Z.eqb_eq in Hm. apply Z.ltb_lt in H. rewrite Hy, Hm. lia.
Qed.

(** ** Dates that [parse_date] returns *)

Lemma strptime_valid s fmt d : strptime s fmt = Ok d -> valid d = true.
Proof.
  unfold strptime.
  destruct (compile_format false fmt) as [ts |]; [| discriminate].
  destruct (re_match ts _ s) as [[g rest] |]; [| discriminate].
  destruct (negb (String.eqb rest "")); [discriminate |].
  destruct (valid_date _ _ _) eqn:V; [| discriminate].
  intros H. injection H as <-. exact V.
Qed.

Lemma strptime_raises_value_error s fmt e :
  strptime s fmt = Raise e -> exn_kind e = ValueError.
Proof.
  unfold strptime.
  destruct (compile_format false fmt) as [ts |]; [| intros H; injection H as <-; reflexivity].
  destruct (re_match ts _ s) as [[g rest] |]; [| intros H; injection H as <-; reflexivity].
  destruct (negb (String.eqb rest "")); [intros H; injection H as <-; reflexivity |].
  destruct (valid_date _ _ _); [discriminate | intros H; injection H as <-; reflexivity].
Qed.

Lemma parse_date_loop_spec s formats :
  exists o,
    parse_date_loop (VStr s) formats = Ok o
    /\ match o with Some d => valid d = true | None => True end.
Proof.
  induction formats as [| fmt formats IH].
  - exists None. split; [reflexivity | exact I].
  - cbn [parse_date_loop].
    destruct (strptime s fmt) as [d | e] eqn:E.
    + exists (Some d). split; [reflexivity | exact (strptime_valid _ _ _ E)].
    + rewrite (strptime_raises_value_error _ _ _ E). exact IH.
Qed.

(** On a string [parse_date] never raises: the only exceptions of
    [strptime] on a string are [ValueError]s, which it catches; a date it
    returns is a date of the calendar, between the years 1 and 9999. *)
Theorem parse_date_total s :
  exists o,
    parse_date (VStr s) = Ok o
    /\ match o with
       | Some d =>
           1 <= year d <= 9999 /\ 1 <= month d <= 12
           /\ 1 <= day d <= days_in_month (year d) (month d)
       | None => True
       end.
Proof.
  destruct (parse_date_loop_spec s date_formats) as (o & Ho & Hv).
  exists o. split; [exact Ho |].
  destruct o as [d |]; [| exact I].
  pose proof (valid_bounds d Hv) as B.
  unfold valid, valid_date in Hv.
  repeat (apply andb_prop in Hv; let H' := fresh in destruct Hv as [Hv H']).
  rewrite ?Z.leb_le in *. lia.
Qed.

(** ** The durations that the statistics count *)

Lemma steps_of_keeps {A : Type} (m : prog stats A) : keeps_duration m -> steps_duration m.
Proof. intros H st. left. apply H. Qed.

Lemma steps_pbind {A B : Type} (m : prog stats A) (k : A -> prog stats B) :
  keeps_duration m -> (forall a, steps_duration (k a)) -> steps_duration (pbind m k).
Proof.
  intros Hm Hk st. unfold pbind. specialize (Hm st).
  destruct (m st) as [[a | e] st']; cbn [snd] in *.
  - unfold duration_acc in Hm. injection Hm as H1 H2 H3.
    destruct (Hk a st') as [H | (d & Hd & H)].
    + left. rewrite H. unfold duration_acc. congruence.
    + right. exists d. split; [exact Hd |]. rewrite H. congruence.
  - left. exact Hm.
Qed.

Lemma steps_pbind_lift {A B : Type} (r : result A) (k : A -> prog stats B) :
  (forall a, r = Ok a -> steps_duration (k a)) -> steps_duration (pbind (lift r) k).
Proof.
  intros Hk st. unfold pbind, lift. destruct r as [a | e]; [| left; reflexivity].
  apply Hk. reflexivity.
Qed.

Lemma steps_ptry {A : Type} (body : prog stats A) (handler : exn -> prog stats A) :
  steps_duration body -> (forall e, keeps_duration (handler e)) ->
  steps_duration (ptry body handler).
Proof.
  intros Hb Hh st. unfold ptry. specialize (Hb st).
  destruct (body st) as [[a | e] st']; cbn [snd] in *; [exact Hb |].
  pose proof (Hh e st') as K.
  destruct Hb as [Hb | (d & Hd & Hb)].
  - left. congruence.
  - right. exists d. split; [exact Hd | congruence].
Qed.

Lemma parse_date_valid v d : parse_date v = Ok (Some d) -> valid d = true.
Proof.
  destruct v; try discriminate. intros H.
  destruct (parse_date_loop_spec s date_formats) as (o & Ho & Hv).
  unfold parse_date in H. rewrite H in Ho. injection Ho as <-. exact Hv.
Qed.

Lemma duration_step_steps start completion :
  steps_duration (duration_step start completion).
Proof.
  unfold duration_step.
  destruct (truthy start && truthy completion); [| apply steps_of_keeps, keeps_ret].
  apply steps_ptry; [| intros e; apply keeps_ret].
  apply steps_pbind_lift. intros s Hs.
  apply steps_pbind_lift. intros c Hc.
  destruct s as [s |]; [| apply steps_of_keeps, keeps_ret].
  destruct c as [c |]; [| apply steps_of_keeps, keeps_ret].
  destruct (datetime_gt c s) eqn:G; [| apply steps_of_keeps, keeps_ret].
  intros st. right. exists (days_between c s). split; [| reflexivity].
  apply toordinal_gt; [exact (parse_date_valid _ _ Hc) | exact (parse_date_valid _ _ Hs) | exact G].
Qed.

Lemma stats_step_steps trial : steps_duration (stats_step trial).
Proof.
  unfold stats_step.
  apply steps_ptry; [| intros e; apply keeps_ret].
  apply steps_pbind_lift; intros phases _.
  apply steps_pbind_lift; intros items _.
  apply steps_pbind; [apply keeps_for_each; apply keeps_tally_phase | intros _].
  apply steps_pbind_lift; intros trial_status _.
  apply steps_pbind; [apply keeps_tally_status | intros _].
  apply steps_pbind_lift; intros study_type _.
  apply steps_pbind; [apply keeps_tally_studyType | intros _].
  apply steps_pbind_lift; intros trial_sponsor _.
  apply steps_pbind; [apply keeps_tally_sponsor | intros _].
  apply steps_pbind_lift; intros enrollment _.
  apply steps_pbind_lift; intros has_count _.
  apply steps_pbind_lift; intros counted _.
  apply steps_pbind.
  { destruct counted; [| apply keeps_ret].
    apply keeps_pbind_lift; intros c _.
    apply keeps_pbind; [apply keeps_add_enrollment_total | intros _].
    apply keeps_incr_enrollment_count. }
  intros _.
  apply steps_pbind_lift; intros dates _.
  apply steps_pbind_lift; intros start _.
  apply steps_pbind_lift; intros completion _.
  apply duration_step_steps.
Qed.

(** What the loop keeps true of the duration accumulators. *)
Lemma duration_invariant trials :
  forall st n,
    st_duration_count st = Z.of_nat (List.length (st_durations st)) ->
    st_total_days st = fold_right Z.add 0 (st_durations st) ->
    Forall (fun d => 1 <= d) (st_durations st) ->
    (List.length (st_durations st) <= n)%nat ->
    let st' := snd (for_each stats_step trials st) in
    st_duration_count st' = Z.of_nat (List.length (st_durations st'))
    /\ st_total_days st' = fold_right Z.add 0 (st_durations st')
    /\ Forall (fun d => 1 <= d) (st_durations st')
    /\ (List.length (st_durations st') <= n + List.length trials)%nat.
Proof.
  induction trials as [| trial trials IH]; intros st n H1 H2 H3 H4.
  - cbn. repeat split; auto. lia.
  - cbn [for_each]. unfold pbind.
    pose proof (stats_step_ok trial st) as Hok.
    pose proof (stats_step_steps trial st) as Hs.
    destruct (stats_step trial st) as [[[] | e] st1]; cbn [fst snd] in *; [| discriminate].
    assert (J : st_duration_count st1 = Z.of_nat (List.length (st_durations st1))
                /\ st_total_days st1 = fold_right Z.add 0 (st_durations st1)
                /\ Forall (fun d => 1 <= d) (st_durations st1)
                /\ (List.length (st_durations st1) <= S n)%nat).
    { unfold duration_acc in Hs. destruct Hs as [Hs | (d & Hd & Hs)]; injection Hs as E1 E2 E3.
      - rewrite E1, E2, E3. repeat split; auto.
      - rewrite E1, E2, E3. unfold append. rewrite length_app, fold_right_app.
        cbn [List.length fold_right].
        repeat split.
        + lia.
        + rewrite H2. clear. induction (st_durations st) as [| x l IHl]; simpl; lia.
        + apply Forall_app. split; [exact H3 | repeat constructor; exact Hd].
        + lia. }
    destruct J as (J1 & J2 & J3 & J4).
    destruct (IH st1 (S n) J1 J2 J3 J4) as (K1 & K2 & K3 & K4).
    repeat split; auto. cbn [List.length]. lia.
Qed.

Lemma list_min_max_bounds l :
  l <> [] -> Forall (fun d => 1 <= d) l -> 1 <= list_min l <= list_max l.
Proof.
  destruct l as [| x l]; [congruence |]. intros _ H.
  apply Forall_cons_iff in H. destruct H as [Hx H].
  unfold list_min, list_max.
  assert (G : forall a b, 1 <= a <= b ->
                          1 <= fold_left Z.min l a <= fold_left Z.max l b).
  { induction H as [| y l Hy _ IHl]; intros a b Hab; cbn [fold_left]; [exact Hab |].
    apply IHl. lia. }
  apply G. lia.
Qed.

(** In the bundle of any list of records, the duration count is at most
    the number of records, every counted duration is at least one day (so
    [total_days >= count]), and when a duration was counted [min_days] and
    [max_days] are there with [1 <= min_days <= max_days]; when none was,
    the averages and the extremes are left out. *)
Theorem duration_bundle_bounds (trials : list value) (bundle : value) :
  statistics_of (VList trials) = Ok bundle ->
  exists duration count total,
    py_get1 bundle "duration" = Ok duration
    /\ py_get1 duration "count" = Ok (VInt count)
    /\ py_get1 duration "total_days" = Ok (VInt total)
    /\ 0 <= count <= Z.of_nat (List.length trials)
    /\ count <= total
    /\ (0 < count ->
        exists lo hi,
          py_get1 duration "min_days" = Ok (VInt lo)
          /\ py_get1 duration "max_days" = Ok (VInt hi)
          /\ 1 <= lo <= hi)
    /\ (count = 0 ->
        keys_of duration = [VStr "total_days"; VStr "count"]).
Proof.
  intros H.
  destruct (statistics_of_inv _ _ H) as (ids & en & du & _ & _ & Hd & ->).
  destruct (duration_invariant trials initial_stats 0 eq_refl eq_refl
              (Forall_nil _) (Nat.le_refl _)) as (K1 & K2 & K3 & K4).
  fold (final_stats trials) in K1, K2, K3, K4.
  set (st := final_stats trials) in *.
  assert (Hsum : Z.of_nat (List.length (st_durations st))
                 <= fold_right Z.add 0 (st_durations st)).
  { clear - K3. induction K3 as [| x l Hx _ IHl]; cbn [List.length fold_right]; lia. }
  exists du, (st_duration_count st), (st_total_days st).
  split; [reflexivity |].
  destruct (duration_value_inv _ _ Hd) as [(G & a & m & y & ->) | (G & ->)].
  - split; [reflexivity |]. split; [reflexivity |].
    split; [lia |]. split; [lia |]. split.
    + intros _. exists (list_min (st_durations st)), (list_max (st_durations st)).
      split; [reflexivity |]. split; [reflexivity |].
      apply list_min_max_bounds; [| exact K3].
      intros E. rewrite E in K1. cbn in K1. apply Z.gtb_lt in G. lia.
    + intros E. apply Z.gtb_lt in G. lia.
  - split; [reflexivity |]. split; [reflexivity |].
    split; [lia |]. split; [lia |]. split.
    + intros P. rewrite Z.gtb_ltb in G. apply Z.ltb_ge in G. lia.
    + intros _. reflexivity.
Qed.

Lemma duration_bundle_bounds_witness :
  exists bundle duration,
    statistics_of
      (VList [obj [("dates", obj [("start", VStr "March 2019");
                                  ("completion", VStr "2020-02-29")])];
              obj [("dates", obj [("start", VStr "2021-06-01");
                                  ("completion", VStr "2021-06-01")])]])
    = Ok bundle
    /\ py_get1 bundle "duration" = Ok duration
    /\ py_get1 duration "count" = Ok (VInt 1).
Proof.
  eexists.
  edestruct (duration_bundle_bounds
               [obj [("dates", obj [("start", VStr "March 2019");
                                    ("completion", VStr "2020-02-29")])];
                obj [("dates", obj [("start", VStr "2021-06-01");
                                    ("completion", VStr "2021-06-01")])]])
    as (duration & count & total & H1 & H2 & _); [vm_compute; reflexivity |].
  exists duration. split; [reflexivity |]. split; [exact H1 |].
  vm_compute in H1. injection H1 as <-. reflexivity.
Defined.

(** ** The counters of the statistics *)

Lemma post_ret {A : Type} (P : stats -> Prop) (a : A) Q Qex :
  (forall st, P st -> Q a st) -> post P (ret a) Q Qex.
Proof. intros H st Hst. exact (H st Hst). Qed.

Lemma post_pbind {A B : Type} (P : stats -> Prop) (m : prog stats A)
  (k : A -> prog stats B) Q1 Q2 Qex :
  post P m Q1 Qex -> (forall a, post (Q1 a) (k a) Q2 Qex) -> post P (pbind m k) Q2 Qex.
Proof.
  intros Hm Hk st Hst. unfold pbind. specialize (Hm st Hst).
  destruct (m st) as [[a | e] st']; [exact (Hk a st' Hm) | exact Hm].
Qed.

Lemma post_pbind_lift {A B : Type} (P : stats -> Prop) (r : result A)
  (k : A -> prog stats B) Q Qex :
  (forall st, P st -> Qex st) ->
  (forall a, r = Ok a -> post P (k a) Q Qex) ->
  post P (pbind (lift r) k) Q Qex.
Proof.
  intros Hex Hk st Hst. unfold pbind, lift.
  destruct r as [a | e]; [exact (Hk a eq_refl st Hst) | exact (Hex st Hst)].
Qed.

Lemma post_ptry {A : Type} (P : stats -> Prop) (body : prog stats A)
  (handler : exn -> prog stats A) Q Qmid Qex :
  post P body Q Qmid -> (forall e, post Qmid (handler e) Q Qex) ->
  post P (ptry body handler) Q Qex.
Proof.
  intros Hb Hh st Hst. unfold ptry. specialize (Hb st Hst).
  destruct (body st) as [[a | e] st']; [exact Hb | exact (Hh e st' Hb)].
Qed.

Lemma post_weaken {A : Type} (P P' : stats -> Prop) (m : prog stats A)
  (Q Q' : A -> stats -> Prop) (Qex Qex' : stats -> Prop) :
  post P' m Q' Qex' ->
  (forall st, P st -> P' st) ->
  (forall a st, Q' a st -> Q a st) ->
  (forall st, Qex' st -> Qex st) ->
  post P m Q Qex.
Proof.
  intros H HP HQ HE st Hst. specialize (H st (HP st Hst)).
  destruct (m st) as [[a | e] st']; auto.
Qed.

(** Counting a key adds one to the total of its table. *)
Lemma tally_total key table table' :
  tally key table = Ok table' -> table_total table' = table_total table + 1.
Proof.
  unfold tally. destruct (hashable key); [| discriminate].
  intros H. injection H as <-.
  induction table as [| [k0 n0] table IH]; cbn [dict_lookup dict_set].
  - unfold table_total. simpl. lia.
  - destruct (key_eqb key k0).
    + unfold table_total. simpl. lia.
    + unfold table_total in *. cbn [map snd fold_right]. rewrite IH. lia.
Qed.

Lemma tally_hashable key table :
  hashable key = true -> exists table', tally key table = Ok table'.
Proof. intros H. unfold tally. rewrite H. eauto. Qed.

Section Keeps.

Context {X : Type} (f : stats -> X).

Lemma keeps_gen_ret {A : Type} (a : A) : keeps f (@ret stats A a).
Proof. intros st. reflexivity. Qed.

Lemma keeps_gen_lift {A : Type} (r : result A) : keeps f (@lift stats A r).
Proof. intros st. reflexivity. Qed.

Lemma keeps_gen_pbind {A B : Type} (m : prog stats A) (k : A -> prog stats B) :
  keeps f m -> (forall a, keeps f (k a)) -> keeps f (pbind m k).
Proof.
  intros Hm Hk st. unfold pbind. specialize (Hm st).
  destruct (m st) as [[a | e] st']; cbn [snd] in *; [rewrite Hk |]; exact Hm.
Qed.

Lemma keeps_gen_ptry {A : Type} (body : prog stats A) (handler : exn -> prog stats A) :
  keeps f body -> (forall e, keeps f (handler e)) -> keeps f (ptry body handler).
Proof.
  intros Hb Hh st. unfold ptry. specialize (Hb st).
  destruct (body st) as [[a | e] st']; cbn [snd] in *; [| rewrite Hh]; exact Hb.
Qed.

Lemma keeps_gen_for_each {A : Type} (body : A -> prog stats unit) (xs : list A) :
  (forall x, keeps f (body x)) -> keeps f (for_each body xs).
Proof.
  intros Hb. induction xs as [| x xs IH]; cbn [for_each].
  - apply keeps_gen_ret.
  - apply keeps_gen_pbind; [apply Hb | intros _; exact IH].
Qed.

(** What holds of [f] before a step that keeps it holds after, on both
    exits. *)
Lemma post_of_keeps {A : Type} (m : prog stats A) (S : X -> Prop) :
  keeps f m ->
  post (fun st => S (f st)) m (fun _ st => S (f st)) (fun st => S (f st)).
Proof.
  intros H st Hst. specialize (H st).
  destruct (m st) as [[a | e] st']; cbn [snd] in H; rewrite H; exact Hst.
Qed.

End Keeps.

(** Closes a goal [keeps f m] for a sequence of statements none of which
    touches [f]. *)
Ltac keeps_auto :=
  repeat first
    [ apply keeps_gen_ret
    | apply keeps_gen_lift
    | apply keeps_gen_ptry; [| intros ?]
    | apply keeps_gen_for_each; intros ?
    | apply keeps_gen_pbind; [| intros ?]
    | match goal with
      | |- keeps _ (if ?b then _ else _) => destruct b
      | |- keeps _ (match ?x with Some _ => _ | None => _ end) => destruct x
      | |- keeps _ (duration_step _ _) => unfold duration_step
      end
    | (intros st;
       unfold tally_phase, tally_status, tally_studyType, tally_sponsor,
         add_enrollment_total, incr_enrollment_count, add_duration;
       repeat match goal with
              | |- context [match ?x with Ok _ => _ | Raise _ => _ end] => destruct x
              end;
       reflexivity) ].

Lemma stage_exit k n cs : stage k n cs -> nested (n + 1) cs.
Proof.
  destruct cs as [[[[a b] c] d] e].
  destruct k as [| [| [| [| [| k]]]]]; cbn [stage nested]; lia.
Qed.

Lemma post_tally_status key n :
  post (fun st => stage 0 n (counters_of st)) (tally_status key)
       (fun _ st => stage 1 n (counters_of st))
       (fun st => nested (n + 1) (counters_of st)).
Proof.
  intros st H. unfold tally_status.
  destruct (tally key (st_statuses st)) as [t | e] eqn:E.
  - apply tally_total in E. unfold counters_of in *. cbn [st_statuses st_studyTypes
      st_sponsors st_enrollment_count st_duration_count stage nested] in *. lia.
  - exact (stage_exit 0 n _ H).
Qed.

Lemma post_tally_studyType key n :
  post (fun st => stage 1 n (counters_of st)) (tally_studyType key)
       (fun _ st => stage 2 n (counters_of st))
       (fun st => nested (n + 1) (counters_of st)).
Proof.
  intros st H. unfold tally_studyType.
  destruct (tally key (st_studyTypes st)) as [t | e] eqn:E.
  - apply tally_total in E. unfold counters_of in *. cbn [st_statuses st_studyTypes
      st_sponsors st_enrollment_count st_duration_count stage nested] in *. lia.
  - exact (stage_exit 1 n _ H).
Qed.

Lemma post_tally_sponsor key n :
  post (fun st => stage 2 n (counters_of st)) (tally_sponsor key)
       (fun _ st => stage 3 n (counters_of st))
       (fun st => nested (n + 1) (counters_of st)).
Proof.
  intros st H. unfold tally_sponsor.
  destruct (tally key (st_sponsors st)) as [t | e] eqn:E.
  - apply tally_total in E. unfold counters_of in *. cbn [st_statuses st_studyTypes
      st_sponsors st_enrollment_count st_duration_count stage nested] in *. lia.
  - exact (stage_exit 2 n _ H).
Qed.

Lemma post_stage_lift {A B : Type} k n (r : result A) (c : A -> prog stats B) Q :
  (forall a, r = Ok a ->
             post (fun st => stage k n (counters_of st)) (c a) Q
                  (fun st => nested (n + 1) (counters_of st))) ->
  post (fun st => stage k n (counters_of st)) (pbind (lift r) c) Q
       (fun st => nested (n + 1) (counters_of st)).
Proof.
  intros H. apply post_pbind_lift; [| exact H].
  intros st Hst. exact (stage_exit k n _ Hst).
Qed.

Lemma post_stage_keeps {A : Type} k n (m : prog stats A) :
  keeps counters_of m ->
  post (fun st => stage k n (counters_of st)) m
       (fun _ st => stage k n (counters_of st))
       (fun st => nested (n + 1) (counters_of st)).
Proof.
  intros H.
  eapply post_weaken; [exact (post_of_keeps counters_of m (stage k n) H) | auto | auto |].
  intros st Hst. exact (stage_exit k n _ Hst).
Qed.

Lemma post_enrollment (counted : bool) enrollment n :
  post (fun st => stage 3 n (counters_of st))
       (if counted then
          pbind (lift (py_getitem enrollment "count"))
                (fun c => pbind (add_enrollment_total c) (fun _ => incr_enrollment_count))
        else ret tt)
       (fun _ st => stage 4 n (counters_of st))
       (fun st => nested (n + 1) (counters_of st)).
Proof.
  destruct counted.
  - apply post_stage_lift. intros c _.
    eapply post_pbind; [apply (post_stage_keeps 3 n); keeps_auto |].
    intros _ st H. unfold incr_enrollment_count, counters_of in *.
    cbn [st_statuses st_studyTypes st_sponsors st_enrollment_count st_duration_count
         stage nested] in *. lia.
  - apply post_ret. intros st. destruct (counters_of st) as [[[[a b] c] d] e].
    cbn [stage nested]. lia.
Qed.

Lemma post_duration_step start completion n :
  post (fun st => stage 4 n (counters_of st)) (duration_step start completion)
       (fun _ st => nested (n + 1) (counters_of st))
       (fun st => nested (n + 1) (counters_of st)).
Proof.
  assert (Exit : forall st, stage 4 n (counters_of st) -> nested (n + 1) (counters_of st)).
  { intros st. apply stage_exit. }
  unfold duration_step.
  destruct (truthy start && truthy completion); [| apply post_ret; exact Exit].
  eapply post_ptry; [| intros e; apply post_ret; intros st H; exact H].
  apply post_stage_lift. intros s _.
  apply post_stage_lift. intros c _.
  destruct s as [s |]; [| apply post_ret; exact Exit].
  destruct c as [c |]; [| apply post_ret; exact Exit].
  destruct (datetime_gt c s); [| apply post_ret; exact Exit].
  intros st H. unfold add_duration, counters_of in *.
  cbn [st_statuses st_studyTypes st_sponsors st_enrollment_count st_duration_count
       stage nested] in *. lia.
Qed.

(** A turn of the loop keeps the counters nested, whatever the record. *)
Lemma stats_step_nested trial n :
  post (fun st => stage 0 n (counters_of st)) (stats_step trial)
       (fun _ st => nested (n + 1) (counters_of st))
       (fun _ => False).
Proof.
  unfold stats_step.
  eapply post_ptry; [| intros e; apply post_ret; intros st H; exact H].
  apply post_stage_lift; intros phases _.
  apply post_stage_lift; intros items _.
  eapply post_pbind; [apply (post_stage_keeps 0 n); keeps_auto | intros ?].
  apply post_stage_lift; intros trial_status _.
  eapply post_pbind; [apply post_tally_status | intros ?].
  apply post_stage_lift; intros study_type _.
  eapply post_pbind; [apply post_tally_studyType | intros ?].
  apply post_stage_lift; intros trial_sponsor _.
  eapply post_pbind; [apply post_tally_sponsor | intros ?].
  apply post_stage_lift; intros enrollment _.
  apply post_stage_lift; intros has_count _.
  apply post_stage_lift; intros counted _.
  eapply post_pbind; [apply post_enrollment | intros ?].
  apply post_stage_lift; intros dates _.
  apply post_stage_lift; intros start _.
  apply post_stage_lift; intros completion _.
  apply post_duration_step.
Qed.

Lemma stats_loop_nested trials :
  forall st n,
    nested n (counters_of st) ->
    nested (n + Z.of_nat (List.length trials))
           (counters_of (snd (for_each stats_step trials st))).
Proof.
  induction trials as [| trial trials IH]; intros st n H.
  - cbn. replace (n + 0) with n by lia. exact H.
  - cbn [for_each]. unfold pbind.
    assert (H0 : stage 0 n (counters_of st)).
    { destruct (counters_of st) as [[[[a b] c] d] e]. exact H. }
    pose proof (stats_step_nested trial n st H0) as Hs.
    destruct (stats_step trial st) as [[[] | e] st1]; [| contradiction].
    specialize (IH st1 (n + 1) Hs).
    replace (n + Z.of_nat (List.length (trial :: trials)))
      with (n + 1 + Z.of_nat (List.length trials)) by (cbn [List.length]; lia).
    exact IH.
Qed.

(** The counters of the bundle are nested in the order of the statements
    of the loop: for any records, the counts of the statuses add up to at
    most the number of records, those of the study types to at most those
    of the statuses, those of the sponsors to at most those of the study
    types, and the enrollment count and the duration count are at most the
    total of the sponsors. *)
Theorem statistics_counters_nested (trials : list value) (bundle : value) :
  statistics_of (VList trials) = Ok bundle ->
  exists statuses study_types sponsors enrollment duration enrolled durations,
    py_get1 bundle "statuses" = Ok (table_value statuses)
    /\ py_get1 bundle "studyTypes" = Ok (table_value study_types)
    /\ py_get1 bundle "sponsors" = Ok (table_value sponsors)
    /\ py_get1 bundle "enrollment" = Ok enrollment
    /\ py_get1 enrollment "count" = Ok (VInt enrolled)
    /\ py_get1 bundle "duration" = Ok duration
    /\ py_get1 duration "count" = Ok (VInt durations)
    /\ table_total statuses <= Z.of_nat (List.length trials)
    /\ table_total study_types <= table_total statuses
    /\ table_total sponsors <= table_total study_types
    /\ enrolled <= table_total sponsors
    /\ durations <= table_total sponsors.
Proof.
  intros H.
  destruct (statistics_of_inv _ _ H) as (ids & en & du & _ & He & Hd & ->).
  pose proof (stats_loop_nested trials initial_stats 0) as N.
  fold (final_stats trials) in N. set (st := final_stats trials) in *.
  assert (N0 : nested 0 (counters_of initial_stats)) by (cbn; lia).
  specialize (N N0). unfold counters_of in N. cbn [nested] in N.
  destruct (enrollment_value_inv _ _ He) as (_ & Hcount & _).
  exists (st_statuses st), (st_studyTypes st), (st_sponsors st), en, du,
         (st_enrollment_count st), (st_duration_count st).
  split; [reflexivity |]. split; [reflexivity |]. split; [reflexivity |].
  split; [reflexivity |]. split; [exact Hcount |].
  split; [reflexivity |].
  split; [destruct (duration_value_inv _ _ Hd) as [(_ & a & m & y & ->) | (_ & ->)];
          reflexivity |].
  lia.
Qed.

Lemma statistics_counters_nested_witness :
  exists bundle statuses,
    statistics_of
      (VList [obj [("status", VStr "Completed")];
              obj [("status", VList [VStr "Completed"])];
              obj [("status", VStr "Recruiting"); ("studyType", VDict [])]])
    = Ok bundle
    /\ py_get1 bundle "statuses" = Ok (table_value statuses)
    /\ table_total statuses <= 3.
Proof.
  eexists.
  edestruct (statistics_counters_nested
               [obj [("status", VStr "Completed")];
                obj [("status", VList [VStr "Completed"])];
                obj [("status", VStr "Recruiting"); ("studyType", VDict [])]])
    as (statuses & tys & sps & en & du & ec & dc & H1 & _ & _ & _ & _ & _ & _ & H8 & _);
    [vm_compute; reflexivity |].
  exists statuses. split; [reflexivity |]. split; [exact H1 | exact H8].
Defined.

Lemma post_pbind_lift_ok {A B : Type} (P : stats -> Prop) (r : result A) (a : A)
  (k : A -> prog stats B) Q Qex :
  r = Ok a -> post P (k a) Q Qex -> post P (pbind (lift r) k) Q Qex.
Proof. intros -> H st Hst. exact (H st Hst). Qed.

(** Counting hashable phases does not raise and leaves the statuses alone. *)
Lemma post_phases_hashable phases n :
  forallb hashable phases = true ->
  post (fun st => statuses_total st = n) (for_each tally_phase phases)
       (fun _ st => statuses_total st = n) (fun _ => False).
Proof.
  induction phases as [| p phases IH]; intros H.
  - apply post_ret. auto.
  - cbn [forallb] in H. apply andb_prop in H as [Hp Hrest].
    cbn [for_each]. eapply post_pbind; [| intros ?; exact (IH Hrest)].
    intros st Hst. unfold tally_phase.
    destruct (tally_hashable p (st_phases st) Hp) as [t ->]. exact Hst.
Qed.

Lemma post_status_hashable status n :
  hashable status = true ->
  post (fun st => statuses_total st = n) (tally_status status)
       (fun _ st => statuses_total st = n + 1) (fun _ => False).
Proof.
  intros H st Hst. unfold tally_status.
  destruct (tally_hashable status (st_statuses st) H) as [t E]. rewrite E.
  apply tally_total in E. unfold statuses_total in *. cbn [st_statuses]. lia.
Qed.

(** A turn of the loop on a countable record adds one to the statuses. *)
Lemma stats_step_counts trial n :
  countable trial ->
  post (fun st => statuses_total st = n) (stats_step trial)
       (fun _ st => statuses_total st = n + 1) (fun _ => False).
Proof.
  intros (phases & status & E1 & H1 & E2 & H2).
  unfold stats_step.
  eapply post_ptry with (Qmid := fun st => statuses_total st = n + 1);
    [| intros e; apply post_ret; intros st H; exact H].
  eapply post_pbind_lift_ok; [exact E1 |].
  eapply post_pbind_lift_ok; [reflexivity |].
  eapply post_pbind.
  { eapply post_weaken; [exact (post_phases_hashable phases n H1) | auto | | contradiction].
    intros ? st H. exact H. }
  intros ?. cbv beta.
  eapply post_pbind_lift_ok; [exact E2 |].
  eapply post_pbind.
  { eapply post_weaken; [exact (post_status_hashable status n H2) | auto | | contradiction].
    intros ? st H. exact H. }
  intros ?. cbv beta.
  apply (post_of_keeps statuses_total _ (fun total => total = n + 1)).
  keeps_auto.
Qed.

Lemma stats_loop_counts trials :
  Forall countable trials ->
  forall st,
    statuses_total (snd (for_each stats_step trials st))
    = statuses_total st + Z.of_nat (List.length trials).
Proof.
  induction 1 as [| trial trials Ht _ IH]; intros st.
  - cbn. lia.
  - cbn [for_each]. unfold pbind.
    pose proof (stats_step_counts trial (statuses_total st) Ht st eq_refl) as Hs.
    destruct (stats_step trial st) as [[[] | e] st1]; [| contradiction].
    rewrite IH, Hs. cbn [List.length]. lia.
Qed.

(** When every record has a list of hashable phases and a hashable status
    (what [_parse_study] gives for a study whose phases are strings and whose
    status is a string or missing), each record is counted under one status:
    the counts of [statuses] add up to [total_trials]. *)
Theorem statistics_statuses_total (trials : list value) (bundle : value) :
  Forall countable trials ->
  statistics_of (VList trials) = Ok bundle ->
  exists statuses,
    py_get1 bundle "statuses" = Ok (table_value statuses)
    /\ py_get1 bundle "total_trials" = Ok (VInt (table_total statuses))
    /\ table_total statuses = Z.of_nat (List.length trials).
Proof.
  intros Hc H.
  destruct (statistics_of_inv _ _ H) as (ids & en & du & _ & _ & _ & ->).
  pose proof (stats_loop_counts trials Hc initial_stats) as N.
  unfold statuses_total in N. cbn [initial_stats st_statuses] in N.
  change (table_total []) with 0 in N.
  exists (st_statuses (final_stats trials)).
  split; [reflexivity |]. split; [| unfold final_stats; lia].
  unfold final_stats. rewrite N. reflexivity.
Qed.

Lemma statistics_statuses_total_witness :
  exists bundle statuses,
    statistics_of
      (VList [obj [("nctId", VStr "NCT01"); ("status", VStr "Completed");
                   ("phases", VList [VStr "PHASE1"; VStr "PHASE2"]);
                   ("sponsor", VList [])];
              obj [("nctId", VStr "NCT02"); ("status", VStr "Completed")];
              obj [("nctId", VStr "NCT03"); ("studyType", VDict [])]])
    = Ok bundle
    /\ py_get1 bundle "statuses" = Ok (table_value statuses)
    /\ table_total statuses = 3.
Proof.
  eexists.
  edestruct (statistics_statuses_total
               [obj [("nctId", VStr "NCT01"); ("status", VStr "Completed");
                     ("phases", VList [VStr "PHASE1"; VStr "PHASE2"]);
                     ("sponsor", VList [])];
                obj [("nctId", VStr "NCT02"); ("status", VStr "Completed")];
                obj [("nctId", VStr "NCT03"); ("studyType", VDict [])]])
    as (statuses & H1 & _ & H3).
  - repeat constructor.
    + exists [VStr "PHASE1"; VStr "PHASE2"], (VStr "Completed"). repeat split.
    + exists [], (VStr "Completed"). repeat split.
    + exists [], (VStr "Unknown"). repeat split.
  - vm_compute. reflexivity.
  - exists statuses. split; [reflexivity |]. split; [exact H1 | exact H3].
Defined.

(** ** The logger *)

Lemma str_length_app (a b : string) :
  String.length (a ++ b) = (String.length a + String.length b)%nat.
Proof. induction a as [| c a IH]; simpl; congruence. Qed.

Lemma str_take_exact n s :
  (n <= String.length s)%nat -> String.length (str_take n s) = n.
Proof.
  revert s. induction n as [| n IH]; intros s H; [reflexivity |].
  destruct s as [| c s]; simpl in *; [lia |]. rewrite IH; lia.
Qed.

Lemma str_take_all n s : (String.length s <= n)%nat -> str_take n s = s.
Proof.
  revert s. induction n as [| n IH]; intros s H.
  - destruct s; simpl in *; [reflexivity | lia].
  - destruct s as [| c s]; simpl in *; [reflexivity |]. rewrite IH; [reflexivity | lia].
Qed.

Lemma str_take_app n s rest :
  (n <= String.length s)%nat -> str_take n (str_take n s ++ rest) = str_take n s.
Proof.
  revert s. induction n as [| n IH]; intros s H; [reflexivity |].
  destruct s as [| c s]; simpl in *; [lia |]. rewrite IH; [reflexivity | lia].
Qed.

(** On a string [_truncate_result] returns a string with the same first
    [max_length] characters: the string itself when it has at most
    [max_length] characters, else its first [max_length] characters
    followed by the fifteen characters of the mark, so that a truncated
    preview is fifteen characters longer than [max_length]; truncating the
    preview once more gives the preview again. *)
Theorem truncate_result_str dumps py_str (s : string) (max_length : nat) :
  exists out,
    _truncate_result dumps py_str (VStr s) max_length = Ok (VStr out)
    /\ str_take max_length out = str_take max_length s
    /\ (String.length out <= max_length + 15)%nat
    /\ ((String.length s <= max_length)%nat -> out = s)
    /\ ((max_length < String.length s)%nat ->
        String.length out = (max_length + 15)%nat
        /\ out = (str_take max_length s ++ "... [truncated]")%string)
    /\ _truncate_result dumps py_str (VStr out) max_length = Ok (VStr out).
Proof.
  cbn [_truncate_result].
  destruct (Z.of_nat (String.length s) >? Z.of_nat max_length) eqn:G.
  - rewrite Z.gtb_ltb in G. apply Z.ltb_lt in G.
    assert (L : (max_length < String.length s)%nat) by lia.
    assert (Len : String.length (str_take max_length s ++ TRUNCATED)
                  = (max_length + 15)%nat).
    { rewrite str_length_app, str_take_exact by lia. reflexivity. }
    eexists. split; [reflexivity |].
    split; [apply str_take_app; lia |].
    split; [lia |].
    split; [intros ?; lia |].
    split; [intros _; split; [exact Len | reflexivity] |].
    cbn [_truncate_result]. rewrite Len.
    replace (Z.of_nat (max_length + 15) >? Z.of_nat max_length) with true
      by (symmetry; rewrite Z.gtb_ltb; apply Z.ltb_lt; lia).
    rewrite str_take_app by lia. reflexivity.
  - exists s. split; [reflexivity |]. split; [reflexivity |].
    cbn [_truncate_result]. rewrite G.
    rewrite Z.gtb_ltb in G. apply Z.ltb_ge in G.
    split; [lia |]. split; [reflexivity |]. split; [intros ?; lia | reflexivity].
Qed.


Lemma truncate_result_str_witness :
  exists out,
    _truncate_result (fun _ => Ok "{}") (fun _ => "None") (VStr "abcdef") 3 = Ok (VStr out)
    /\ String.length out = 18%nat.
Proof.
  destruct (truncate_result_str (fun _ => Ok "{}") (fun _ => "None") "abcdef" 3)
    as (out & H & _ & _ & _ & L & _).
  exists out. split; [exact H | apply L; simpl; lia].
Defined.


(** ** The closing divisions of [calculate_statistics] *)

Lemma valid_year_max d : valid d = true -> year d <= 9999.
Proof.
  unfold valid, valid_date. intros H.
  repeat (apply andb_prop in H; destruct H as [H ?]).
  apply Z.leb_le. assumption.
Qed.

(** [date.min.toordinal()] is 1 and [date.max.toordinal()] is 3652059. *)
Lemma toordinal_bounds d : valid d = true -> 1 <= toordinal d <= 3652059.
Proof.
  intros V. pose proof (valid_year_max d V) as Ymax.
  apply valid_bounds in V. destruct V as (Y & M & D).
  unfold toordinal.
  pose proof (days_before_year_mono 1 (year d) Y) as Lo.
  change (days_before_year 1) with 0 in Lo.
  pose proof (days_before_year_mono (year d + 1) 10000 ltac:(lia)) as Hi.
  change (days_before_year 10000) with 3652059 in Hi.
  rewrite days_before_year_succ in Hi.
  pose proof (days_before_month_year (year d) (month d) M).
  pose proof (days_before_month_nonneg (year d) (month d) M).
  lia.
Qed.

Lemma days_between_bounds c s :
  valid c = true -> valid s = true -> datetime_gt c s = true ->
  1 <= days_between c s <= MAX_DAYS.
Proof.
  intros Vc Vs G. split; [exact (toordinal_gt c s Vc Vs G) |].
  pose proof (toordinal_bounds c Vc). pose proof (toordinal_bounds s Vs).
  unfold days_between, MAX_DAYS. lia.
Qed.

Lemma float_limit_days : MAX_DAYS < FLOAT_LIMIT.
Proof. reflexivity. Qed.

Lemma half_even_pos num den : 0 < den -> 2 * den <= num -> 1 <= half_even num den.
Proof.
  intros Hd Hn. unfold half_even.
  assert (F : 2 <= (2 * num + den) / (2 * den)).
  { apply Z.div_le_lower_bound; lia. }
  destruct ((_ =? 0) && _); lia.
Qed.

(** The float of a positive int is not zero. *)
Lemma nearest_int_nonzero n : 1 <= n -> Qeq_bool (nearest (inject_Z n)) 0 = false.
Proof.
  intros Hn. unfold nearest. cbn [inject_Z Qnum Qden].
  rewrite (Z.abs_eq n) by lia.
  replace (n =? 0) with false by (symmetry; apply Z.eqb_neq; lia).
  change (Z.log2 1) with 0. rewrite Z.sub_0_r.
  pose proof (Z.log2_nonneg n) as L0.
  pose proof (Z.log2_spec n ltac:(lia)) as [L1 _].
  replace (0 <=? Z.log2 n) with true by (symmetry; apply Z.leb_le; lia).
  replace (1 * 2 ^ Z.log2 n <=? n) with true by (symmetry; apply Z.leb_le; lia).
  rewrite Z.max_l by lia.
  replace (n <? 0) with false by (symmetry; apply Z.ltb_ge; lia).
  set (x := Z.log2 n - 52).
  assert (V : forall v : Q, 1 <= Qnum v -> Qeq_bool (Qred v) 0 = false).
  { intros v Hv. destruct (Qeq_bool (Qred v) 0) eqn:E; [| reflexivity].
    apply Qeq_bool_iff in E. rewrite Qred_correct in E.
    unfold Qeq in E. cbn in E. lia. }
  apply V.
  destruct (0 <=? x) eqn:Hx.
  - apply Z.leb_le in Hx. cbn [inject_Z Qnum].
    assert (P : 0 < 2 ^ x) by (apply Z.pow_pos_nonneg; lia).
    assert (H : 1 <= half_even n (1 * 2 ^ x)).
    { apply half_even_pos; [lia |].
      replace (Z.log2 n) with (x + 52) in L1 by (unfold x; lia).
      rewrite Z.pow_add_r in L1 by lia.
      assert (2 <= 2 ^ 52) by (vm_compute; discriminate). nia. }
    nia.
  - apply Z.leb_gt in Hx. cbn [Qnum].
    apply half_even_pos; [lia |].
    assert (P : 2 ^ 1 <= 2 ^ (- x)) by (apply Z.pow_le_mono_r; lia).
    change (2 ^ 1) with 2 in P. nia.
Qed.

Lemma py_round_float x ndigits : exists y, py_round (VFloat x) ndigits = Ok (VFloat y).
Proof. destruct x; cbn [py_round]; eauto. Qed.

(** The quotient of two ints when it fits a float. *)
Lemma true_div_int m n :
  0 < n -> Z.abs m < FLOAT_LIMIT * n ->
  true_div (VInt m) (VInt n) = Ok (VFloat (Finite (nearest (inject_Z m / inject_Z n)))).
Proof.
  intros Hn Hm. unfold true_div. cbn [int_of].
  replace (n =? 0) with false by (symmetry; apply Z.eqb_neq; lia).
  rewrite (Z.abs_eq n) by lia.
  replace (FLOAT_LIMIT * n <=? Z.abs m) with false by (symmetry; apply Z.leb_gt; lia).
  reflexivity.
Qed.

(** A finite float divided by a float that is not zero. *)
Lemma true_div_float p q :
  Qeq_bool q 0 = false ->
  true_div (VFloat (Finite p)) (VFloat (Finite q)) = Ok (VFloat (fl (p / q))).
Proof.
  intros Hq. unfold true_div, float_op. cbn [int_of to_float bind float_div].
  rewrite Hq. reflexivity.
Qed.

Lemma literals_finite :
  (exists q, DAYS_PER_MONTH = VFloat (Finite q) /\ Qeq_bool q 0 = false)
  /\ (exists q, DAYS_PER_YEAR = VFloat (Finite q) /\ Qeq_bool q 0 = false).
Proof.
  split.
  - exists (nearest (3044 # 100)). split; vm_compute; reflexivity.
  - exists (nearest (36525 # 100)). split; vm_compute; reflexivity.
Qed.

(** On sound accumulators the duration entry is computed without an
    exception: the average of durations of [MAX_DAYS] at most fits a
    float. *)
Lemma duration_value_ok st :
  sound (averaged st) -> exists duration, duration_value st = Ok duration.
Proof.
  unfold sound, averaged. intros (_ & _ & Hc & Ht).
  unfold duration_value.
  destruct (st_duration_count st >? 0) eqn:G; [| eauto].
  apply Z.gtb_lt in G.
  pose proof float_limit_days as FL.
  rewrite true_div_int; [| lia | rewrite Z.abs_eq by lia; nia].
  cbn [bind].
  set (avg := nearest _).
  destruct literals_finite as ((qm & -> & Hm) & (qy & -> & Hy)).
  destruct (py_round_float (Finite avg) 1) as [a ->]. cbn [bind].
  rewrite (true_div_float avg qm Hm). cbn [bind].
  destruct (py_round_float (fl (avg / qm)) 1) as [m ->]. cbn [bind].
  rewrite (true_div_float avg qy Hy). cbn [bind].
  destruct (py_round_float (fl (avg / qy)) 2) as [y ->]. cbn [bind].
  eauto.
Qed.

(** On sound accumulators the only exception of the enrollment entry is
    the [OverflowError] of its division. *)
Lemma enrollment_value_raises st e :
  sound (averaged st) -> enrollment_value st = Raise e -> exn_kind e = OverflowError.
Proof.
  unfold sound, averaged. intros (Hn & Hc & _) H.
  unfold enrollment_value in H.
  destruct (st_enrollment_count st >? 0) eqn:G; [| discriminate].
  apply Z.gtb_lt in G.
  destruct (true_div _ _) as [v | e'] eqn:D; cbn [bind] in H; [discriminate |].
  injection H as ->.
  destruct Hn as [[n Hn] | [x Hn]]; rewrite Hn in D; unfold true_div in D; cbn [int_of] in D.
  - replace (st_enrollment_count st =? 0) with false in D
      by (symmetry; apply Z.eqb_neq; lia).
    destruct (_ <=? _) in D; [| discriminate].
    injection D as <-. reflexivity.
  - unfold float_op in D. cbn [to_float int_of] in D.
    unfold int_to_float in D. cbn [bind] in D.
    destruct (FLOAT_LIMIT <=? _) in D; cbn [bind] in D.
    + injection D as <-. reflexivity.
    + unfold float_div in D.
      rewrite (nearest_int_nonzero (st_enrollment_count st)) in D by lia.
      destruct x; discriminate.
Qed.

(** The quotient of an int total that no float can hold. *)
Lemma enrollment_value_overflow st total :
  st_enrollment_total st = VInt total ->
  0 < st_enrollment_count st ->
  FLOAT_LIMIT * st_enrollment_count st <= Z.abs total ->
  enrollment_value st
  = Raise (overflow_error "integer division result too large for a float").
Proof.
  intros Ht Hc Hov. unfold enrollment_value.
  replace (st_enrollment_count st >? 0) with true by (symmetry; apply Z.gtb_lt; lia).
  rewrite Ht. unfold true_div. cbn [int_of].
  replace (st_enrollment_count st =? 0) with false by (symmetry; apply Z.eqb_neq; lia).
  rewrite (Z.abs_eq (st_enrollment_count st)) by lia.
  replace (_ <=? _) with true by (symmetry; apply Z.leb_le; lia).
  reflexivity.
Qed.

Lemma num_add_number total x v :
  num_add total x = Ok v -> (exists n, v = VInt n) \/ (exists y, v = VFloat y).
Proof.
  unfold num_add, float_op.
  destruct (int_of total) as [a |]; [destruct (int_of x) as [b |] |].
  - intros H. injection H as <-. eauto.
  - destruct (to_float total) as [[p | e] |]; cbn [bind]; try discriminate;
      destruct (to_float x) as [[q | e'] |]; cbn [bind]; try discriminate.
    intros H. injection H as <-. eauto.
  - destruct (to_float total) as [[p | e] |]; cbn [bind]; try discriminate;
      destruct (to_float x) as [[q | e'] |]; cbn [bind]; try discriminate.
    intros H. injection H as <-. eauto.
Qed.

Lemma post_sound_lift {A B : Type} (r : result A) (c : A -> prog stats B) Q :
  (forall a, r = Ok a ->
             post (fun st => sound (averaged st)) (c a) Q (fun st => sound (averaged st))) ->
  post (fun st => sound (averaged st)) (pbind (lift r) c) Q
       (fun st => sound (averaged st)).
Proof. intros H. apply post_pbind_lift; [auto | exact H]. Qed.

Lemma post_sound_keeps {A : Type} (m : prog stats A) :
  keeps averaged m ->
  post (fun st => sound (averaged st)) m (fun _ st => sound (averaged st))
       (fun st => sound (averaged st)).
Proof. intros H. exact (post_of_keeps averaged m sound H). Qed.

Lemma post_sound_enrollment (counted : bool) enrollment :
  post (fun st => sound (averaged st))
       (if counted then
          pbind (lift (py_getitem enrollment "count"))
                (fun c => pbind (add_enrollment_total c) (fun _ => incr_enrollment_count))
        else ret tt)
       (fun _ st => sound (averaged st)) (fun st => sound (averaged st)).
Proof.
  destruct counted; [| apply post_ret; auto].
  apply post_sound_lift. intros c _.
  eapply post_pbind with (Q1 := fun _ st => sound (averaged st)).
  - intros st H. unfold add_enrollment_total.
    destruct (num_add (st_enrollment_total st) c) as [t | e] eqn:E; [| exact H].
    apply num_add_number in E. unfold sound, averaged in *.
    cbn [st_enrollment_total st_enrollment_count st_total_days st_duration_count].
    destruct H as (_ & H). split; [exact E | exact H].
  - intros ? st H. unfold incr_enrollment_count, sound, averaged in *.
    cbn [st_enrollment_total st_enrollment_count st_total_days st_duration_count].
    destruct H as (H1 & H2 & H3). split; [exact H1 |]. split; [lia | exact H3].
Qed.

Lemma post_sound_duration start completion :
  post (fun st => sound (averaged st)) (duration_step start completion)
       (fun _ st => sound (averaged st)) (fun st => sound (averaged st)).
Proof.
  unfold duration_step.
  destruct (truthy start && truthy completion); [| apply post_ret; auto].
  eapply post_ptry; [| intros e; apply post_ret; intros st H; exact H].
  apply post_sound_lift. intros s Hs.
  apply post_sound_lift. intros c Hc.
  destruct s as [s |]; [| apply post_ret; auto].
  destruct c as [c |]; [| apply post_ret; auto].
  destruct (datetime_gt c s) eqn:G; [| apply post_ret; auto].
  pose proof (days_between_bounds c s (parse_date_valid _ _ Hc) (parse_date_valid _ _ Hs) G)
    as B.
  intros st H. unfold add_duration, sound, averaged in *.
  cbn [st_enrollment_total st_enrollment_count st_total_days st_duration_count].
  destruct H as (H1 & H2 & H3 & H4).
  split; [exact H1 |]. split; [exact H2 |]. split; [lia |]. lia.
Qed.

(** A turn of the loop keeps the accumulators sound, whatever the record. *)
Lemma stats_step_sound trial :
  post (fun st => sound (averaged st)) (stats_step trial)
       (fun _ st => sound (averaged st)) (fun _ => False).
Proof.
  unfold stats_step.
  eapply post_ptry; [| intros e; apply post_ret; intros st H; exact H].
  apply post_sound_lift; intros phases _.
  apply post_sound_lift; intros items _.
  eapply post_pbind; [apply post_sound_keeps; keeps_auto | intros ?].
  apply post_sound_lift; intros trial_status _.
  eapply post_pbind; [apply post_sound_keeps; keeps_auto | intros ?].
  apply post_sound_lift; intros study_type _.
  eapply post_pbind; [apply post_sound_keeps; keeps_auto | intros ?].
  apply post_sound_lift; intros trial_sponsor _.
  eapply post_pbind; [apply post_sound_keeps; keeps_auto | intros ?].
  apply post_sound_lift; intros enrollment _.
  apply post_sound_lift; intros has_count _.
  apply post_sound_lift; intros counted _.
  eapply post_pbind; [apply post_sound_enrollment | intros ?].
  apply post_sound_lift; intros dates _.
  apply post_sound_lift; intros start _.
  apply post_sound_lift; intros completion _.
  apply post_sound_duration.
Qed.

Lemma stats_loop_sound trials :
  forall st,
    sound (averaged st) ->
    fst (for_each stats_step trials st) = Ok tt
    /\ sound (averaged (snd (for_each stats_step trials st))).
Proof.
  induction trials as [| trial trials IH]; intros st H.
  - split; [reflexivity | exact H].
  - cbn [for_each]. unfold pbind.
    pose proof (stats_step_sound trial st H) as Hs.
    destruct (stats_step trial st) as [[[] | e] st1]; [| contradiction].
    exact (IH st1 Hs).
Qed.

(** The loop of [calculate_statistics] never raises and leaves sound
    accumulators. *)
Lemma final_stats_sound trials :
  fst (for_each stats_step trials initial_stats) = Ok tt
  /\ sound (averaged (final_stats trials)).
Proof.
  apply stats_loop_sound. unfold sound, averaged, MAX_DAYS. cbn.
  split; [left; eauto | lia].
Qed.

(** What [statistics_of] does once the loop is over: any exception is the
    [OverflowError] of the enrollment average. *)
Lemma statistics_of_outcome trials :
  forallb is_dict trials = true ->
  (exists bundle enrollment duration,
      statistics_of (VList trials) = Ok bundle
      /\ enrollment_value (final_stats trials) = Ok enrollment
      /\ duration_value (final_stats trials) = Ok duration
      /\ keys_of bundle = map VStr bundle_keys
      /\ py_get1 bundle "total_trials" = Ok (VInt (Z.of_nat (List.length trials))))
  \/ (exists e,
         statistics_of (VList trials) = Raise e
         /\ enrollment_value (final_stats trials) = Raise e
         /\ exn_kind e = OverflowError).
Proof.
  intros Hd. destruct (final_stats_sound trials) as [_ S].
  destruct (nct_ids_ok trials Hd) as [ids Hids].
  destruct (duration_value_ok _ S) as [du Hdu].
  unfold statistics_of. cbn [py_len py_iter bind]. rewrite Hids. cbn [bind].
  fold (final_stats trials).
  destruct (enrollment_value (final_stats trials)) as [en | e] eqn:E; cbn [bind].
  - left. rewrite Hdu. cbn [bind]. do 3 eexists.
    split; [reflexivity |]. split; [reflexivity |]. split; [reflexivity |].
    split; reflexivity.
  - right. exists e. split; [reflexivity |]. split; [reflexivity |].
    exact (enrollment_value_raises _ _ S E).
Qed.



(** [calculate_statistics] has no handler of its own around the
    statistics.  It returns the error object of its search, or a bundle
    with the eight keys of the statistics whose [total_trials] is the
    number of records of the search, or it raises: the [OverflowError] of
    the division that gives the enrollment average, which stands outside
    every [try].  A page whose study has an enrollment count of
    [10 ** 309] makes it raise. *)
Theorem calculate_statistics_outcomes :
  (forall reg c p s l sp N,
      (exists v,
          fst (run (calculate_statistics reg c p s l sp N)) = Ok v
          /\ is_error_value v = true
          /\ fst (run (search_trials reg c p s l sp None None None None N)) = Ok v)
      \/ (exists records,
             fst (run (search_trials reg c p s l sp None None None None N))
             = Ok (VList records)
             /\ ((exists v,
                     fst (run (calculate_statistics reg c p s l sp N)) = Ok v
                     /\ keys_of v = map VStr bundle_keys
                     /\ py_get1 v "total_trials"
                        = Ok (VInt (Z.of_nat (List.length records))))
                 \/ (exists e,
                        fst (run (calculate_statistics reg c p s l sp N)) = Raise e
                        /\ exn_kind e = OverflowError
                        /\ enrollment_value (final_stats records) = Raise e))))
  /\ fst (run (calculate_statistics (reg_page huge_enrollment_page)
                 None None None None None 20))
     = Raise (overflow_error "integer division result too large for a float").
Proof.
  split; [| vm_compute; reflexivity].
  intros reg c p s l sp N.
  unfold calculate_statistics.
  pose proof (search_trials_run reg c p s l sp None None None None N) as R.
  unfold run in *. unfold pbind. rewrite R. cbn [fst].
  unfold search_outcome.
  destruct (page_items _) as [items | e]; cbn [bind].
  - destruct (map_result _ items) as [records | e] eqn:E.
    + cbn [is_error_value lift fst]. right. exists records.
      split; [reflexivity |].
      destruct (statistics_of_outcome records (proj2 (records_of_page _ _ E)))
        as [(b & en & du & Hb & _ & _ & Hk & Ht) | (e & He & Hen & Hk)].
      * left. exists b. rewrite Hb. split; [reflexivity |]. split; [exact Hk | exact Ht].
      * right. exists e. rewrite He. split; [reflexivity |]. split; [exact Hk | exact Hen].
    + left. eexists. split; [reflexivity |]. split; reflexivity.
  - left. eexists. split; [reflexivity |]. split; reflexivity.
Qed.

(** [_truncate_result] on what is not a string.  [None], a boolean and a
    number always come back as text, the first [max_length] characters of
    their [str].  A dict or a list comes back as it is exactly when its
    dump has at most [max_length] characters; with a longer dump, a dict
    gives a one-key [_preview] dict whose text is the first [max_length]
    characters of the dump and the mark, and a list gives a dict that names
    the number of items and holds the first two of them as they are.  The
    only exception is the one of [json.dumps] on a dict or a list. *)
Theorem truncate_result_preview dumps py_str (v : value) (max_length : nat) :
  (is_str v = false -> is_dict v = false -> is_list v = false ->
   _truncate_result dumps py_str v max_length
   = Ok (VStr (str_take max_length (py_str v)))
   /\ (String.length (str_take max_length (py_str v)) <= max_length)%nat)
  /\ (is_dict v = true \/ is_list v = true ->
      (forall e, dumps v = Raise e ->
                 _truncate_result dumps py_str v max_length = Raise e)
      /\ (forall d, dumps v = Ok d -> (String.length d <= max_length)%nat ->
                    _truncate_result dumps py_str v max_length = Ok v))
  /\ (is_dict v = true ->
      forall d, dumps v = Ok d -> (max_length < String.length d)%nat ->
      exists preview,
        _truncate_result dumps py_str v max_length
        = Ok (obj [("_preview", VStr preview)])
        /\ preview = (str_take max_length d ++ "... [truncated]")%string
        /\ String.length preview = (max_length + 15)%nat
        /\ str_take max_length preview = str_take max_length d)
  /\ (forall items,
         v = VList items ->
         forall d, dumps v = Ok d -> (max_length < String.length d)%nat ->
         _truncate_result dumps py_str v max_length
         = Ok (obj [("_preview",
                     VStr ("List with " ++ str_of_int (Z.of_nat (List.length items))
                           ++ " items"));
                    ("_sample", VList (firstn 2 items))]))
  /\ (forall e,
         _truncate_result dumps py_str v max_length = Raise e ->
         dumps v = Raise e /\ (is_dict v = true \/ is_list v = true)).
Proof.
  assert (Long : forall d, (max_length < String.length d)%nat ->
            (Z.of_nat (String.length d) >? Z.of_nat max_length) = true).
  { intros d H. rewrite Z.gtb_ltb. apply Z.ltb_lt. lia. }
  assert (Short : forall d, (String.length d <= max_length)%nat ->
            (Z.of_nat (String.length d) >? Z.of_nat max_length) = false).
  { intros d H. rewrite Z.gtb_ltb. apply Z.ltb_ge. lia. }
  split; [| split; [| split; [| split]]].
  - intros Hs Hd Hl. split; [| apply str_take_length].
    destruct v; try discriminate; reflexivity.
  - intros Hk. split.
    + intros e He. destruct Hk as [Hk | Hk]; destruct v; try discriminate;
        cbn [_truncate_result]; rewrite He; reflexivity.
    + intros d Hd Hlen. destruct Hk as [Hk | Hk]; destruct v; try discriminate;
        cbn [_truncate_result]; rewrite Hd; cbn [bind]; rewrite (Short d Hlen);
        reflexivity.
  - intros Hk d Hd Hlen. destruct v; try discriminate.
    eexists. cbn [_truncate_result]. rewrite Hd. cbn [bind]. rewrite (Long d Hlen).
    split; [reflexivity |]. split; [reflexivity |].
    split; [rewrite str_length_app, str_take_exact by lia; reflexivity |].
    apply str_take_app. lia.
  - intros items -> d Hd Hlen.
    cbn [_truncate_result]. rewrite Hd. cbn [bind]. rewrite (Long d Hlen).
    destruct items; reflexivity.
  - intros e H. destruct v as [| b | z | q | s | items | d]; cbn [_truncate_result] in H;
      try discriminate.
    + destruct (_ >? _) in H; discriminate.
    + destruct (dumps (VList items)) as [r | e'] eqn:D; cbn [bind] in H.
      * destruct (_ >? _) in H; discriminate.
      * injection H as ->. split; [reflexivity | right; reflexivity].
    + destruct (dumps (VDict d)) as [r | e'] eqn:D; cbn [bind] in H.
      * destruct (_ >? _) in H; discriminate.
      * injection H as ->. split; [reflexivity | left; reflexivity].
Qed.

Lemma truncate_result_preview_witness :
  _truncate_result (fun _ => Ok "[1, 2, 3]") (fun _ => "None")
    (VList [VInt 1; VInt 2; VInt 3]) 5
  = Ok (obj [("_preview", VStr "List with 3 items");
             ("_sample", VList [VInt 1; VInt 2])])
  /\ _truncate_result (fun _ => Ok "[1, 2, 3]") (fun _ => "None") VNone 5
     = Ok (VStr "None").
Proof.
  split.
  - apply (proj1 (proj2 (proj2 (proj2
             (truncate_result_preview (fun _ => Ok "[1, 2, 3]") (fun _ => "None")
                (VList [VInt 1; VInt 2; VInt 3]) 5))))
             [VInt 1; VInt 2; VInt 3] eq_refl "[1, 2, 3]" eq_refl).
    simpl. lia.
  - apply (proj1 (proj1 (truncate_result_preview (fun _ => Ok "[1, 2, 3]")
                           (fun _ => "None") VNone 5)
                    eq_refl eq_refl eq_refl)).
Defined.
